(** * LHT diagnostic engine (lht_engine.py): shallow embedding and properties

    The engine is a pipeline of string-scanning stages.  Passages and
    references are Python [str] values; they are modelled as [string]
    (ASCII text), Python [int] values as [Z], lists as [list], and the
    insertion-ordered dictionaries of the source as association lists in
    insertion order.  Operations of the source that can raise
    ([str.index], [d[k]], [l[i]], [max] of an empty sequence, [/], and
    [int()] of a string, which refuses a literal of more than 4300
    digits) return in the [result] monad below, so that "never throws"
    is a statement about the model and not a by-product of totality.
    The string operations ([lower], [upper], [strip], [split], the class
    [\d]) are those of Python on text within ASCII. *)

From Stdlib Require Import Strings.String Strings.Ascii List ZArith Lia Bool.
From Stdlib Require Import Sorting.Sorted Numbers.DecimalString.
Import ListNotations.
Open Scope string_scope.
Open Scope Z_scope.

(* ====================================================================== *)
(** ** Python exceptions as an error monad *)
(* ====================================================================== *)

Module Py.

Inductive exn : Type :=
| ValueError
| IndexError
| KeyError
| ZeroDivisionError.

Inductive result (A : Type) : Type :=
| Return (a : A)
| Raise (e : exn).
Arguments Return {A} a.
Arguments Raise {A} e.

Definition bind {A B : Type} (m : result A) (k : A -> result B) : result B :=
  match m with
  | Return a => k a
  | Raise e => Raise e
  end.

(** A [for] loop whose body may raise, threading the loop state. *)
Fixpoint foldM {A S : Type} (body : S -> A -> result S) (l : list A) (s : S)
  : result S :=
  match l with
  | [] => Return s
  | x :: l' => bind (body s x) (foldM body l')
  end.

(** What one iteration of an appending loop body adds to the list. *)
Definition appended_by {A B : Type} (body : list B -> A -> result (list B))
    (x : A) : list B :=
  match body [] x with
  | Return l => l
  | Raise _ => []
  end.

(** [len(l)] *)
Definition len {A : Type} (l : list A) : Z := Z.of_nat (List.length l).

(** [l[i]] for a non-negative literal index. *)
Definition getitem {A : Type} (l : list A) (i : nat) : result A :=
  match nth_error l i with
  | Some x => Return x
  | None => Raise IndexError
  end.

(** [max(l, key=key)]: the first element whose key is maximal;
    ValueError on an empty sequence. *)
Fixpoint max_from {A : Type} (key : A -> Z) (best : A) (l : list A) : A :=
  match l with
  | [] => best
  | x :: l' => max_from key (if key best <? key x then x else best) l'
  end.

Definition max_by {A : Type} (key : A -> Z) (l : list A) : result A :=
  match l with
  | [] => Raise ValueError
  | x :: l' => Return (max_from key x l')
  end.

(** [sorted(l, key=key, reverse=True)] and [l.sort(key=key, reverse=True)]:
    a stable sort by descending key (elements with equal keys keep their
    original order). *)
Fixpoint insert_desc {A : Type} (key : A -> Z) (x : A) (l : list A) : list A :=
  match l with
  | [] => [x]
  | y :: l' => if key x <? key y then y :: insert_desc key x l' else x :: l
  end.

Fixpoint sorted_desc {A : Type} (key : A -> Z) (l : list A) : list A :=
  match l with
  | [] => []
  | x :: l' => insert_desc key x (sorted_desc key l')
  end.

(** [a < b * (num/den)] for the float factors 0.2 and 0.5 of the source.
    The comparison is the exact rational one; the double product
    [b * 0.2] compares with an integer [a] in the same way for every
    length below 2^50. *)
Definition lt_frac (a b num den : Z) : bool := a * den <? b * num.

End Py.

Notation "x <- m ;; k" := (Py.bind m (fun x => k))
  (at level 61, m at next level, right associativity).

(* ====================================================================== *)
(** ** Python string operations on ASCII text *)
(* ====================================================================== *)

Module Str.

Definition is_upper (c : ascii) : bool :=
  let n := N_of_ascii c in ((65 <=? n) && (n <=? 90))%N.

Definition lower_char (c : ascii) : ascii :=
  if is_upper c then ascii_of_N (N_of_ascii c + 32) else c.

(** [s.lower()]: on ASCII text only the letters A-Z change, and the length
    is kept. *)
Fixpoint lower (s : string) : string :=
  match s with
  | EmptyString => EmptyString
  | String c s' => String (lower_char c) (lower s')
  end.

(** [s.find(sub)]: the least index at which [sub] occurs, if any. *)
Fixpoint find (sub s : string) : option nat :=
  if prefix sub s then Some O
  else match s with
       | EmptyString => None
       | String _ s' => option_map S (find sub s')
       end.

(** [s[n:]] *)
Fixpoint drop (n : nat) (s : string) : string :=
  match n, s with
  | O, _ => s
  | S n', String _ s' => drop n' s'
  | S _, EmptyString => EmptyString
  end.

(** [sub] occurs in [s] at index [n] and at no smaller index. *)
Definition first_occurrence (sub s : string) (n : nat) : Prop :=
  prefix sub (drop n s) = true /\
  forall m, (m < n)%nat -> prefix sub (drop m s) = false.

(** [sub in s] *)
Definition contains (sub s : string) : bool :=
  match find sub s with
  | Some _ => true
  | None => false
  end.

(** [s.index(sub)]: as [find], but ValueError when [sub] does not occur. *)
Definition index (s sub : string) : Py.result Z :=
  match find sub s with
  | Some n => Py.Return (Z.of_nat n)
  | None => Py.Raise Py.ValueError
  end.

(** [any(b in s for b in names)] *)
Definition any_in (names : list string) (s : string) : bool :=
  existsb (fun b => contains b s) names.

(** [x in names] for a list of strings. *)
Definition mem (x : string) (names : list string) : bool :=
  existsb (String.eqb x) names.

(** [s.split(sep)] for a one-character separator. *)
Fixpoint split (sep : ascii) (s : string) : list string :=
  match s with
  | EmptyString => [EmptyString]
  | String c s' =>
      if Ascii.eqb c sep then EmptyString :: split sep s'
      else match split sep s' with
           | h :: t => String c h :: t
           | [] => [String c EmptyString]
           end
  end.

(** Whitespace removed by [s.strip()]: TAB, LF, VT, FF, CR, FS, GS, RS, US
    and the space. *)
Definition is_space (c : ascii) : bool :=
  let n := N_of_ascii c in
  (((9 <=? n) && (n <=? 13)) || ((28 <=? n) && (n <=? 32)))%N.

Fixpoint lstrip (s : string) : string :=
  match s with
  | EmptyString => EmptyString
  | String c s' => if is_space c then lstrip s' else s
  end.

Fixpoint rstrip (s : string) : string :=
  match s with
  | EmptyString => EmptyString
  | String c s' =>
      match rstrip s' with
      | EmptyString => if is_space c then EmptyString else String c EmptyString
      | r => String c r
      end
  end.

Definition strip (s : string) : string := rstrip (lstrip s).

(** Truth value of a string: non-empty. *)
Definition nonempty (s : string) : bool :=
  match s with
  | EmptyString => false
  | String _ _ => true
  end.

(** [sep.join(l)] *)
Definition join (sep : string) (l : list string) : string := String.concat sep l.

(** [str(n)] for a non-negative integer. *)
Definition of_int (n : Z) : string := NilEmpty.string_of_uint (N.to_uint (Z.to_N n)).

(** The regular-expression class [\d] on ASCII text. *)
Definition is_digit (c : ascii) : bool :=
  let n := N_of_ascii c in ((48 <=? n) && (n <=? 57))%N.

(** The longest run of digits at the head of [s], and what follows it. *)
Fixpoint span_digits (s : string) : string * string :=
  match s with
  | EmptyString => (EmptyString, EmptyString)
  | String c s' =>
      if is_digit c then let (d, r) := span_digits s' in (String c d, r)
      else (EmptyString, s)
  end.

(** [re.search(r'(\d+):', s)], returning group 1 of the leftmost match.
    At a start position the greedy [\d+] takes the whole run of digits; a
    shorter run is followed by a digit, never by the colon, so
    backtracking inside the run cannot succeed. *)
Fixpoint search_digits_colon (s : string) : option string :=
  match s with
  | EmptyString => None
  | String _ s' =>
      let (d, r) := span_digits s in
      if nonempty d && prefix ":" r then Some d else search_digits_colon s'
  end.

(** The decimal value of a string of digits. *)
Definition digit_value (c : ascii) : Z := Z.of_N (N_of_ascii c) - 48.

Fixpoint int_from (acc : Z) (d : string) : Z :=
  match d with
  | EmptyString => acc
  | String c d' => int_from (acc * 10 + digit_value c) d'
  end.

Definition to_int (d : string) : Z := int_from 0 d.

(** The default of [sys.get_int_max_str_digits()]: [int()] refuses a
    decimal literal with more digits than this. *)
Definition max_str_digits : Z := 4300.

(** [int(d)] for a string of decimal digits: its decimal value, and
    ValueError when it has more digits than the limit. *)
Definition int (d : string) : Py.result Z :=
  if max_str_digits <? Z.of_nat (String.length d) then Py.Raise Py.ValueError
  else Py.Return (to_int d).

End Str.

(* ====================================================================== *)
(** ** Core enumerations *)
(* ====================================================================== *)

Inductive Spiral : Type :=
| S1_CREATION
| S2_COVENANT
| S3_LAW
| S4_KINGSHIP
| S5_WISDOM
| S6_CHRIST
| S7_NEW_CREATION.

Definition Spiral_value (s : Spiral) : Z :=
  match s with
  | S1_CREATION => 1
  | S2_COVENANT => 2
  | S3_LAW => 3
  | S4_KINGSHIP => 4
  | S5_WISDOM => 5
  | S6_CHRIST => 6
  | S7_NEW_CREATION => 7
  end.

Definition Spiral_name (s : Spiral) : string :=
  match s with
  | S1_CREATION => "S1_CREATION"
  | S2_COVENANT => "S2_COVENANT"
  | S3_LAW => "S3_LAW"
  | S4_KINGSHIP => "S4_KINGSHIP"
  | S5_WISDOM => "S5_WISDOM"
  | S6_CHRIST => "S6_CHRIST"
  | S7_NEW_CREATION => "S7_NEW_CREATION"
  end.

Inductive Quadrant : Type := SW | SE | NE | NW.

Definition Quadrant_value (q : Quadrant) : string :=
  match q with
  | SW => "SW"
  | SE => "SE"
  | NE => "NE"
  | NW => "NW"
  end.

Definition Quadrant_eqb (a b : Quadrant) : bool :=
  match a, b with
  | SW, SW | SE, SE | NE, NE | NW, NW => true
  | _, _ => false
  end.

(** Iteration order of the enumeration ([for q in Quadrant]). *)
Definition Quadrant_members : list Quadrant := [SW; SE; NE; NW].

(* ====================================================================== *)
(** ** 2.1 Spiral assignment *)
(* ====================================================================== *)

Definition exodus_books : list string := ["exodus"].
Definition law_books : list string := ["leviticus"; "numbers"; "deuteronomy"].
Definition kingship_books : list string :=
  ["joshua"; "judges"; "ruth"; "samuel"; "kings"].
Definition wisdom_books : list string :=
  ["job"; "psalm"; "proverb"; "ecclesiastes";
   "song"; "isaiah"; "jeremiah"; "lamentations";
   "ezekiel"; "daniel"; "hosea"; "joel"; "amos";
   "obadiah"; "jonah"; "micah"; "nahum"; "habakkuk";
   "zephaniah"; "haggai"; "zechariah"; "malachi"].
Definition gospel_books : list string := ["matthew"; "mark"; "luke"; "john"].
Definition epistle_john : list string := ["1 john"; "2 john"; "3 john"].
Definition new_creation_books : list string :=
  ["acts"; "romans"; "corinthians"; "galatians";
   "ephesians"; "philippians"; "colossians";
   "thessalonians"; "timothy"; "titus"; "philemon";
   "hebrews"; "james"; "peter"; "john"; "jude";
   "revelation"].

(** The Genesis branch: the chapter is read from the first run of digits
    that a colon follows; [int] of it can raise. *)
Definition genesis_spiral (reference : string) : Py.result Spiral :=
  match Str.search_digits_colon reference with
  | Some d =>
      chapter <- Str.int d ;;
      Py.Return (if chapter <=? 11 then S1_CREATION else S2_COVENANT)
  | None => Py.Return S2_COVENANT
  end.

Definition assign_spiral (reference : string) : Py.result Spiral :=
  let ref_lower := Str.lower reference in
  if Str.contains "genesis" ref_lower then genesis_spiral reference
  else if Str.any_in exodus_books ref_lower then Py.Return S2_COVENANT
  else if Str.any_in law_books ref_lower then Py.Return S3_LAW
  else if Str.any_in kingship_books ref_lower then Py.Return S4_KINGSHIP
  else if Str.any_in wisdom_books ref_lower then Py.Return S5_WISDOM
  else if Str.any_in gospel_books ref_lower
          && Str.contains "john" ref_lower
          && negb (Str.any_in epistle_john ref_lower)
       then Py.Return S6_CHRIST
  else if Str.any_in new_creation_books ref_lower then Py.Return S7_NEW_CREATION
  else Py.Return S6_CHRIST.

(* ====================================================================== *)
(** ** Symbol lexicon *)
(* ====================================================================== *)

Record SymbolData : Type := mkSym {
  meaning : string;
  keywords : list string;
  weight : Z
}.

(** [SYMBOL_LEXICON], in insertion order. *)
Definition SYMBOL_LEXICON : list (string * SymbolData) :=
  [
    ("LIGHT", mkSym "revelation / order" ["light"; "lamp"; "shine"; "brightness"; "dawn"] 3);
    ("DARKNESS", mkSym "chaos / judgment" ["darkness"; "dark"; "shadow"; "night"; "gloom"] 3);
    ("WATER", mkSym "life / chaos / cleansing" ["water"; "waters"; "sea"; "river"; "flood"; "rain"] 3);
    ("FIRE", mkSym "judgment / transformation" ["fire"; "flame"; "burn"; "consume"] 3);
    ("TREE", mkSym "life / choice / growth" ["tree"; "trees"; "branch"; "branches"] 2);
    ("GARDEN", mkSym "communion / presence" ["garden"; "eden"; "paradise"] 3);
    ("MOUNTAIN", mkSym "revelation / covenant" ["mountain"; "mount"; "hill"; "zion"; "sinai"] 3);
    ("WILDERNESS", mkSym "testing / exile" ["wilderness"; "desert"; "waste"] 2);
    ("DUST", mkSym "mortality" ["dust"; "ashes"; "clay"] 2);
    ("SPIRIT", mkSym "breath / empowerment" ["spirit"; "breath"; "wind"; "ghost"] 3);
    ("TEMPLE", mkSym "presence / structure" ["temple"; "sanctuary"; "house of god"] 3);
    ("ALTAR", mkSym "sacrifice / mediation" ["altar"; "altars"] 3);
    ("VEIL", mkSym "separation / access" ["veil"; "curtain"; "vail"] 2);
    ("LAMPSTAND", mkSym "illumination / Spirit" ["lampstand"; "candlestick"; "menorah"] 2);
    ("BREAD", mkSym "communion / wisdom" ["bread"; "loaves"; "manna"] 3);
    ("OIL", mkSym "anointing / Spirit" ["oil"; "anoint"; "anointed"] 2);
    ("BLOOD", mkSym "covenant / atonement" ["blood"; "bloodshed"] 3);
    ("LAMB", mkSym "substitution / innocence" ["lamb"; "lambs"; "sheep"] 3);
    ("PRIEST", mkSym "mediation" ["priest"; "priests"; "priesthood"] 2);
    ("TABERNACLE", mkSym "mobile presence" ["tabernacle"; "tent"; "dwelling"] 2);
    ("KING", mkSym "authority / rule" ["king"; "kings"; "monarch"] 3);
    ("THRONE", mkSym "judgment / legitimacy" ["throne"; "thrones"] 3);
    ("SCEPTER", mkSym "rule / power" ["scepter"; "sceptre"; "rod"] 2);
    ("CROWN", mkSym "honor / destiny" ["crown"; "crowns"; "diadem"] 2);
    ("SWORD", mkSym "judgment / division" ["sword"; "swords"; "blade"] 2);
    ("CITY", mkSym "people / identity" ["city"; "cities"; "jerusalem"; "zion"] 2);
    ("HOUSE", mkSym "lineage / establishment" ["house"; "household"; "dynasty"] 2);
    ("GATE", mkSym "access / authority" ["gate"; "gates"; "door"; "doors"] 2);
    ("PATH", mkSym "direction / discipleship" ["path"; "way"; "ways"; "road"] 2);
    ("WINE", mkSym "joy / covenant blood" ["wine"; "drink"] 2);
    ("CUP", mkSym "destiny / suffering" ["cup"; "cups"] 2);
    ("VOICE", mkSym "revelation / calling" ["voice"; "voices"; "cry"] 2);
    ("HAND", mkSym "action / authority" ["hand"; "hands"] 1);
    ("HEART", mkSym "intention / covenant interiorization" ["heart"; "hearts"] 2);
    ("SEED", mkSym "promise / future" ["seed"; "seeds"; "offspring"] 3);
    ("EGYPT", mkSym "bondage" ["egypt"; "egyptian"] 2);
    ("BABYLON", mkSym "judgment / confusion" ["babylon"; "babylonian"; "babel"] 2);
    ("EXILE", mkSym "fracture" ["exile"; "exiled"; "captivity"; "captive"] 2);
    ("RETURN", mkSym "restoration" ["return"; "returned"; "restore"] 2);
    ("GATHERING", mkSym "redemption" ["gather"; "gathered"; "gathering"] 2);
    ("CROSS", mkSym "death / obedience" ["cross"; "crucify"; "crucified"] 3);
    ("RESURRECTION", mkSym "new creation" ["resurrection"; "risen"; "rose"; "raised"] 3);
    ("SHEPHERD", mkSym "guidance" ["shepherd"; "shepherds"; "pastor"] 2);
    ("BRIDE", mkSym "people of God" ["bride"; "bridegroom"; "marriage"; "wedding"] 2);
    ("SON", mkSym "identity / inheritance" ["son"; "sons"; "child"] 2);
    ("FIG", mkSym "covenant fruit / exposure" ["fig"; "figs"] 2);
    ("OLIVE", mkSym "anointing / endurance / Spirit" ["olive"; "olives"; "olivet"] 2);
    ("VINE", mkSym "dependence / communion" ["vine"; "vines"; "vineyard"] 3);
    ("FRUIT", mkSym "visible outcome" ["fruit"; "fruits"; "harvest"] 2);
    ("THORNS", mkSym "curse / resistance" ["thorns"; "thistles"; "briars"] 2)
  ].

(* ====================================================================== *)
(** ** Quadrant indicators *)
(* ====================================================================== *)

Record Indicators : Type := mkInd {
  ind_keywords : list string;
  situations : list string;
  tone : string
}.

Definition QUADRANT_INDICATORS : list (Quadrant * Indicators) :=
  [ (SW, mkInd ["grave"; "pit"; "sheol"; "death"; "destroyed"; "consumed";
                "darkness"; "deep"; "wrath"; "curse"; "famine"; "plague";
                "finished"; "gave up"; "die"; "perish"]
               ["siege"; "defeat"; "lament"; "catastrophe"]
               "despairing / overwhelmed");
    (SE, mkInd ["sin"; "idolatry"; "rebellion"; "transgression"; "adultery";
                "division"; "scattered"; "broken"; "forsaken"; "betray"]
               ["covenant breaking"; "betrayal"; "turning aside"]
               "accusatory / tense / warning");
    (NE, mkInd ["law"; "commandment"; "statute"; "teaching"; "wisdom";
                "proverb"; "prophecy"; "thus saith"; "vision"; "behold";
                "looked"; "revelation"]
               ["God speaking"; "law given"; "teaching"; "explaining"]
               "clarifying / didactic");
    (NW, mkInd ["restore"; "heal"; "return"; "gather"; "rebuild"; "plant";
                "comfort"; "rejoice"; "new"; "renewed"; "inheritance";
                "resurrection"; "breath"; "live"; "life"]
               ["return from exile"; "healing"; "resurrection"; "fulfillment"]
               "hopeful / resolved / celebratory") ].

(* ====================================================================== *)
(** ** Data structures *)
(* ====================================================================== *)

(** One entry of the per-segment [scores] dictionary. *)
Record QuadScore : Type := mkQuadScore {
  qs_score : Z;
  qs_keywords : list string
}.

Record SegmentScore : Type := mkSegmentScore {
  segment : string;
  seg_quadrant : Quadrant;
  scores : list (Quadrant * QuadScore)
}.

Record Evidence : Type := mkEvidence {
  ev_quadrant : string;
  reason : string
}.

Record QuadrantMapping : Type := mkQuadrantMapping {
  primary_quadrant : Quadrant;
  secondary_quadrant : option Quadrant;
  movement : string;
  evidence : list Evidence;
  segment_scores : list SegmentScore
}.

Record PatternSeed : Type := mkPatternSeed {
  symbol : string;
  local_role : string;
  support : list string;
  score : Z;
  frequency : Z;
  structural_position : Z;
  theological_weight : Z
}.

Record SpiralRole : Type := mkRole {
  role_spiral : Z;
  role : string;
  example : string
}.

Record Placement : Type := mkPlacement {
  position : string;
  place_reason : string
}.

Record EchoTrace : Type := mkEchoTrace {
  et_symbol : string;
  spiral_roles : list SpiralRole;
  overall_arc : string;
  current_passage_stage : Placement
}.

Record GravitySync : Type := mkGravitySync {
  gs_score : Z;
  explanation : string;
  christ_patterns : list string
}.

Record Stages : Type := mkStages {
  stage_4 : bool;
  stage_3 : bool;
  stage_5 : bool
}.

Record Comp435 : Type := mkComp435 {
  has_pattern : bool;
  mapping : option string;
  confidence : string;
  stages : option Stages
}.

Record UrimThummim : Type := mkUrimThummim {
  urim : bool;
  thummim : bool;
  interpretation : string
}.

Record FractalFilter : Type := mkFractalFilter {
  classification : string;
  reasoning : string;
  checklist_results : list (string * bool)
}.

Record TelosRun : Type := mkTelosRun {
  reference : string;
  spiral : Spiral;
  quadrants : QuadrantMapping;
  pattern_seeds : list PatternSeed;
  echo_traces : list EchoTrace;
  gravity_sync_result : GravitySync;
  comp_435_result : Comp435;
  urim_thummim_result : UrimThummim;
  fractal_filter_result : FractalFilter;
  theological_summary : string
}.

(* ====================================================================== *)
(** ** 5.2 QUAD-MAP *)
(* ====================================================================== *)

(** The keywords of a list that occur in a lowered text, in list order. *)
Definition matched (kws : list string) (text_lower : string) : list string :=
  filter (fun keyword => Str.contains keyword text_lower) kws.

(** Lookup [d[k]] in a dictionary keyed by quadrant. *)
Fixpoint quad_get {V : Type} (d : list (Quadrant * V)) (k : Quadrant)
  : Py.result V :=
  match d with
  | [] => Py.Raise Py.KeyError
  | (k', v) :: d' => if Quadrant_eqb k' k then Py.Return v else quad_get d' k
  end.

(** [d[k] += 1] *)
Fixpoint quad_incr (d : list (Quadrant * Z)) (k : Quadrant)
  : Py.result (list (Quadrant * Z)) :=
  match d with
  | [] => Py.Raise Py.KeyError
  | (k', v) :: d' =>
      if Quadrant_eqb k' k then Py.Return ((k', v + 1) :: d')
      else d'' <- quad_incr d' k ;; Py.Return ((k', v) :: d'')
  end.

Definition segments_of (text : string) : list string :=
  let segments :=
    map Str.strip
        (filter (fun s => Str.nonempty (Str.strip s)) (Str.split "." text)) in
  match segments with
  | [] => [text]
  | _ => segments
  end.

Definition quadrant_scores (seg_lower : string) : list (Quadrant * QuadScore) :=
  map (fun qi : Quadrant * Indicators =>
         let (quad, indicators) := qi in
         let matched_keywords := matched (ind_keywords indicators) seg_lower in
         (quad, mkQuadScore (Z.min (Py.len matched_keywords) 3) matched_keywords))
      QUADRANT_INDICATORS.

Definition excerpt (segment : string) : string :=
  if Z.of_nat (String.length segment) >? 50
  then substring 0 50 segment ++ "..."
  else segment.

Definition score_segment (segment : string) : Py.result SegmentScore :=
  let seg_lower := Str.lower segment in
  let scores := quadrant_scores seg_lower in
  best <- Py.max_by (fun x : Quadrant * QuadScore => qs_score (snd x)) scores ;;
  Py.Return (mkSegmentScore (excerpt segment) (fst best) scores).

(** The body of the scoring loop: score a segment and append the result. *)
Definition score_body (segment_scores : list SegmentScore) (segment : string)
  : Py.result (list SegmentScore) :=
  s <- score_segment segment ;; Py.Return (segment_scores ++ [s])%list.

Definition score_segments (segments : list string) : Py.result (list SegmentScore) :=
  Py.foldM score_body segments [].

Definition count_quadrants (segment_scores : list SegmentScore)
  : Py.result (list (Quadrant * Z)) :=
  Py.foldM (fun quad_counts seg => quad_incr quad_counts (seg_quadrant seg))
           segment_scores
           (map (fun q => (q, 0)) Quadrant_members).

(** [_compress_movement] *)
Definition compress_step (compressed : list Quadrant) (q : Quadrant) : list Quadrant :=
  if Quadrant_eqb q (last compressed q) then compressed else (compressed ++ [q])%list.

Definition _compress_movement (sequence : list Quadrant) : string :=
  match sequence with
  | [] => "Unknown"
  | q0 :: rest =>
      let compressed := fold_left compress_step rest [q0] in
      match compressed with
      | [q] => "Static " ++ Quadrant_value q
      | _ => Str.join "→" (map Quadrant_value compressed)
      end
  end.

Definition evidence_reason (keywords : list string) : string :=
  match keywords with
  | [] => "Tonal match"
  | _ => "Keywords: " ++ Str.join ", " keywords
  end.

Definition evidence_step (segment_scores : list SegmentScore)
    (evidence : list Evidence) (qc : Quadrant * Z) : Py.result (list Evidence) :=
  let (quad, count) := qc in
  if count >? 0 then
    let examples :=
      filter (fun s => Quadrant_eqb (seg_quadrant s) quad) segment_scores in
    match examples with
    | [] => Py.Return evidence
    | ex0 :: _ =>
        sc <- quad_get (scores ex0) quad ;;
        let keywords := firstn 3 (qs_keywords sc) in
        Py.Return
          (evidence ++
           [mkEvidence (Quadrant_value quad) (evidence_reason keywords)])%list
    end
  else Py.Return evidence.

Definition quad_map (text : string) : Py.result QuadrantMapping :=
  let segments := segments_of text in
  segment_scores <- score_segments segments ;;
  quad_counts <- count_quadrants segment_scores ;;
  let sorted_quads := Py.sorted_desc snd quad_counts in
  first <- Py.getitem sorted_quads 0 ;;
  let primary := fst first in
  second <- Py.getitem sorted_quads 1 ;;
  let secondary := if snd second >? 0 then Some (fst second) else None in
  let quad_sequence := map seg_quadrant segment_scores in
  let movement := _compress_movement quad_sequence in
  evidence <- Py.foldM (evidence_step segment_scores) sorted_quads [] ;;
  Py.Return (mkQuadrantMapping primary secondary movement evidence segment_scores).

(* ====================================================================== *)
(** ** 5.3 PATTERN-SEED *)
(* ====================================================================== *)

Record Candidate : Type := mkCandidate {
  c_symbol : string;
  c_score : Z;
  c_frequency : Z;
  c_structural_position : Z;
  c_theological_weight : Z;
  c_matches : list string;
  c_meaning : string
}.

(** Structural position from the index of the first match and [len(text)]:
    3 below 20% of the length, 2 below 50%, 1 otherwise. *)
Definition struct_score (first_match_pos text_len : Z) : Z :=
  if Py.lt_frac first_match_pos text_len 2 10 then 3
  else if Py.lt_frac first_match_pos text_len 5 10 then 2
  else 1.

(** The body of the [if matches:] block: [matches] is [m0 :: _]. *)
Definition score_candidate (text text_lower symbol : string) (data : SymbolData)
    (matches : list string) (m0 : string) : Py.result Candidate :=
  let freq_score := Z.min (Py.len matches) 3 in
  first_match_pos <- Str.index text_lower m0 ;;
  let struct_score := struct_score first_match_pos (Z.of_nat (String.length text)) in
  let theo_score := weight data in
  let unique_score := if Py.len matches >=? 3 then 1 else 0 in
  let total_score := freq_score + struct_score + theo_score + unique_score in
  Py.Return (mkCandidate symbol total_score freq_score struct_score theo_score
                         matches (meaning data)).

Definition candidate_step (text text_lower : string) (candidates : list Candidate)
    (entry : string * SymbolData) : Py.result (list Candidate) :=
  let (symbol, data) := entry in
  match matched (keywords data) text_lower with
  | [] => Py.Return candidates
  | (m0 :: _) as matches =>
      c <- score_candidate text text_lower symbol data matches m0 ;;
      Py.Return (candidates ++ [c])%list
  end.

Definition candidates_of (text : string) : Py.result (list Candidate) :=
  Py.foldM (candidate_step text (Str.lower text)) SYMBOL_LEXICON [].

Definition make_seed (c : Candidate) : PatternSeed :=
  let local_role :=
    c_meaning c ++ " (appears as: " ++ Str.join ", " (firstn 2 (c_matches c)) ++ ")" in
  let support :=
    [ "Mentioned " ++ Str.of_int (Py.len (c_matches c)) ++ " time(s)";
      "Theological weight: " ++ Str.of_int (c_theological_weight c) ++ "/3" ] in
  mkPatternSeed (c_symbol c) local_role support (c_score c) (c_frequency c)
                (c_structural_position c) (c_theological_weight c).

(** The selection loop: of the first three sorted candidates, those with
    score at least 4 become seeds, in order. *)
Definition select_seeds (candidates : list Candidate) : list PatternSeed :=
  map make_seed (filter (fun c => c_score c >=? 4) (firstn 3 candidates)).

Definition pattern_seed (text : string) : Py.result (list PatternSeed) :=
  candidates <- candidates_of text ;;
  Py.Return (select_seeds (Py.sorted_desc c_score candidates)).

(* ====================================================================== *)
(** ** 5.4 ECHO-TRACE *)
(* ====================================================================== *)

Definition roles_map : list (string * list SpiralRole) :=
  [ ("WATER",
     [ mkRole 1 "chaos waters separated, flood judgment" "Gen 1:2; Gen 6-9";
       mkRole 2 "Red Sea deliverance, testing waters" "Exod 14; Exod 17";
       mkRole 3 "ritual washings, purity" "Lev 11-15";
       mkRole 4 "drought/blessing cycles" "1 Kings 17-18";
       mkRole 5 "rivers of life promised" "Ezek 47; Ps 46";
       mkRole 6 "living water offered by Christ" "John 4; John 7";
       mkRole 7 "river of life from throne" "Rev 22" ]);
    ("SPIRIT",
     [ mkRole 1 "hovering over chaos, creative breath" "Gen 1:2";
       mkRole 2 "selective empowerment" "Num 11";
       mkRole 3 "linked to prophecy" "Deut 34";
       mkRole 4 "empowering kings/prophets" "1 Sam 16";
       mkRole 5 "promised future outpouring" "Ezek 36-37; Joel 2";
       mkRole 6 "descends on Christ, promised to believers" "Matt 3; John 14-16";
       mkRole 7 "poured out on church" "Acts 2; Rom 8" ]);
    ("LAMB",
     [ mkRole 1 "Abel's offering" "Gen 4";
       mkRole 2 "Passover lamb" "Exod 12";
       mkRole 3 "daily sacrifices" "Lev 1-7";
       mkRole 4 "temple system" "1 Kings 8";
       mkRole 5 "led to slaughter prophecy" "Isa 53";
       mkRole 6 "John's 'Lamb of God'" "John 1:29";
       mkRole 7 "Lamb on throne" "Rev 5" ]);
    ("DEFAULT",
     [ mkRole 1 "prototype appearance" "Genesis";
       mkRole 2 "covenant context" "Exodus";
       mkRole 3 "law framework" "Leviticus";
       mkRole 4 "kingdom application" "Kings";
       mkRole 5 "wisdom/prophetic development" "Prophets";
       mkRole 6 "Christ fulfillment" "Gospels";
       mkRole 7 "church/new creation" "Revelation" ]) ].

(** [d.get(k)] on a dictionary keyed by strings. *)
Fixpoint str_get {V : Type} (d : list (string * V)) (k : string) : option V :=
  match d with
  | [] => None
  | (k', v) :: d' => if String.eqb k' k then Some v else str_get d' k
  end.

(** [d[k]] on a dictionary keyed by strings. *)
Definition str_getitem {V : Type} (d : list (string * V)) (k : string)
  : Py.result V :=
  match str_get d k with
  | Some v => Py.Return v
  | None => Py.Raise Py.KeyError
  end.

(** [roles_map.get(symbol, roles_map["DEFAULT"])]; the default argument is
    evaluated first. *)
Definition _get_symbol_spiral_roles (symbol : string) : Py.result (list SpiralRole) :=
  default <- str_getitem roles_map "DEFAULT" ;;
  Py.Return (match str_get roles_map symbol with
             | Some roles => roles
             | None => default
             end).

(** [roles[i]['role'] if len(roles) > i else dflt] *)
Definition role_at (roles : list SpiralRole) (i : nat) (dflt : string) : string :=
  match nth_error roles i with
  | Some r => role r
  | None => dflt
  end.

Definition _derive_symbol_arc (symbol : string) (roles : list SpiralRole) : string :=
  let early := role_at roles 0 "prototype" in
  let mid := role_at roles 3 "development" in
  let late := role_at roles 6 "fulfillment" in
  symbol ++ " moves from " ++ early ++ " → " ++ mid ++ " → " ++ late.

Definition _place_on_arc (symbol : string) (current_spiral : Spiral)
    (roles : list SpiralRole) : Placement :=
  let spiral_num := Spiral_value current_spiral in
  let position :=
    if spiral_num <=? 2 then "Early-stage / Prototype"
    else if spiral_num <=? 4 then "Mid-stage / Development"
    else if spiral_num =? 5 then "Prophetic promise"
    else if spiral_num =? 6 then "Christ fulfillment"
    else "Church application / New Creation" in
  let role_data := List.find (fun r => role_spiral r =? spiral_num) roles in
  let reason :=
    match role_data with
    | Some r => role r
    | None => "Standard progression"
    end in
  mkPlacement position reason.

Definition echo_trace (symbol : string) (current_spiral : Spiral)
  : Py.result EchoTrace :=
  spiral_roles <- _get_symbol_spiral_roles symbol ;;
  let overall_arc := _derive_symbol_arc symbol spiral_roles in
  let current_stage := _place_on_arc symbol current_spiral spiral_roles in
  Py.Return (mkEchoTrace symbol spiral_roles overall_arc current_stage).

(* ====================================================================== *)
(** ** 5.5 GRAVITY-SYNC *)
(* ====================================================================== *)

Definition direct_christ : list string :=
  ["crucif"; "cross"; "finished"; "resurrection"; "risen"].
Definition strong_types : list string :=
  ["lamb"; "blood"; "sacrifice"; "altar"; "priest"; "atonement"].
Definition light_hints : list string :=
  ["seed"; "crown"; "king"; "son"; "shepherd"].

(** The symbols of the seeds whose lowered name is in [names], in seed
    order. *)
Definition seed_hits (names : list string) (seeds : list PatternSeed) : list string :=
  map symbol (filter (fun seed => Str.mem (Str.lower (symbol seed)) names) seeds).

Definition gravity_sync (text : string) (seeds : list PatternSeed) : GravitySync :=
  let text_lower := Str.lower text in
  let christ_patterns := matched direct_christ text_lower in
  match christ_patterns with
  | _ :: _ => mkGravitySync 3 "Direct Christ event present" christ_patterns
  | [] =>
      let christ_patterns := seed_hits strong_types seeds in
      match christ_patterns with
      | _ :: _ =>
          mkGravitySync 2 "Strong sacrificial typology present" christ_patterns
      | [] =>
          let christ_patterns := seed_hits light_hints seeds in
          match christ_patterns with
          | _ :: _ =>
              mkGravitySync 1 "Light messianic hints present" christ_patterns
          | [] => mkGravitySync 0 "No clear Christ-pattern detected" []
          end
      end
  end.

(* ====================================================================== *)
(** ** 5.6 COMP-435 *)
(* ====================================================================== *)

Definition stage_4_words : list string :=
  ["without"; "empty"; "nothing"; "darkness"; "void"; "lack";
   "toil"; "night"; "labor"].
Definition stage_3_words : list string :=
  ["god said"; "lord said"; "commanded"; "spoke"; "word";
   "thus saith"; "behold"].
Definition stage_5_words : list string :=
  ["filled"; "overflow"; "abundance"; "multiply"; "blessed";
   "feast"; "rest"; "rejoice"; "new"].

Definition comp_435_mapping : string :=
  "4: chaos/lack → 3: divine word/act → 5: grace/overflow".

Definition comp_435 (text : string) : Comp435 :=
  let text_lower := Str.lower text in
  let has_stage_4 := Str.any_in stage_4_words text_lower in
  let has_stage_3 := Str.any_in stage_3_words text_lower in
  let has_stage_5 := Str.any_in stage_5_words text_lower in
  let has_pattern := has_stage_4 && has_stage_3 && has_stage_5 in
  if has_pattern then
    mkComp435 has_pattern (Some comp_435_mapping) "Medium"
              (Some (mkStages has_stage_4 has_stage_3 has_stage_5))
  else
    mkComp435 has_pattern None "Low" None.

(* ====================================================================== *)
(** ** 5.7 URIM & THUMMIM *)
(* ====================================================================== *)

(** [a / b >= k] with true division: ZeroDivisionError when [b] is zero,
    otherwise the comparison of the quotient with the integer [k] (for
    positive [b]). *)
Definition truediv_ge (a b k : Z) : Py.result bool :=
  if b =? 0 then Py.Raise Py.ZeroDivisionError
  else Py.Return (k * b <=? a).

(** [sum(f(x) for x in l)] *)
Definition sum_of {A : Type} (f : A -> Z) (l : list A) : Z :=
  fold_left (fun acc x => acc + f x) l 0.

Definition urim_thummim (seeds : list PatternSeed) (traces : list EchoTrace)
    (gravity : GravitySync) : Py.result UrimThummim :=
  urim <- (if Py.len traces >? 0
           then truediv_ge (sum_of (fun t => Py.len (spiral_roles t)) traces)
                           (Py.len traces) 5
           else Py.Return false) ;;
  let thummim := gs_score gravity >=? 2 in
  let interp :=
    if urim && thummim then "Fully alive, coherent, and completed spiral"
    else if urim && negb thummim then "Real pattern but still open / unresolved"
    else if negb urim && thummim then "Sealed mystery; not fully revealed"
    else "Likely false spiral or over-interpretation" in
  Py.Return (mkUrimThummim urim thummim interp).

(* ====================================================================== *)
(** ** 5.8 FRACTAL-FILTER *)
(* ====================================================================== *)

(** [sum(1 for v in checklist.values() if v)] *)
Definition satisfied_count (checklist : list (string * bool)) : Z :=
  Py.len (filter (fun v : bool => v) (map snd checklist)).

Definition fractal_filter (seeds : list PatternSeed) (traces : list EchoTrace)
  : FractalFilter :=
  let checklist :=
    [ ("echo_density",
       (Py.len traces >? 0)
       && forallb (fun t => Py.len (spiral_roles t) >=? 3) traces);
      ("cross_spiral_reach",
       (Py.len traces >? 0)
       && existsb (fun t => Py.len (spiral_roles t) >=? 5) traces);
      ("theological_load",
       existsb (fun seed => theological_weight seed >=? 2) seeds);
      ("controls", Py.len seeds >=? 2);
      ("bidirectional", Py.len seeds >? 0) ] in
  let satisfied := satisfied_count checklist in
  if satisfied >=? 3 then
    mkFractalFilter "Fractal"
      ("Pattern satisfies " ++ Str.of_int satisfied ++ "/5 fractal criteria")
      checklist
  else
    mkFractalFilter "Likely Feedback"
      ("Only " ++ Str.of_int satisfied
       ++ "/5 criteria satisfied; likely over-interpretation")
      checklist.

(* ====================================================================== *)
(** ** Summary generation *)
(* ====================================================================== *)

Definition generate_summary (spiral : Spiral) (quadrants : QuadrantMapping)
    (seeds : list PatternSeed) (gravity : GravitySync) : string :=
  let seed_names := map symbol (firstn 3 seeds) in
  let summary := "This passage sits in " ++ Spiral_name spiral ++ ", " in
  let summary := summary ++ "moving through " ++ movement quadrants ++ ". " in
  let summary :=
    match seed_names with
    | [] => summary
    | _ => summary ++ "The dominant symbols are " ++ Str.join ", " seed_names ++ ". "
    end in
  if gs_score gravity =? 3 then
    summary ++ "This directly reveals Christ's redemptive work."
  else if gs_score gravity =? 2 then
    summary ++ "This strongly foreshadows the Cross pattern through sacrificial typology."
  else if gs_score gravity =? 1 then
    summary ++ "This hints at the larger narrative arc pointing toward Christ."
  else
    summary ++ "This passage contributes to the broader biblical narrative.".

(* ====================================================================== *)
(** ** Master pipeline: TELOS-RUN *)
(* ====================================================================== *)

(** The list comprehension over [seeds[:3]]: one trace per seed. *)
Definition trace_body (spiral : Spiral) (traces : list EchoTrace)
    (seed : PatternSeed) : Py.result (list EchoTrace) :=
  t <- echo_trace (symbol seed) spiral ;; Py.Return (traces ++ [t])%list.

Definition trace_seeds (spiral : Spiral) (seeds : list PatternSeed)
  : Py.result (list EchoTrace) :=
  Py.foldM (trace_body spiral) (firstn 3 seeds) [].

Definition telos_run (reference text : string) : Py.result TelosRun :=
  spiral <- assign_spiral reference ;;
  quadrants <- quad_map text ;;
  seeds <- pattern_seed text ;;
  traces <- trace_seeds spiral seeds ;;
  let gravity := gravity_sync text seeds in
  let comp435 := comp_435 text in
  urim_thummim <- urim_thummim seeds traces gravity ;;
  let fractal_filter := fractal_filter seeds traces in
  let summary := generate_summary spiral quadrants seeds gravity in
  Py.Return (mkTelosRun reference spiral quadrants seeds traces gravity comp435
                        urim_thummim fractal_filter summary).

Definition analyze_passage (reference text : string) : Py.result TelosRun :=
  telos_run reference text.

Definition run_summary (r : Py.result TelosRun) : option string :=
  match r with
  | Py.Return t => Some (theological_summary t)
  | Py.Raise _ => None
  end.

(* ====================================================================== *)
(** * The memory engine around the diagnostics
      (ezekiel_memory_engine_lht.py) *)
(* ====================================================================== *)

(** ** Further string operations *)

Definition is_lower (c : ascii) : bool :=
  let n := N_of_ascii c in ((97 <=? n) && (n <=? 122))%N.

Definition upper_char (c : ascii) : ascii :=
  if is_lower c then ascii_of_N (N_of_ascii c - 32) else c.

(** [s.upper()] on ASCII text. *)
Fixpoint upper (s : string) : string :=
  match s with
  | EmptyString => EmptyString
  | String c s' => String (upper_char c) (upper s')
  end.

(** Every character of the string satisfies [p]. *)
Fixpoint all_chars (p : ascii -> bool) (s : string) : bool :=
  match s with
  | EmptyString => true
  | String c s' => p c && all_chars p s'
  end.

(** [s.split()]: the maximal runs of non-whitespace characters. *)
Fixpoint words (s : string) : list string :=
  match s with
  | EmptyString => []
  | String c s' =>
      if Str.is_space c then words s'
      else match s' with
           | EmptyString => [String c EmptyString]
           | String c' _ =>
               if Str.is_space c' then String c EmptyString :: words s'
               else match words s' with
                    | w :: ws => String c w :: ws
                    | [] => [String c EmptyString]
                    end
           end
  end.

(** The digits of a decimal literal after its sign: digits with single
    underscores between them.  [after_underscore] holds at the start and
    after an underscore, where a digit must follow. *)
Fixpoint digits_ok (after_underscore : bool) (s : string) : bool :=
  match s with
  | EmptyString => negb after_underscore
  | String c s' =>
      if Str.is_digit c then digits_ok false s'
      else if Ascii.eqb c "_" then negb after_underscore && digits_ok true s'
      else false
  end.

Fixpoint drop_underscores (s : string) : string :=
  match s with
  | EmptyString => EmptyString
  | String c s' =>
      if Ascii.eqb c "_" then drop_underscores s' else String c (drop_underscores s')
  end.

(** [int(s)] for a string: surrounding whitespace is ignored, an optional
    sign is followed by decimal digits; anything else is a ValueError, and
    so is a literal with more digits (underscores apart) than the limit. *)
Definition py_int (s : string) : Py.result Z :=
  let body := Str.strip s in
  let (negative, digits) :=
    match body with
    | String "+" rest => (false, rest)
    | String "-" rest => (true, rest)
    | _ => (false, body)
    end in
  if digits_ok true digits then
    n <- Str.int (drop_underscores digits) ;;
    Py.Return (if negative then - n else n)
  else Py.Raise Py.ValueError.

(** [a, b = map(int, parts)]: exactly two items, each an integer literal;
    every failure (too few or too many items, a bad literal) is a
    ValueError. *)
Definition unpack_int_pair (parts : list string) : Py.result (Z * Z) :=
  match parts with
  | [x; y] => a <- py_int x ;; b <- py_int y ;; Py.Return (a, b)
  | _ => Py.Raise Py.ValueError
  end.

(** [a, b = parts] *)
Definition unpack_pair (parts : list string) : Py.result (string * string) :=
  match parts with
  | [x; y] => Py.Return (x, y)
  | _ => Py.Raise Py.ValueError
  end.

(** ** Layer 0: the verse store *)

(** One entry of [Layer0Scripture.verses]. *)
Record Verse : Type := mkVerse {
  v_book : string;
  v_chapter : Z;
  v_verse : Z;
  v_text : string;
  v_coordinate : string;
  v_reference : string
}.

(** [verses]: coordinate string to verse data, in insertion order. *)
Definition VerseStore : Type := list (string * Verse).

Definition same_book (verse_data : Verse) (book : string) : bool :=
  String.eqb (upper (v_book verse_data)) (upper book).

Definition get_verse (verses : VerseStore) (book : string) (chapter verse : Z)
  : option Verse :=
  option_map snd
    (List.find (fun item : string * Verse =>
                  same_book (snd item) book
                  && (v_chapter (snd item) =? chapter)
                  && (v_verse (snd item) =? verse))
               verses).

(** Tuple comparison [(a1, a2) < (b1, b2)]. *)
Definition pair_ltb (a b : Z * Z) : bool :=
  (fst a <? fst b) || ((fst a =? fst b) && (snd a <? snd b)).

(** [l.sort(key=key)] for a pair key: stable, ascending. *)
Fixpoint insert_asc {A : Type} (key : A -> Z * Z) (x : A) (l : list A) : list A :=
  match l with
  | [] => [x]
  | y :: l' => if pair_ltb (key y) (key x) then y :: insert_asc key x l' else x :: l
  end.

Fixpoint sorted_asc {A : Type} (key : A -> Z * Z) (l : list A) : list A :=
  match l with
  | [] => []
  | x :: l' => insert_asc key x (sorted_asc key l')
  end.

(** [get_passage]; the end of the range is given as chapter and verse
    together, or not at all (a single verse). *)
Definition in_passage (start_chapter start_verse : Z) (range_end : option (Z * Z))
    (verse_data : Verse) : bool :=
  let ch := v_chapter verse_data in
  let v := v_verse verse_data in
  match range_end with
  | None => (ch =? start_chapter) && (v =? start_verse)
  | Some (end_chapter, end_verse) =>
      ((ch >? start_chapter) || ((ch =? start_chapter) && (v >=? start_verse)))
      && ((ch <? end_chapter) || ((ch =? end_chapter) && (v <=? end_verse)))
  end.

Definition get_passage (verses : VerseStore) (book : string)
    (start_chapter start_verse : Z) (range_end : option (Z * Z)) : list Verse :=
  sorted_asc (fun x => (v_chapter x, v_verse x))
    (filter (fun verse_data =>
               same_book verse_data book
               && in_passage start_chapter start_verse range_end verse_data)
            (map snd verses)).

(** ** The Ramah ANALYZE and ECHO handlers *)

Record SeedReport : Type := mkSeedReport {
  sr_symbol : string;
  sr_role : string;
  sr_score : Z
}.

(** The ['analysis'] dictionary of a successful ANALYZE. *)
Record Analysis : Type := mkAnalysis {
  an_spiral : string;
  an_quadrant_movement : string;
  an_primary_quadrant : string;
  an_pattern_seeds : list SeedReport;
  an_gravity_score : Z;
  an_gravity_explanation : string;
  an_has_pattern : bool;
  an_mapping : option string;
  an_urim : bool;
  an_thummim : bool;
  an_interpretation : string;
  an_fractal_status : string;
  an_summary : string
}.

Inductive AnalyzeReply : Type :=
| AnalyzeError (error : string)
| AnalyzeSuccess (reference : string) (analysis : Analysis).

Definition report (analysis : TelosRun) : Analysis :=
  mkAnalysis
    (Spiral_name (spiral analysis))
    (movement (quadrants analysis))
    (Quadrant_value (primary_quadrant (quadrants analysis)))
    (map (fun s => mkSeedReport (symbol s) (local_role s) (score s))
         (pattern_seeds analysis))
    (gs_score (gravity_sync_result analysis))
    (explanation (gravity_sync_result analysis))
    (has_pattern (comp_435_result analysis))
    (mapping (comp_435_result analysis))
    (urim (urim_thummim_result analysis))
    (thummim (urim_thummim_result analysis))
    (interpretation (urim_thummim_result analysis))
    (classification (fractal_filter_result analysis))
    (theological_summary analysis).

(** The verses a verse reference such as ["1:1"] or ["1:1-5"] names. *)
Definition lookup_verses (verses : VerseStore) (book verse_ref : string)
  : Py.result (list Verse) :=
  if Str.contains "-" verse_ref then
    se <- unpack_pair (Str.split "-" verse_ref) ;;
    let (start, end_) := se : string * string in
    s <- unpack_int_pair (Str.split ":" start) ;;
    let (start_ch, start_v) := s : Z * Z in
    e <- (if Str.contains ":" end_
          then unpack_int_pair (Str.split ":" end_)
          else end_v <- py_int end_ ;; Py.Return (start_ch, end_v)) ;;
    Py.Return (get_passage verses book start_ch start_v (Some e))
  else
    cv <- unpack_int_pair (Str.split ":" verse_ref) ;;
    let (ch, v) := cv : Z * Z in
    Py.Return (match get_verse verses book ch v with
               | Some verse_data => [verse_data]
               | None => []
               end).

Definition _analyze (verses : VerseStore) (reference : string)
  : Py.result AnalyzeReply :=
  match words reference with
  | book :: verse_ref :: _ =>
      found <- lookup_verses verses book verse_ref ;;
      match found with
      | [] => Py.Return (AnalyzeError ("Passage not found: " ++ reference))
      | _ =>
          let passage_text := Str.join " " (map v_text found) in
          analysis <- telos_run reference passage_text ;;
          Py.Return (AnalyzeSuccess reference (report analysis))
      end
  | _ => Py.Return (AnalyzeError "Invalid reference format")
  end.

(** The reply of the ECHO handler. *)
Record EchoReply : Type := mkEchoReply {
  er_symbol : string;
  er_spiral_roles : list SpiralRole;
  er_overall_arc : string
}.

Definition _echo_trace (symbol : string) : Py.result EchoReply :=
  trace <- echo_trace (upper symbol) S1_CREATION ;;
  Py.Return (mkEchoReply symbol (spiral_roles trace) (overall_arc trace)).

(** ** Memory layers 1 to 7 *)

(** [d[k] = v] on a dictionary keyed by strings: an existing key keeps
    its place, a new key is appended. *)
Fixpoint str_set {V : Type} (d : list (string * V)) (k : string) (v : V)
  : list (string * V) :=
  match d with
  | [] => [(k, v)]
  | (k', v') :: d' =>
      if String.eqb k' k then (k', v) :: d' else (k', v') :: str_set d' k v
  end.

Section Memory.

(** The types of the [content] and of the metadata values, which the
    engine stores without looking at them. *)
Variables Content Meta : Type.

(** The record [store_memory] puts under a coordinate. *)
Record MemoryEntry : Type := mkMemoryEntry {
  me_content : Content;
  me_metadata : list (string * Meta);
  me_coordinate : string;
  me_lht_analysis : option TelosRun
}.

Definition Layer : Type := list (string * MemoryEntry).

(** The engine's stores: the Layer 0 verses and [layers], keyed 1 to 7. *)
Record Engine : Type := mkEngine {
  e_verses : VerseStore;
  e_layers : list (Z * Layer)
}.

(** The engine as [__init__] leaves it (before Scripture is loaded). *)
Definition new_engine : Engine :=
  mkEngine [] (map (fun i => (i, [])) [1; 2; 3; 4; 5; 6; 7]).

(** [layers[k][coordinate] = entry]: KeyError when [k] is not a key. *)
Fixpoint layer_store (layers : list (Z * Layer)) (k : Z) (coordinate : string)
    (entry : MemoryEntry) : Py.result (list (Z * Layer)) :=
  match layers with
  | [] => Py.Raise Py.KeyError
  | (k', d) :: rest =>
      if k' =? k then Py.Return ((k', str_set d coordinate entry) :: rest)
      else rest' <- layer_store rest k coordinate entry ;;
           Py.Return ((k', d) :: rest')
  end.

(** [metadata or {}] *)
Definition metadata_or_empty (metadata : option (list (string * Meta)))
  : list (string * Meta) :=
  match metadata with
  | Some (item :: items) => item :: items
  | _ => []
  end.

Definition store_memory (e : Engine) (layer : Z) (coordinate : string)
    (content : Content) (metadata : option (list (string * Meta)))
    (lht_analysis : option TelosRun) : Py.result Engine :=
  if negb ((1 <=? layer) && (layer <? 8)) then Py.Raise Py.ValueError
  else
    layers <- layer_store (e_layers e) layer coordinate
                (mkMemoryEntry content (metadata_or_empty metadata) coordinate
                               lht_analysis) ;;
    Py.Return (mkEngine (e_verses e) layers).

(** The first layer, in key order, that holds the coordinate. *)
Fixpoint find_in_layers (layers : list (Z * Layer)) (coordinate : string)
  : option MemoryEntry :=
  match layers with
  | [] => None
  | (_, layer_data) :: rest =>
      match str_get layer_data coordinate with
      | Some entry => Some entry
      | None => find_in_layers rest coordinate
      end
  end.

(** [retrieve_memory]: a verse of Layer 0 or an entry of layers 1 to 7. *)
Definition retrieve_memory (e : Engine) (coordinate : string)
  : option (Verse + MemoryEntry) :=
  if prefix "L0" coordinate then option_map inl (str_get (e_verses e) coordinate)
  else option_map inr (find_in_layers (e_layers e) coordinate).

End Memory.

Arguments mkMemoryEntry {Content Meta}.
Arguments me_content {Content Meta}.
Arguments me_metadata {Content Meta}.
Arguments me_coordinate {Content Meta}.
Arguments me_lht_analysis {Content Meta}.
Arguments mkEngine {Content Meta}.
Arguments e_verses {Content Meta}.
Arguments e_layers {Content Meta}.
Arguments new_engine {Content Meta}.
Arguments layer_store {Content Meta}.
Arguments metadata_or_empty {Meta}.
Arguments store_memory {Content Meta}.
Arguments find_in_layers {Content Meta}.
Arguments retrieve_memory {Content Meta}.

(* ====================================================================== *)
(** * The coordinate grid (ezekiel_complete.py) *)
(* ====================================================================== *)

(** [str(n)] and [f"{n}"] for any integer. *)
Definition py_str (n : Z) : string :=
  if n <? 0 then "-" ++ Str.of_int (- n) else Str.of_int n.

Module Grid.

Inductive Layer : Type := L1 | L2 | L3 | L4 | L5 | L6 | L7.

Inductive Quadrant : Type := Q1 | Q2 | Q3 | Q4.

Definition Layer_name (l : Layer) : string :=
  match l with
  | L1 => "L1" | L2 => "L2" | L3 => "L3" | L4 => "L4"
  | L5 => "L5" | L6 => "L6" | L7 => "L7"
  end.

Definition Quadrant_name (q : Quadrant) : string :=
  match q with
  | Q1 => "Q1" | Q2 => "Q2" | Q3 => "Q3" | Q4 => "Q4"
  end.

Definition Layer_members : list Layer := [L1; L2; L3; L4; L5; L6; L7].

Definition Quadrant_members : list Quadrant := [Q1; Q2; Q3; Q4].

(** [Layer[name]]: KeyError when no member has the name. *)
Definition Layer_getitem (name : string) : Py.result Layer :=
  match List.find (fun l => String.eqb (Layer_name l) name) Layer_members with
  | Some l => Py.Return l
  | None => Py.Raise Py.KeyError
  end.

(** [Quadrant[name]] *)
Definition Quadrant_getitem (name : string) : Py.result Quadrant :=
  match List.find (fun q => String.eqb (Quadrant_name q) name) Quadrant_members with
  | Some q => Py.Return q
  | None => Py.Raise Py.KeyError
  end.

Record EzekielCoordinate : Type := mkCoordinate {
  layer : Layer;
  quadrant : Quadrant;
  lexicon : string;
  entity : string;
  coherence : Z
}.

(** The constructor of the dataclass, with the check of [__post_init__]. *)
Definition new (layer : Layer) (quadrant : Quadrant) (lexicon entity : string)
    (coherence : Z) : Py.result EzekielCoordinate :=
  if negb ((0 <=? coherence) && (coherence <=? 3)) then Py.Raise Py.ValueError
  else Py.Return (mkCoordinate layer quadrant lexicon entity coherence).

Definition to_string (self : EzekielCoordinate) : string :=
  Layer_name (layer self) ++ "." ++
  Quadrant_name (quadrant self) ++ "." ++
  lexicon self ++ "." ++
  entity self ++
  "[C" ++ py_str (coherence self) ++ "]".

(** The character classes [[A-Z_]] and [[A-Z_\.]] of the pattern. *)
Definition is_name_char (c : ascii) : bool :=
  Str.is_upper c || Ascii.eqb c "_".

Definition is_entity_char (c : ascii) : bool :=
  is_name_char c || Ascii.eqb c ".".

(** The longest run of characters of a class at the head of [s], and what
    follows it. *)
Fixpoint span (p : ascii -> bool) (s : string) : string * string :=
  match s with
  | EmptyString => (EmptyString, EmptyString)
  | String c s' =>
      if p c then let (r, rest) := span p s' in (String c r, rest)
      else (EmptyString, s)
  end.

(** A literal character of the pattern. *)
Definition expect (c : ascii) (s : string) : option string :=
  match s with
  | String c' s' => if Ascii.eqb c' c then Some s' else None
  | EmptyString => None
  end.

(** [(\d)] *)
Definition digit (s : string) : option (ascii * string) :=
  match s with
  | String c s' => if Str.is_digit c then Some (c, s') else None
  | EmptyString => None
  end.

(** [([...]+)]: a non-empty greedy run of a class. *)
Definition run (p : ascii -> bool) (s : string) : option (string * string) :=
  let (r, rest) := span p s in
  if Str.nonempty r then Some (r, rest) else None.

(** The five groups of a match. *)
Record Groups : Type := mkGroups {
  g_layer : ascii;
  g_quadrant : ascii;
  g_lexicon : string;
  g_entity : string;
  g_coherence : ascii
}.

(** [re.match(r'L(\d)\.Q(\d)\.([A-Z_]+)\.([A-Z_\.]+)\[C(\d)\]', s)]: the
    match is anchored at the start of [s] and may stop before its end.
    Each greedy run takes its whole class run: a shorter run is followed
    by a character of the class, which is neither the [.] that must
    follow group 3 nor the [[] that must follow group 4, so backtracking
    cannot succeed where the longest run fails. *)
Definition match_coordinate (s : string) : option Groups :=
  match expect "L" s with None => None | Some s =>
  match digit s with None => None | Some (layer_num, s) =>
  match expect "." s with None => None | Some s =>
  match expect "Q" s with None => None | Some s =>
  match digit s with None => None | Some (quad_num, s) =>
  match expect "." s with None => None | Some s =>
  match run is_name_char s with None => None | Some (lexicon, s) =>
  match expect "." s with None => None | Some s =>
  match run is_entity_char s with None => None | Some (entity, s) =>
  match expect "[" s with None => None | Some s =>
  match expect "C" s with None => None | Some s =>
  match digit s with None => None | Some (coherence, s) =>
  match expect "]" s with None => None | Some _ =>
  Some (mkGroups layer_num quad_num lexicon entity coherence)
  end end end end end end end end end end end end end.

Definition from_string (coord_str : string) : Py.result EzekielCoordinate :=
  match match_coordinate coord_str with
  | None => Py.Raise Py.ValueError
  | Some m =>
      layer <- Layer_getitem (String "L" (String (g_layer m) "")) ;;
      quadrant <- Quadrant_getitem (String "Q" (String (g_quadrant m) "")) ;;
      new layer quadrant (g_lexicon m) (g_entity m)
          (Str.to_int (String (g_coherence m) ""))
  end.

(** [parse_coordinate] is an alias of [from_string]. *)
Definition parse_coordinate (coord_str : string) : Py.result EzekielCoordinate :=
  from_string coord_str.

End Grid.

(* ====================================================================== *)
(** * Layer 0: loading and searching Scripture
      (ezekiel_memory_engine_lht.py) *)
(* ====================================================================== *)

Fixpoint any_char (p : ascii -> bool) (s : string) : bool :=
  match s with
  | EmptyString => false
  | String c s' => p c || any_char p s'
  end.

(** [s.isupper()]: there is a cased character and no cased character is
    lowercase. *)
Definition isupper (s : string) : bool :=
  any_char Str.is_upper s && all_chars (fun c => negb (is_lower c)) s.

(** [s.isdigit()] *)
Definition isdigit (s : string) : bool :=
  Str.nonempty s && all_chars Str.is_digit s.

(** [s.split(sep, 1)]: split at the first separator only. *)
Fixpoint split_once (sep : ascii) (s : string) : list string :=
  match s with
  | EmptyString => [EmptyString]
  | String c s' =>
      if Ascii.eqb c sep then [EmptyString; s']
      else match split_once sep s' with
           | h :: t => String c h :: t
           | [] => [String c EmptyString]
           end
  end.

(** [s.replace(old, new)] for single characters. *)
Fixpoint replace_char (old new : ascii) (s : string) : string :=
  match s with
  | EmptyString => EmptyString
  | String c s' =>
      String (if Ascii.eqb c old then new else c) (replace_char old new s')
  end.

(** The state of a [Layer0Scripture] object. *)
Record Layer0 : Type := mkLayer0 {
  l0_verses : VerseStore;
  l0_coordinates : list Grid.EzekielCoordinate;
  l0_loaded : bool
}.

(** [current_book] and [current_chapter] of the loader.  A book line sets
    both; before the first book line only the chapter can be set. *)
Inductive Cursor : Type :=
| NoBook (current_chapter : option Z)
| InBook (current_book : string) (current_chapter : Z).

(** The variables of the loop over the lines. *)
Record LoadState : Type := mkLoadState {
  ls_self : Layer0;
  ls_cursor : Cursor;
  ls_verse_count : Z
}.

(** One pass of the loop body either goes on to the next line or leaves
    the loop with an exception; the object keeps what was written to it
    before the exception. *)
Inductive Step : Type :=
| Next (st : LoadState)
| Stop (st : LoadState) (e : Py.exn).

(** [except (ValueError, IndexError): continue] *)
Definition caught (e : Py.exn) (st : LoadState) : Step :=
  match e with
  | Py.ValueError | Py.IndexError => Next st
  | _ => Stop st e
  end.

(** The coordinate string of a verse. *)
Definition verse_coordinate (current_book : string) (current_chapter verse_num : Z)
  : string :=
  "L0.Q" ++ py_str (verse_num mod 4 + 1) ++ ".KJV." ++
  replace_char " " "_" current_book ++ "." ++
  py_str current_chapter ++ "_" ++ py_str verse_num ++ "[C3]".

(** The [try] block that parses and stores one verse line. *)
Definition load_verse (st : LoadState) (line current_book : string)
    (current_chapter : Z) : Step :=
  match unpack_pair (split_once ":" line) with
  | Py.Raise e => caught e st
  | Py.Return (verse_num, verse_text) =>
      match py_int (Str.strip verse_num) with
      | Py.Raise e => caught e st
      | Py.Return verse_num =>
          let coord_str := verse_coordinate current_book current_chapter verse_num in
          let self := ls_self st in
          let verse_data :=
            mkVerse current_book current_chapter verse_num (Str.strip verse_text)
                    coord_str
                    (current_book ++ " " ++ py_str current_chapter ++ ":" ++
                     py_str verse_num) in
          let self1 :=
            mkLayer0 (str_set (l0_verses self) coord_str verse_data)
                     (l0_coordinates self) (l0_loaded self) in
          let st1 := mkLoadState self1 (ls_cursor st) (ls_verse_count st) in
          match Grid.from_string coord_str with
          | Py.Raise e => caught e st1
          | Py.Return coord =>
              Next (mkLoadState
                      (mkLayer0 (l0_verses self1)
                                (l0_coordinates self1 ++ [coord])%list
                                (l0_loaded self1))
                      (ls_cursor st) (ls_verse_count st + 1))
          end
      end
  end.

(** The body of the loop over the lines. *)
Definition load_line (st : LoadState) (line : string) : Step :=
  let line := Str.strip line in
  if negb (Str.nonempty line) then Next st
  else if isupper line && (Py.len (words line) <=? 3) then
    Next (mkLoadState (ls_self st) (InBook line 1) (ls_verse_count st))
  else if isdigit line then
    match py_int line with
    | Py.Raise e => Stop st e
    | Py.Return n =>
        Next (mkLoadState (ls_self st)
                          (match ls_cursor st with
                           | NoBook _ => NoBook (Some n)
                           | InBook current_book _ => InBook current_book n
                           end)
                          (ls_verse_count st))
    end
  else
    match ls_cursor st with
    | InBook current_book current_chapter =>
        if Str.contains ":" line && Str.nonempty current_book
        then load_verse st line current_book current_chapter
        else Next st
    | NoBook _ => Next st
    end.

Fixpoint load_lines (st : LoadState) (lines : list string) : Step :=
  match lines with
  | [] => Next st
  | line :: rest =>
      match load_line st line with
      | Next st' => load_lines st' rest
      | Stop st' e => Stop st' e
      end
  end.

(** What opening and reading one path as UTF-8 text does. *)
Inductive ReadOutcome : Type :=
| ReadText (content : string)
    (* the file is read *)
| ReadMissing
    (* FileNotFoundError or another IOError: caught, the next path is tried *)
| ReadFails (e : Py.exn).
    (* any other exception, which is not caught: the UnicodeDecodeError
       (a ValueError) of a file that is not UTF-8, the ValueError of a
       path with a null character *)

(** The files as the loader sees them. *)
Definition FileSystem : Type := string -> ReadOutcome.

Definition possible_paths (bible_path : option string) : list (option string) :=
  [bible_path; Some "pg10.txt"; Some "/app/pg10.txt";
   Some "/mnt/project/pg10.txt"; Some "./pg10.txt"].

(** The loop over the candidate paths: the content of the first one that
    can be read, [None] when there is none. *)
Fixpoint read_first (fs : FileSystem) (paths : list (option string))
  : Py.result (option string) :=
  match paths with
  | [] => Py.Return None
  | None :: rest => read_first fs rest
  | Some path :: rest =>
      match fs path with
      | ReadText content => Py.Return (Some content)
      | ReadMissing => read_first fs rest
      | ReadFails e => Py.Raise e
      end
  end.

(** [load_kjv]: the object afterwards, and the returned count or the
    exception raised.  An exception of the read that is not an IOError
    leaves the function; every exception of the parsing loop is caught
    and answered with 0.  What is printed is not modelled. *)
Definition load_kjv (self : Layer0) (fs : FileSystem) (bible_path : option string)
  : Layer0 * Py.result Z :=
  match read_first fs (possible_paths bible_path) with
  | Py.Raise e => (self, Py.Raise e)
  | Py.Return None => (self, Py.Return 0)
  | Py.Return (Some content) =>
      match load_lines (mkLoadState self (NoBook None) 0)
                       (Str.split "010" content) with
      | Next st =>
          (mkLayer0 (l0_verses (ls_self st)) (l0_coordinates (ls_self st)) true,
           Py.Return (ls_verse_count st))
      | Stop st _ => (ls_self st, Py.Return 0)
      end
  end.

(** [search_text]: the loop stops once [limit] results are collected,
    and it looks at the limit only after adding a result. *)
Fixpoint search_loop (query_lower : string) (limit : Z) (values results : list Verse)
  : list Verse :=
  match values with
  | [] => results
  | verse_data :: rest =>
      if Str.contains query_lower (Str.lower (v_text verse_data)) then
        let results := (results ++ [verse_data])%list in
        if Py.len results >=? limit then results
        else search_loop query_lower limit rest results
      else search_loop query_lower limit rest results
  end.

Definition search_text (verses : VerseStore) (query : string) (limit : Z)
  : list Verse :=
  search_loop (Str.lower query) limit (map snd verses) [].

(* ====================================================================== *)
(** ** Vocabulary of the properties *)
(* ====================================================================== *)

(** Descending by key: every element is at least as large as all later
    ones. *)
Definition descending {A : Type} (key : A -> Z) : list A -> Prop :=
  StronglySorted (fun a b => key b <= key a).

(** No book of an earlier-priority spiral is named in the reference. *)
Definition no_earlier_book (ref_lower : string) : bool :=
  negb (Str.contains "genesis" ref_lower)
  && negb (Str.any_in exodus_books ref_lower)
  && negb (Str.any_in law_books ref_lower)
  && negb (Str.any_in kingship_books ref_lower)
  && negb (Str.any_in wisdom_books ref_lower).

(** Every book name the classifier looks for. *)
Definition all_books : list string :=
  ("genesis" :: exodus_books ++ law_books ++ kingship_books ++ wisdom_books
     ++ gospel_books ++ new_creation_books)%list.

Definition tier1_hit (text : string) : bool :=
  Str.any_in direct_christ (Str.lower text).

Definition tier_hit (names : list string) (seeds : list PatternSeed) : bool :=
  existsb (fun seed => Str.mem (Str.lower (symbol seed)) names) seeds.

(** The lexicon is a dictionary: its symbol names are pairwise distinct. *)
Fixpoint distinctb (l : list string) : bool :=
  match l with
  | [] => true
  | x :: l' => negb (Str.mem x l') && distinctb l'
  end.

(** The band of an index in a text: 3 in the first 20% of its length, 2 in
    the first 50%, 1 beyond. *)
Definition position_band (pos : nat) (text : string) : Z :=
  let n := Z.of_nat (String.length text) in
  if 5 * Z.of_nat pos <? n then 3
  else if 2 * Z.of_nat pos <? n then 2
  else 1.

(** Every per-segment [scores] dictionary has the four quadrants as keys. *)
Definition well_keyed (s : SegmentScore) : Prop :=
  map fst (scores s) = Quadrant_members.

(** Number of segments assigned to a quadrant. *)
Definition occurrences (q : Quadrant) (ss : list SegmentScore) : Z :=
  Py.len (filter (fun s => Quadrant_eqb (seg_quadrant s) q) ss).

(** No quadrant keyword occurs in the segment. *)
Definition no_quadrant_keyword (seg : string) : bool :=
  forallb (fun qi : Quadrant * Indicators =>
             negb (Str.any_in (ind_keywords (snd qi)) (Str.lower seg)))
          QUADRANT_INDICATORS.

(** No keyword of any lexicon symbol occurs in the text. *)
Definition no_symbol_keyword (text : string) : bool :=
  forallb (fun entry : string * SymbolData =>
             negb (Str.any_in (keywords (snd entry)) (Str.lower text)))
          SYMBOL_LEXICON.

(** A segment without quadrant keywords scores zero everywhere and goes
    to the first quadrant. *)
Definition zero_scores : list (Quadrant * QuadScore) :=
  map (fun q => (q, mkQuadScore 0 [])) Quadrant_members.

Definition unmatched_segment (seg : string) : SegmentScore :=
  mkSegmentScore (excerpt seg) SW zero_scores.

(** The [quad_counts] dictionary after the counting loop. *)
Definition quad_counts (ss : list SegmentScore) : list (Quadrant * Z) :=
  [(SW, occurrences SW ss); (SE, occurrences SE ss);
   (NE, occurrences NE ss); (NW, occurrences NW ss)].

(** Position of a quadrant in the enumeration order. *)
Definition Quadrant_index (q : Quadrant) : nat :=
  match q with
  | SW => 0
  | SE => 1
  | NE => 2
  | NW => 3
  end.

(** [r] is the first element of [l] with the largest key: everything
    before it is strictly smaller, everything after it is no larger. *)
Definition first_maximal {A : Type} (key : A -> Z) (l : list A) (r : A) : Prop :=
  exists l1 l2,
    l = (l1 ++ r :: l2)%list /\
    Forall (fun y => key y < key r) l1 /\
    Forall (fun y => key y <= key r) l2.

(** [s] is the score record of the segment [seg]: its excerpt, its four
    quadrant scores, and as its quadrant the first one with the largest
    score. *)
Definition segment_scored (seg : string) (s : SegmentScore) : Prop :=
  segment s = excerpt seg /\
  scores s = quadrant_scores (Str.lower seg) /\
  exists sc,
    first_maximal (fun x : Quadrant * QuadScore => qs_score (snd x))
                  (scores s) (seg_quadrant s, sc).

(** The candidates of a text, in lexicon order: what the scoring loop
    appends for each lexicon entry. *)
Definition all_candidates (text : string) : list Candidate :=
  flat_map (Py.appended_by (candidate_step text (Str.lower text))) SYMBOL_LEXICON.

(** No digit of [s] has a colon directly after it. *)
Fixpoint no_digit_colon (s : string) : bool :=
  match s with
  | EmptyString => true
  | String c s' => negb (Str.is_digit c && prefix ":" s') && no_digit_colon s'
  end.

(** The last character of [s] is a digit. *)
Fixpoint ends_with_digit (s : string) : bool :=
  match s with
  | EmptyString => false
  | String c EmptyString => Str.is_digit c
  | String _ s' => ends_with_digit s'
  end.

(** The chapter:verse locator of a reference, [d] being the chapter as
    written: the reference is [pre ++ d ++ ":" ++ post] where [d] is a
    non-empty string of digits, [pre] does not end in a digit (so [d] is a
    whole run of digits) and no digit of [pre] is followed by a colon (so
    it is the first such run). *)
Definition locator (reference d : string) : Prop :=
  exists pre post,
    reference = pre ++ d ++ ":" ++ post /\
    isdigit d = true /\
    ends_with_digit pre = false /\
    no_digit_colon pre = true.

(** The chapter of the locator has more digits than [int()] converts. *)
Definition chapter_too_long (reference : string) : Prop :=
  exists d, locator reference d /\
            Str.max_str_digits < Z.of_nat (String.length d).

(** The chapter of the locator can be converted and is at most 11. *)
Definition chapter_up_to_11 (reference : string) : Prop :=
  exists d, locator reference d /\
            Z.of_nat (String.length d) <= Str.max_str_digits /\
            Str.to_int d <= 11.

(** The references on which the classifier fails: they name Genesis and
    the chapter of their locator is too long for [int()]. *)
Definition long_genesis_chapter (reference : string) : Prop :=
  Str.contains "genesis" (Str.lower reference) = true /\
  chapter_too_long reference.

(** Text within ASCII, where [lower], [upper], the whitespace of [strip]
    and [split], and the digits of [\d] and [int] are as modelled. *)
Definition ascii_text (s : string) : bool :=
  all_chars (fun c => (N_of_ascii c <? 128)%N) s.

(** A Genesis reference whose chapter has 4301 digits. *)
Definition long_chapter_reference : string :=
  "Genesis " ++ string_of_list_ascii (repeat "1"%char 4301) ++ ":1".

(** Tuple order [(a1, a2) <= (b1, b2)]. *)
Definition pair_le (a b : Z * Z) : Prop :=
  fst a < fst b \/ (fst a = fst b /\ snd a <= snd b).

(** Ascending by a pair key. *)
Definition ascending {A : Type} (key : A -> Z * Z) : list A -> Prop :=
  StronglySorted (fun a b => pair_le (key a) (key b)).

(** The verse data held by a store. *)
Definition stored (verses : VerseStore) (verse_data : Verse) : Prop :=
  exists coordinate, In (coordinate, verse_data) verses.

(** The layers of an engine are keyed 1 to 7, as [__init__] makes them. *)
Definition layers_keyed {Content Meta : Type} (e : Engine Content Meta) : Prop :=
  map fst (e_layers e) = [1; 2; 3; 4; 5; 6; 7].

(** No layer in front of the first one keyed [k] holds the coordinate. *)
Fixpoint clear_before {Content Meta : Type}
    (layers : list (Z * Layer Content Meta)) (k : Z) (coordinate : string) : Prop :=
  match layers with
  | [] => True
  | (k', d) :: rest =>
      k' = k \/ (str_get d coordinate = None /\ clear_before rest k coordinate)
  end.

(** Some layer in front of the first one keyed [k] holds the coordinate. *)
Fixpoint held_before {Content Meta : Type}
    (layers : list (Z * Layer Content Meta)) (k : Z) (coordinate : string) : Prop :=
  match layers with
  | [] => False
  | (k', d) :: rest =>
      k' <> k /\ (str_get d coordinate <> None \/ held_before rest k coordinate)
  end.

(** A non-empty string over a character class. *)
Definition name_like (p : ascii -> bool) (s : string) : bool :=
  Str.nonempty s && all_chars p s.

(** A coordinate whose strings fit the pattern of [from_string] and whose
    coherence passes [__post_init__]. *)
Definition well_formed (c : Grid.EzekielCoordinate) : Prop :=
  name_like Grid.is_name_char (Grid.lexicon c) = true /\
  name_like Grid.is_entity_char (Grid.entity c) = true /\
  0 <= Grid.coherence c <= 3.

(** The text the pattern of [from_string] matches, by its five groups. *)
Definition coordinate_text (m : Grid.Groups) (rest : string) : string :=
  String "L" (String (Grid.g_layer m) (String "." (String "Q"
    (String (Grid.g_quadrant m) (String "."
      (Grid.g_lexicon m ++ String "."
        (Grid.g_entity m ++ String "[" (String "C"
          (String (Grid.g_coherence m) (String "]" rest)))))))))).

(** The loop state a step ends in. *)
Definition step_state (s : Step) : LoadState :=
  match s with
  | Next st => st
  | Stop st _ => st
  end.

(** What a step leaves untouched: the count and the coordinate space. *)
Definition keeps (st : LoadState) (s : Step) : Prop :=
  ls_verse_count (step_state s) = ls_verse_count st /\
  l0_coordinates (ls_self (step_state s)) = l0_coordinates (ls_self st).

(** The verses whose text contains the query, letter case apart. *)
Definition text_matches (query : string) (verse_data : Verse) : bool :=
  Str.contains (Str.lower query) (Str.lower (v_text verse_data)).

(* ====================================================================== *)
(** * Properties *)
(* ====================================================================== *)

(** ** Runs of the model on concrete inputs *)

Example assign_spiral_genesis_1_1 : assign_spiral "Genesis 1:1" = Py.Return S1_CREATION.
Proof. reflexivity. Qed.

Example assign_spiral_genesis_12 : assign_spiral "Genesis 12:1-3" = Py.Return S2_COVENANT.
Proof. reflexivity. Qed.

Example assign_spiral_john : assign_spiral "John 19:30" = Py.Return S6_CHRIST.
Proof. reflexivity. Qed.

Example assign_spiral_1john : assign_spiral "1 John 4:8" = Py.Return S7_NEW_CREATION.
Proof. reflexivity. Qed.

Example assign_spiral_matthew : assign_spiral "Matthew 5:3" = Py.Return S6_CHRIST.
Proof. reflexivity. Qed.

Example quad_map_static :
  option_map (fun m => (primary_quadrant m, secondary_quadrant m, movement m, evidence m))
    (match quad_map "Behold, I saw a vision. They were scattered and broken. He will restore and heal"
     with Py.Return m => Some m | Py.Raise _ => None end)
  = Some (SE, Some NE, "NE→SE→NW",
          [mkEvidence "SE" "Keywords: scattered, broken";
           mkEvidence "NE" "Keywords: vision, behold";
           mkEvidence "NW" "Keywords: restore, heal"]).
Proof. vm_compute. reflexivity. Qed.

Example telos_run_john_19_30 :
  run_summary (telos_run "John 19:30" "When Jesus had received the vinegar, he said, It is finished.")
  = Some "This passage sits in S6_CHRIST, moving through Static SW. The dominant symbols are VINE. This directly reveals Christ's redemptive work.".
Proof. vm_compute. reflexivity. Qed.

Example pattern_seed_light :
  option_map (map (fun s => (symbol s, score s, structural_position s)))
    (match pattern_seed "And God said, Let there be Light" with
     | Py.Return l => Some l
     | Py.Raise _ => None
     end)
  = Some [("LIGHT", 5, 1)].
Proof. vm_compute. reflexivity. Qed.

(** ** Loops, sorting and maxima *)

Lemma firstn_In {A : Type} (n : nat) (l : list A) (x : A) :
  In x (firstn n l) -> In x l.
Proof.
  revert l. induction n as [|n IH]; intros [|y l]; simpl; try tauto.
  intros [-> | H]; [now left | right; now apply IH].
Qed.

Section PyFacts.

Context {A : Type}.
Variable key : A -> Z.

Lemma insert_desc_In (x y : A) (l : list A) :
  In y (Py.insert_desc key x l) <-> y = x \/ In y l.
Proof.
  induction l as [|z l IH]; simpl.
  - intuition.
  - destruct (key x <? key z); simpl; rewrite ?IH; intuition.
Qed.

Lemma sorted_desc_In (y : A) (l : list A) :
  In y (Py.sorted_desc key l) <-> In y l.
Proof.
  induction l as [|x l IH]; simpl.
  - tauto.
  - rewrite insert_desc_In, IH. intuition.
Qed.

Lemma insert_desc_length (x : A) (l : list A) :
  length (Py.insert_desc key x l) = S (length l).
Proof.
  induction l as [|z l IH]; simpl; auto.
  destruct (key x <? key z); simpl; auto.
Qed.

Lemma sorted_desc_length (l : list A) :
  length (Py.sorted_desc key l) = length l.
Proof.
  induction l as [|x l IH]; simpl; auto.
  now rewrite insert_desc_length, IH.
Qed.

Lemma insert_desc_descending (x : A) (l : list A) :
  descending key l -> descending key (Py.insert_desc key x l).
Proof.
  unfold descending.
  induction l as [|z l IH]; simpl; intros Hs.
  - constructor; [constructor | constructor].
  - inversion Hs as [|? ? Hl Hz]; subst.
    destruct (key x <? key z) eqn:E.
    + apply Z.ltb_lt in E.
      constructor; [now apply IH |].
      apply Forall_forall. intros y Hy.
      apply insert_desc_In in Hy as [-> | Hy]; [lia |].
      rewrite Forall_forall in Hz. now apply Hz.
    + apply Z.ltb_ge in E.
      constructor; [assumption |].
      constructor; [assumption |].
      eapply Forall_impl; [| exact Hz]. simpl. intros; lia.
Qed.

Lemma sorted_desc_descending (l : list A) : descending key (Py.sorted_desc key l).
Proof.
  induction l as [|x l IH]; simpl.
  - constructor.
  - now apply insert_desc_descending.
Qed.

Lemma descending_firstn (n : nat) (l : list A) :
  descending key l -> descending key (firstn n l).
Proof.
  unfold descending. revert l.
  induction n as [|n IH]; intros [|x l] Hs; simpl; try constructor.
  - inversion Hs; subst. now apply IH.
  - inversion Hs as [|? ? _ Hx]; subst.
    rewrite Forall_forall in *. intros y Hy.
    apply Hx. eapply firstn_In; eauto.
Qed.

Lemma descending_filter (p : A -> bool) (l : list A) :
  descending key l -> descending key (filter p l).
Proof.
  unfold descending.
  induction l as [|x l IH]; simpl; intros Hs; [constructor |].
  inversion Hs as [|? ? Hl Hx]; subst.
  destruct (p x); [| now apply IH].
  constructor; [now apply IH |].
  rewrite Forall_forall in *. intros y Hy.
  apply filter_In in Hy as [Hy _]. now apply Hx.
Qed.

Lemma max_from_In (best : A) (l : list A) :
  Py.max_from key best l = best \/ In (Py.max_from key best l) l.
Proof.
  revert best. induction l as [|x l IH]; intros best; simpl; [now left |].
  destruct (IH (if key best <? key x then x else best)) as [E | H].
  - rewrite E. destruct (key best <? key x); auto.
  - auto.
Qed.

End PyFacts.

Lemma descending_map {A B : Type} (f : A -> B) (kA : A -> Z) (kB : B -> Z)
    (l : list A) :
  (forall a, kB (f a) = kA a) ->
  descending kA l -> descending kB (map f l).
Proof.
  intros Hk. unfold descending.
  induction l as [|x l IH]; simpl; intros Hs; [constructor |].
  inversion Hs as [|? ? Hl Hx]; subst.
  constructor; [now apply IH |].
  rewrite Forall_forall in *. intros y Hy.
  apply in_map_iff in Hy as (a & <- & Ha).
  rewrite !Hk. now apply Hx.
Qed.

(** A loop that only appends computes the concatenation of what each
    iteration appends. *)
Lemma foldM_append {A B : Type} (body : list B -> A -> Py.result (list B))
    (f : A -> list B) (l : list A) :
  (forall acc x, In x l -> body acc x = Py.Return (acc ++ f x)%list) ->
  forall acc, Py.foldM body l acc = Py.Return (acc ++ flat_map f l)%list.
Proof.
  induction l as [|x l IH]; intros Hb acc; simpl.
  - now rewrite app_nil_r.
  - rewrite Hb by now left. simpl.
    rewrite IH by (intros; apply Hb; now right).
    now rewrite <- app_assoc.
Qed.

Lemma filter_nil_existsb {A : Type} (p : A -> bool) (l : list A) :
  filter p l = [] <-> existsb p l = false.
Proof.
  induction l as [|x l IH]; simpl; [tauto |].
  destruct (p x); simpl; [| exact IH].
  split; discriminate.
Qed.

(** ** Spiral assignment *)

Lemma prefix_colon_iff (r : string) :
  prefix ":" r = true <-> exists post, r = String ":" post.
Proof.
  destruct r as [|c r]; cbn [prefix].
  - split; [discriminate | intros [post H]; discriminate H].
  - destruct (ascii_dec ":" c) as [<- | N].
    + split; [eauto | intros _; now destruct r].
    + split; [discriminate | intros [post [= E _]]; congruence].
Qed.

Lemma prefix_colon_cons (c : ascii) (r : string) :
  prefix ":" (String c r) = Ascii.eqb c ":".
Proof.
  destruct (Ascii.eqb_spec c ":") as [-> | N].
  - apply prefix_colon_iff. eauto.
  - destruct (prefix ":" (String c r)) eqn:E; [| reflexivity].
    apply prefix_colon_iff in E as [post [= E _]]. congruence.
Qed.

Lemma no_digit_colon_cons (c : ascii) (s : string) :
  no_digit_colon (String c s) =
    negb (Str.is_digit c && prefix ":" s) && no_digit_colon s.
Proof. reflexivity. Qed.

(** The run of digits at the head of a string of digits followed by a
    colon is that string. *)
Lemma span_digits_run (d post : string) :
  all_chars Str.is_digit d = true ->
  Str.span_digits (d ++ String ":" post) = (d, String ":" post).
Proof.
  intros Hd. induction d as [|c d IH]; cbn [append Str.span_digits].
  - reflexivity.
  - cbn [all_chars] in Hd. apply andb_prop in Hd as [Hc Hd].
    now rewrite Hc, (IH Hd).
Qed.

Lemma span_digits_spec (s d r : string) :
  Str.span_digits s = (d, r) ->
  s = d ++ r /\ all_chars Str.is_digit d = true.
Proof.
  revert d r. induction s as [|c s IH]; intros d r; cbn [Str.span_digits].
  - intros [= <- <-]. now split.
  - destruct (Str.is_digit c) eqn:Hc.
    + destruct (Str.span_digits s) as [d' r'] eqn:E. intros [= <- <-].
      destruct (IH d' r' eq_refl) as [-> Hd].
      split; [reflexivity |]. cbn [all_chars]. now rewrite Hc, Hd.
    + intros [= <- <-]. now split.
Qed.

(** Inside a prefix without a digit-colon pair that does not end in a
    digit, no run of digits is followed by a colon. *)
Lemma span_digits_before (pre rest : string) :
  pre <> "" ->
  ends_with_digit pre = false ->
  no_digit_colon pre = true ->
  Str.nonempty (fst (Str.span_digits (pre ++ rest)))
  && prefix ":" (snd (Str.span_digits (pre ++ rest))) = false.
Proof.
  induction pre as [|c pre IH]; [congruence |]. intros _ He Hn.
  cbn [append Str.span_digits].
  destruct (Str.is_digit c) eqn:Hc; [| reflexivity].
  destruct pre as [|c' pre'].
  - cbn [ends_with_digit] in He. congruence.
  - rewrite no_digit_colon_cons in Hn. apply andb_prop in Hn as [Hcc Hn].
    rewrite Hc, prefix_colon_cons in Hcc. cbn [andb] in Hcc.
    apply negb_true_iff in Hcc.
    assert (He' : ends_with_digit (String c' pre') = false) by exact He.
    specialize (IH ltac:(discriminate) He' Hn).
    destruct (Str.span_digits (String c' pre' ++ rest)) as [d r] eqn:E.
    cbn [fst snd Str.nonempty] in *.
    cbn [append Str.span_digits] in E.
    destruct (Str.is_digit c') eqn:Hc'.
    + destruct (Str.span_digits (pre' ++ rest)) as [d' r'].
      injection E as <- <-. exact IH.
    + injection E as <- <-. now rewrite prefix_colon_cons.
Qed.

(** The search of the classifier finds the locator of the reference... *)
Lemma search_digits_colon_complete (reference d : string) :
  locator reference d -> Str.search_digits_colon reference = Some d.
Proof.
  intros (pre & post & -> & Hd & He & Hn).
  unfold isdigit in Hd. apply andb_prop in Hd as [Hne Hd].
  induction pre as [|c pre IH].
  - cbn [append]. destruct d as [|c d]; [discriminate Hne |].
    cbn [append]. unfold Str.search_digits_colon; fold Str.search_digits_colon.
    change (String c (d ++ String ":" post))
      with (String c d ++ String ":" post).
    rewrite (span_digits_run (String c d) post Hd).
    cbn [Str.nonempty andb]. now rewrite prefix_colon_cons.
  - pose proof (span_digits_before (String c pre) (d ++ ":" ++ post)
                  ltac:(discriminate) He Hn) as Hb.
    cbn [append] in Hb |- *.
    unfold Str.search_digits_colon; fold Str.search_digits_colon.
    destruct (Str.span_digits (String c (pre ++ d ++ String ":" post)))
      as [d0 r0].
    cbn [fst snd] in Hb. rewrite Hb.
    apply IH.
    + destruct pre as [|c' pre']; [reflexivity | exact He].
    + rewrite no_digit_colon_cons in Hn. now apply andb_prop in Hn as [_ Hn].
Qed.

(** ... and nothing else. *)
Lemma search_digits_colon_sound (reference d : string) :
  Str.search_digits_colon reference = Some d -> locator reference d.
Proof.
  induction reference as [|c s IH]; [discriminate |].
  unfold Str.search_digits_colon; fold Str.search_digits_colon.
  destruct (Str.span_digits (String c s)) as [d0 r0] eqn:E.
  destruct (Str.nonempty d0 && prefix ":" r0) eqn:Hm.
  - intros [= <-]. apply andb_prop in Hm as [Hne Hp].
    apply prefix_colon_iff in Hp as [post ->].
    apply span_digits_spec in E as [E Hd].
    exists "", post. cbn [append].
    repeat split; [exact E | unfold isdigit; now rewrite Hne, Hd].
  - intros Hs. destruct (IH Hs) as (pre & post & -> & Hd & He & Hn).
    exists (String c pre), post.
    split; [reflexivity |]. split; [exact Hd |].
    cbn [Str.span_digits] in E.
    destruct (Str.is_digit c) eqn:Hc.
    + (* the run that starts at [c] is not followed by a colon *)
      destruct (Str.span_digits (pre ++ d ++ ":" ++ post)) as [d1 r1] eqn:E1.
      injection E as <- <-. cbn [Str.nonempty andb] in Hm.
      destruct pre as [|c' pre'].
      * (* the found chapter would start right after [c] *)
        exfalso. cbn [append] in E1.
        unfold isdigit in Hd. apply andb_prop in Hd as [_ Hd].
        change (d ++ String ":" post) with (d ++ String ":" post) in E1.
        rewrite (span_digits_run d post Hd) in E1.
        injection E1 as <- <-. now rewrite prefix_colon_cons in Hm.
      * split; [exact He |].
        rewrite no_digit_colon_cons, Hn, andb_true_r.
        rewrite Hc, prefix_colon_cons. cbn [andb].
        apply negb_true_iff.
        destruct (Ascii.eqb_spec c' ":") as [-> | N]; [| reflexivity].
        exfalso. cbn [append Str.span_digits] in E1.
        change (Str.is_digit ":") with false in E1.
        injection E1 as <- <-. now rewrite prefix_colon_cons in Hm.
    + split.
      * destruct pre as [|c' pre']; [exact Hc | exact He].
      * now rewrite no_digit_colon_cons, Hc, Hn.
Qed.

(** A reference without a locator: the search finds nothing. *)
Lemma search_digits_colon_none (reference : string) :
  Str.search_digits_colon reference = None <->
  forall d, ~ locator reference d.
Proof.
  split.
  - intros H d L. apply search_digits_colon_complete in L. congruence.
  - intros H. destruct (Str.search_digits_colon reference) as [d|] eqn:E;
      [| reflexivity].
    exfalso. apply (H d). now apply search_digits_colon_sound.
Qed.

(** The Genesis branch, by the locator of the reference. *)
Lemma genesis_spiral_locator (reference d : string) :
  locator reference d ->
  genesis_spiral reference =
    if Str.max_str_digits <? Z.of_nat (String.length d)
    then Py.Raise Py.ValueError
    else Py.Return (if Str.to_int d <=? 11 then S1_CREATION else S2_COVENANT).
Proof.
  intros L. unfold genesis_spiral.
  rewrite (search_digits_colon_complete reference d L). unfold Str.int.
  now destruct (Str.max_str_digits <? Z.of_nat (String.length d)).
Qed.

Lemma genesis_spiral_no_locator (reference : string) :
  (forall d, ~ locator reference d) ->
  genesis_spiral reference = Py.Return S2_COVENANT.
Proof.
  intros N. unfold genesis_spiral.
  now rewrite (proj2 (search_digits_colon_none reference) N).
Qed.

(** A reference has at most one locator. *)
Lemma locator_unique (reference d d' : string) :
  locator reference d -> locator reference d' -> d = d'.
Proof.
  intros L L'. apply search_digits_colon_complete in L, L'. congruence.
Qed.

Lemma genesis_spiral_cases (reference : string) :
  (genesis_spiral reference = Py.Raise Py.ValueError
   <-> chapter_too_long reference) /\
  (genesis_spiral reference = Py.Return S1_CREATION
   <-> chapter_up_to_11 reference) /\
  (genesis_spiral reference = Py.Return S2_COVENANT
   <-> ~ chapter_up_to_11 reference /\ ~ chapter_too_long reference) /\
  (genesis_spiral reference = Py.Raise Py.ValueError \/
   genesis_spiral reference = Py.Return S1_CREATION \/
   genesis_spiral reference = Py.Return S2_COVENANT).
Proof.
  unfold chapter_too_long, chapter_up_to_11.
  destruct (Str.search_digits_colon reference) as [d|] eqn:E.
  - apply search_digits_colon_sound in E.
    rewrite (genesis_spiral_locator reference d E).
    assert (U : forall d', locator reference d' -> d' = d)
      by (intros d' L; exact (locator_unique _ _ _ L E)).
    destruct (Z.ltb_spec Str.max_str_digits (Z.of_nat (String.length d)))
      as [Hlong | Hshort]; [| destruct (Z.leb_spec (Str.to_int d) 11) as [Hle | Hgt]].
    + split; [| split; [| split]].
      * split; [intros _; exists d; now split | reflexivity].
      * split; [discriminate |].
        intros (d' & L & H & _). apply U in L. subst d'. lia.
      * split; [discriminate |].
        intros [_ H]. exfalso. apply H. exists d. now split.
      * now left.
    + split; [| split; [| split]].
      * split; [discriminate |].
        intros (d' & L & H). apply U in L. subst d'. lia.
      * split; [intros _; exists d; now repeat split | reflexivity].
      * split; [discriminate |].
        intros [H _]. exfalso. apply H. exists d. now repeat split.
      * right. now left.
    + split; [| split; [| split]].
      * split; [discriminate |].
        intros (d' & L & H). apply U in L. subst d'. lia.
      * split; [discriminate |].
        intros (d' & L & _ & H). apply U in L. subst d'. lia.
      * split; [| reflexivity]. intros _. split.
        -- intros (d' & L & _ & H). apply U in L. subst d'. lia.
        -- intros (d' & L & H). apply U in L. subst d'. lia.
      * right. now right.
  - pose proof (proj1 (search_digits_colon_none reference) E) as N.
    rewrite (genesis_spiral_no_locator reference N).
    split; [| split; [| split]].
    + split; [discriminate |]. intros (d & L & _). exfalso. exact (N d L).
    + split; [discriminate |]. intros (d & L & _). exfalso. exact (N d L).
    + split; [| reflexivity]. intros _.
      split; intros (d & L & _); exact (N d L).
    + right. now right.
Qed.

(** The classifier fails exactly on the Genesis references whose chapter
    is too long for [int()], and then with ValueError. *)
Lemma assign_spiral_raises (reference : string) (e : Py.exn) :
  assign_spiral reference = Py.Raise e <->
  e = Py.ValueError /\ long_genesis_chapter reference.
Proof.
  unfold assign_spiral, long_genesis_chapter.
  destruct (Str.contains "genesis" (Str.lower reference)).
  - destruct (genesis_spiral_cases reference) as (Hr & _ & _ & Hc).
    split.
    + intros H. destruct Hc as [Hc | [Hc | Hc]]; try congruence.
      split; [congruence |]. split; [reflexivity | now apply Hr].
    + intros (-> & _ & H). now apply Hr.
  - split.
    + repeat match goal with
             | |- (if ?b then _ else _) = _ -> _ => destruct b
             end; discriminate.
    + intros (_ & H & _). discriminate H.
Qed.

Lemma assign_spiral_returns (reference : string) :
  ~ long_genesis_chapter reference ->
  exists spiral, assign_spiral reference = Py.Return spiral.
Proof.
  intros N. destruct (assign_spiral reference) as [spiral | e] eqn:E; [eauto |].
  exfalso. apply N. now apply (assign_spiral_raises reference e).
Qed.

(** The chapter-only reference "Genesis 1" has no locator and is placed
    in spiral 2; a Genesis reference whose chapter has 4301 digits makes
    the classifier raise ValueError. *)
Lemma assign_spiral_genesis_fails :
  assign_spiral "Genesis 1" = Py.Return S2_COVENANT /\
  assign_spiral long_chapter_reference = Py.Raise Py.ValueError.
Proof. split; vm_compute; reflexivity. Qed.

(** C5 (amended): a reference naming Genesis is placed by the chapter of
    its chapter:verse locator, the first run of digits that a colon
    follows: a chapter (of at most 4300 digits) up to 11 goes to spiral 1,
    a later chapter to spiral 2, and a reference without a locator goes
    to spiral 2; "Genesis 1:1" is in spiral 1. *)
Theorem assign_spiral_genesis :
  (forall reference,
      Str.contains "genesis" (Str.lower reference) = true ->
      (forall d,
          locator reference d ->
          Z.of_nat (String.length d) <= Str.max_str_digits ->
          (Str.to_int d <= 11 ->
           assign_spiral reference = Py.Return S1_CREATION) /\
          (Str.to_int d > 11 ->
           assign_spiral reference = Py.Return S2_COVENANT)) /\
      ((forall d, ~ locator reference d) ->
       assign_spiral reference = Py.Return S2_COVENANT)) /\
  assign_spiral "Genesis 1:1" = Py.Return S1_CREATION.
Proof.
  split; [| reflexivity].
  intros reference Hg. unfold assign_spiral. rewrite Hg. split.
  - intros d L Hlen. rewrite (genesis_spiral_locator reference d L).
    assert (E : (Str.max_str_digits <? Z.of_nat (String.length d)) = false)
      by (apply Z.ltb_ge; exact Hlen).
    rewrite E. split; intros Hc.
    + apply Z.leb_le in Hc. now rewrite Hc.
    + assert (E' : (Str.to_int d <=? 11) = false) by (apply Z.leb_gt; lia).
      now rewrite E'.
  - apply genesis_spiral_no_locator.
Qed.

Lemma assign_spiral_genesis_witness :
  assign_spiral "Genesis 11:9" = Py.Return S1_CREATION /\
  assign_spiral "genesis 12:1-3" = Py.Return S2_COVENANT.
Proof.
  split.
  - apply (proj1 (proj1 assign_spiral_genesis "Genesis 11:9" eq_refl) "11").
    + exists "Genesis ", "9". repeat split.
    + vm_compute. discriminate.
    + vm_compute. discriminate.
  - apply (proj1 (proj1 assign_spiral_genesis "genesis 12:1-3" eq_refl) "12").
    + exists "genesis ", "1-3". repeat split.
    + vm_compute. discriminate.
    + reflexivity.
Defined.

(** The Gospel rule as it behaves for references that name John. *)
Lemma assign_spiral_john_rule (reference : string) :
  no_earlier_book (Str.lower reference) = true ->
  Str.contains "john" (Str.lower reference) = true ->
  assign_spiral reference =
    Py.Return (if Str.any_in epistle_john (Str.lower reference)
               then S7_NEW_CREATION else S6_CHRIST).
Proof.
  unfold no_earlier_book, assign_spiral. intros He Hj.
  repeat (apply andb_prop in He as [He ?]).
  repeat match goal with
         | H : negb ?b = true |- _ => apply negb_true_iff in H; rewrite H
         end.
  assert (Hg : Str.any_in gospel_books (Str.lower reference) = true).
  { unfold Str.any_in, gospel_books. simpl. rewrite Hj.
    now rewrite !orb_true_r. }
  assert (Hn : Str.any_in new_creation_books (Str.lower reference) = true).
  { unfold Str.any_in, new_creation_books. simpl. rewrite Hj.
    now rewrite !orb_true_r. }
  rewrite Hg, Hj, Hn.
  now destruct (Str.any_in epistle_john (Str.lower reference)).
Qed.

(** Without "john" the Gospel test is never taken: Matthew, Mark and Luke
    reach spiral 6 only through the final default. *)
Lemma assign_spiral_synoptic (reference : string) :
  no_earlier_book (Str.lower reference) = true ->
  Str.contains "john" (Str.lower reference) = false ->
  assign_spiral reference =
    Py.Return (if Str.any_in new_creation_books (Str.lower reference)
               then S7_NEW_CREATION else S6_CHRIST).
Proof.
  unfold no_earlier_book, assign_spiral. intros He Hj.
  repeat (apply andb_prop in He as [He ?]).
  repeat match goal with
         | H : negb ?b = true |- _ => apply negb_true_iff in H; rewrite H
         end.
  rewrite Hj, andb_false_r.
  now destruct (Str.any_in new_creation_books (Str.lower reference)).
Qed.

(** C4: "Luke 1:1; Acts 1:1" names a Gospel, no book of an earlier
    spiral and no epistle of John, and is assigned spiral 7. *)
Theorem assign_spiral_luke_acts :
  let reference := "Luke 1:1; Acts 1:1" in
  Str.any_in gospel_books (Str.lower reference) = true /\
  no_earlier_book (Str.lower reference) = true /\
  Str.any_in epistle_john (Str.lower reference) = false /\
  assign_spiral reference = Py.Return S7_NEW_CREATION.
Proof. repeat split. Qed.

(** ** GRAVITY-SYNC *)

Lemma seed_hits_nil (names : list string) (seeds : list PatternSeed) :
  seed_hits names seeds = [] <-> tier_hit names seeds = false.
Proof.
  unfold seed_hits, tier_hit. rewrite <- filter_nil_existsb.
  destruct (filter _ seeds); simpl; split; congruence.
Qed.

(** C1: the centrality score is one of 0, 1, 2, 3 and follows the tiers
    in strict priority: 3 when a direct keyword occurs in the text,
    otherwise 2 when a seed is a strong type, otherwise 1 when a seed is a
    light hint, otherwise 0. *)
Theorem gravity_sync_cascade (text : string) (seeds : list PatternSeed) :
  let s := gs_score (gravity_sync text seeds) in
  (s = 0 \/ s = 1 \/ s = 2 \/ s = 3) /\
  s = (if tier1_hit text then 3
       else if tier_hit strong_types seeds then 2
       else if tier_hit light_hints seeds then 1
       else 0).
Proof.
  unfold gravity_sync, tier1_hit, Str.any_in, matched.
  destruct (filter _ direct_christ) eqn:E1.
  - apply filter_nil_existsb in E1. rewrite E1.
    destruct (seed_hits strong_types seeds) eqn:E2.
    + apply seed_hits_nil in E2. rewrite E2.
      destruct (seed_hits light_hints seeds) eqn:E3.
      * apply seed_hits_nil in E3. rewrite E3. simpl. auto.
      * destruct (tier_hit light_hints seeds) eqn:E3'; simpl; auto.
        apply seed_hits_nil in E3'. congruence.
    + destruct (tier_hit strong_types seeds) eqn:E2'; simpl; auto.
      apply seed_hits_nil in E2'. congruence.
  - destruct (existsb _ direct_christ) eqn:E1'; simpl; auto 6.
    apply filter_nil_existsb in E1'. congruence.
Qed.

(** ** COMP-435 *)

(** C9: the pattern holds exactly when each of the three word lists has a
    hit in the lowered text; it then comes with confidence "Medium" and
    the fixed mapping, and otherwise with "Low" and no mapping. *)
Theorem comp_435_pattern (text : string) :
  let c := comp_435 text in
  let text_lower := Str.lower text in
  has_pattern c =
    Str.any_in stage_4_words text_lower
    && Str.any_in stage_3_words text_lower
    && Str.any_in stage_5_words text_lower /\
  confidence c = (if has_pattern c then "Medium" else "Low") /\
  mapping c = (if has_pattern c then Some comp_435_mapping else None).
Proof.
  unfold comp_435.
  destruct (Str.any_in stage_4_words (Str.lower text));
    destruct (Str.any_in stage_3_words (Str.lower text));
    destruct (Str.any_in stage_5_words (Str.lower text));
    simpl; auto.
Qed.

(** ** FRACTAL-FILTER *)

(** C6: the checklist has the five criteria, and the classification is
    "Fractal" exactly when at least three of them hold, "Likely Feedback"
    exactly when fewer do. *)
Theorem fractal_filter_threshold (seeds : list PatternSeed) (traces : list EchoTrace) :
  let ff := fractal_filter seeds traces in
  map fst (checklist_results ff) =
    ["echo_density"; "cross_spiral_reach"; "theological_load"; "controls";
     "bidirectional"] /\
  (classification ff = "Fractal" <-> 3 <= satisfied_count (checklist_results ff)) /\
  (classification ff = "Likely Feedback" <-> satisfied_count (checklist_results ff) < 3).
Proof.
  unfold fractal_filter.
  generalize ((Py.len traces >? 0)
              && forallb (fun t => Py.len (spiral_roles t) >=? 3) traces).
  generalize ((Py.len traces >? 0)
              && existsb (fun t => Py.len (spiral_roles t) >=? 5) traces).
  generalize (existsb (fun seed => theological_weight seed >=? 2) seeds).
  generalize (Py.len seeds >=? 2).
  generalize (Py.len seeds >? 0).
  intros [] [] [] [] [];
    cbn; (split; [reflexivity |]);
    split; split; intros H; try lia; try discriminate; reflexivity.
Qed.

(** ** Substring search *)

Lemma find_unfold (sub s : string) :
  Str.find sub s =
    if prefix sub s then Some O
    else match s with
         | EmptyString => None
         | String _ s' => option_map S (Str.find sub s')
         end.
Proof. destruct s; reflexivity. Qed.

Lemma find_first_occurrence (sub s : string) (n : nat) :
  Str.find sub s = Some n -> Str.first_occurrence sub s n.
Proof.
  revert n. induction s as [|c s IH]; intros n; rewrite find_unfold.
  - destruct (prefix sub "") eqn:E; [| discriminate].
    intros [= <-]. split; [exact E | intros m Hm; lia].
  - destruct (prefix sub (String c s)) eqn:E.
    + intros [= <-]. split; [exact E | intros m Hm; lia].
    + destruct (Str.find sub s) as [k|]; [| discriminate].
      simpl. intros [= <-].
      destruct (IH k eq_refl) as [Hk Hlt].
      split; [exact Hk |].
      intros [|m] Hm; simpl; [exact E | apply Hlt; lia].
Qed.

Lemma contains_find (sub s : string) :
  Str.contains sub s = true -> exists n, Str.find sub s = Some n.
Proof.
  unfold Str.contains. destruct (Str.find sub s) as [n|]; [eauto | discriminate].
Qed.

Lemma matched_head (kws : list string) (text_lower m0 : string) (rest : list string) :
  matched kws text_lower = m0 :: rest -> Str.contains m0 text_lower = true.
Proof.
  intros E.
  assert (H : In m0 (matched kws text_lower)) by (rewrite E; now left).
  unfold matched in H. now apply filter_In in H.
Qed.

(** ** PATTERN-SEED *)

Section PatternSeedFacts.

Variable text : string.

Let text_lower := Str.lower text.
Let step := candidate_step text text_lower.

(** The scoring of a matched symbol cannot raise: the keyword looked up
    by [index] occurs in the text. *)
Lemma candidate_step_appends (acc : list Candidate) (entry : string * SymbolData) :
  step acc entry = Py.Return (acc ++ Py.appended_by step entry)%list.
Proof.
  unfold Py.appended_by, step, candidate_step.
  destruct entry as [sym data].
  destruct (matched (keywords data) text_lower) as [|m0 rest] eqn:E.
  - now rewrite app_nil_r.
  - apply matched_head in E. apply contains_find in E as [n E].
    unfold score_candidate, Str.index. rewrite E. reflexivity.
Qed.

Lemma candidates_of_flat_map :
  candidates_of text =
    Py.Return (flat_map (Py.appended_by step) SYMBOL_LEXICON).
Proof.
  unfold candidates_of.
  change (candidate_step text (Str.lower text)) with step.
  rewrite (foldM_append step (Py.appended_by step)); [reflexivity |].
  intros; apply candidate_step_appends.
Qed.

(** What the loop appends for a symbol with a matched keyword. *)
Lemma appended_by_matched (sym : string) (data : SymbolData) (m0 : string)
    (rest : list string) (pos : nat) :
  matched (keywords data) text_lower = m0 :: rest ->
  Str.find m0 text_lower = Some pos ->
  exists c,
    Py.appended_by step (sym, data) = [c] /\
    c_symbol c = sym /\
    c_structural_position c =
      struct_score (Z.of_nat pos) (Z.of_nat (String.length text)).
Proof.
  intros E F.
  unfold Py.appended_by, step, candidate_step. rewrite E.
  unfold score_candidate, Str.index. rewrite F. simpl.
  eexists; repeat split.
Qed.

Lemma appended_by_symbol (sym : string) (data : SymbolData) (c : Candidate) :
  In c (Py.appended_by step (sym, data)) -> c_symbol c = sym.
Proof.
  unfold Py.appended_by, step, candidate_step.
  destruct (matched (keywords data) text_lower) as [|m0 rest]; [intros [] |].
  unfold score_candidate.
  destruct (Str.index text_lower m0); simpl; [| intros []].
  intros [<- | []]. reflexivity.
Qed.

Lemma pattern_seed_returns :
  pattern_seed text =
    Py.Return (select_seeds
                 (Py.sorted_desc c_score
                    (flat_map (Py.appended_by step) SYMBOL_LEXICON))).
Proof.
  unfold pattern_seed. now rewrite candidates_of_flat_map.
Qed.

End PatternSeedFacts.

Lemma select_seeds_length (candidates : list Candidate) :
  (length (select_seeds candidates) <= 3)%nat.
Proof.
  unfold select_seeds. rewrite length_map.
  etransitivity; [apply filter_length_le |].
  apply firstn_le_length.
Qed.

Lemma select_seeds_score (candidates : list Candidate) :
  Forall (fun seed => score seed >= 4) (select_seeds candidates).
Proof.
  unfold select_seeds. apply Forall_forall. intros seed Hs.
  apply in_map_iff in Hs as (c & <- & Hc).
  apply filter_In in Hc as [_ Hc]. simpl.
  apply Z.geb_le in Hc. lia.
Qed.

Lemma select_seeds_descending (candidates : list Candidate) :
  descending c_score candidates -> descending score (select_seeds candidates).
Proof.
  intros Hd. unfold select_seeds.
  apply (descending_map make_seed c_score score); [reflexivity |].
  now apply descending_filter, descending_firstn.
Qed.

(** C2: the detector returns, for every text, a list of at most three
    seeds, each with total score at least 4, in descending order of
    score. *)
Theorem pattern_seed_top3 (text : string) :
  exists seeds,
    pattern_seed text = Py.Return seeds /\
    (length seeds <= 3)%nat /\
    Forall (fun seed => score seed >= 4) seeds /\
    descending score seeds.
Proof.
  eexists. split; [apply pattern_seed_returns |].
  split; [apply select_seeds_length |].
  split; [apply select_seeds_score |].
  apply select_seeds_descending, sorted_desc_descending.
Qed.

Lemma mem_In (x : string) (l : list string) : Str.mem x l = true <-> In x l.
Proof.
  unfold Str.mem. rewrite existsb_exists. split.
  - intros (y & Hy & E). apply String.eqb_eq in E. now subst.
  - intros H. exists x. split; [assumption | apply String.eqb_refl].
Qed.

Lemma distinctb_NoDup (l : list string) : distinctb l = true -> NoDup l.
Proof.
  induction l as [|x l IH]; simpl; intros H; constructor.
  - apply andb_prop in H as [H _]. apply negb_true_iff in H.
    intros Hin. apply mem_In in Hin. congruence.
  - apply andb_prop in H as [_ H]. now apply IH.
Qed.

Lemma lexicon_symbols_distinct : NoDup (map fst SYMBOL_LEXICON).
Proof. apply distinctb_NoDup. vm_compute. reflexivity. Qed.

Lemma NoDup_fst_functional {K V : Type} (l : list (K * V)) (k : K) (v v' : V) :
  NoDup (map fst l) -> In (k, v) l -> In (k, v') l -> v = v'.
Proof.
  induction l as [|[k0 v0] l IH]; simpl; intros Hnd Hv Hv'; [contradiction |].
  inversion Hnd as [|? ? Hnot Hnd']; subst.
  destruct Hv as [Hv | Hv], Hv' as [Hv' | Hv'].
  - congruence.
  - exfalso. apply Hnot. apply in_map_iff. exists (k, v').
    split; [simpl; congruence | assumption].
  - exfalso. apply Hnot. apply in_map_iff. exists (k, v).
    split; [simpl; congruence | assumption].
  - now apply IH.
Qed.

Lemma struct_score_band (pos : nat) (text : string) :
  struct_score (Z.of_nat pos) (Z.of_nat (String.length text)) = position_band pos text.
Proof.
  unfold struct_score, position_band, Py.lt_frac.
  repeat match goal with
         | |- context [?a <? ?b] => destruct (Z.ltb_spec a b)
         end; lia.
Qed.

(** C3: for a lexicon symbol with a keyword in the text, the structural
    position is the band (3 / 2 / 1 for the first 20% / first 50% / rest of
    the text) of the first occurrence of its first matched keyword; this
    is the component of its candidate, and of its seed when it is
    selected. *)
Theorem pattern_seed_structural_position
    (text sym : string) (data : SymbolData) (m0 : string) (rest : list string) :
  In (sym, data) SYMBOL_LEXICON ->
  matched (keywords data) (Str.lower text) = m0 :: rest ->
  exists (pos : nat) (candidates : list Candidate),
    Str.first_occurrence m0 (Str.lower text) pos /\
    candidates_of text = Py.Return candidates /\
    (exists c, In c candidates /\ c_symbol c = sym) /\
    (forall c, In c candidates -> c_symbol c = sym ->
               c_structural_position c = position_band pos text) /\
    (forall seeds seed,
        pattern_seed text = Py.Return seeds -> In seed seeds ->
        symbol seed = sym ->
        structural_position seed = position_band pos text).
Proof.
  intros Hin Hm.
  destruct (contains_find _ _ (matched_head _ _ _ _ Hm)) as [pos Hpos].
  destruct (appended_by_matched text sym data m0 rest pos Hm Hpos)
    as (c0 & Hc0 & Hsym0 & Hpos0).
  rewrite struct_score_band in Hpos0.
  set (step := candidate_step text (Str.lower text)) in *.
  assert (Hall : forall c,
             In c (flat_map (Py.appended_by step) SYMBOL_LEXICON) ->
             c_symbol c = sym ->
             c_structural_position c = position_band pos text).
  { intros c Hc Hs.
    apply in_flat_map in Hc as ([sym' data'] & Hin' & Hc).
    pose proof (appended_by_symbol text sym' data' c Hc) as Hs'.
    rewrite Hs in Hs'. subst sym'.
    assert (data' = data)
      by exact (NoDup_fst_functional SYMBOL_LEXICON sym data' data
                  lexicon_symbols_distinct Hin' Hin).
    subst data'. fold step in Hc. rewrite Hc0 in Hc.
    destruct Hc as [<- | []]. exact Hpos0. }
  exists pos, (flat_map (Py.appended_by step) SYMBOL_LEXICON).
  split; [now apply find_first_occurrence |].
  split; [apply candidates_of_flat_map |].
  split.
  { exists c0. split; [| exact Hsym0].
    apply in_flat_map. exists (sym, data). split; [exact Hin |].
    rewrite Hc0. now left. }
  split; [exact Hall |].
  intros seeds seed Hps Hseed Hs.
  rewrite pattern_seed_returns in Hps.
  assert (Hseeds : seeds = select_seeds
                     (Py.sorted_desc c_score
                        (flat_map (Py.appended_by step) SYMBOL_LEXICON)))
    by (unfold step; congruence).
  rewrite Hseeds in Hseed. unfold select_seeds in Hseed.
  apply in_map_iff in Hseed as (c & <- & Hc).
  apply filter_In in Hc as [Hc _].
  apply firstn_In in Hc.
  apply sorted_desc_In in Hc.
  change (c_structural_position c = position_band pos text).
  apply Hall; assumption.
Qed.

Lemma pattern_seed_structural_position_witness :
  exists (pos : nat) (candidates : list Candidate),
    Str.first_occurrence "light" (Str.lower "And God said, Let there be Light") pos /\
    candidates_of "And God said, Let there be Light" = Py.Return candidates /\
    (exists c, In c candidates /\ c_symbol c = "LIGHT") /\
    (forall c, In c candidates -> c_symbol c = "LIGHT" ->
               c_structural_position c =
                 position_band pos "And God said, Let there be Light") /\
    (forall seeds seed,
        pattern_seed "And God said, Let there be Light" = Py.Return seeds ->
        In seed seeds -> symbol seed = "LIGHT" ->
        structural_position seed =
          position_band pos "And God said, Let there be Light").
Proof.
  apply (pattern_seed_structural_position
           "And God said, Let there be Light" "LIGHT"
           (mkSym "revelation / order"
                  ["light"; "lamp"; "shine"; "brightness"; "dawn"] 3)
           "light" []).
  - left. reflexivity.
  - reflexivity.
Defined.

(** ** QUAD-MAP *)

Lemma flat_map_nonempty {A B : Type} (f : A -> list B) (l : list A) (x : A) :
  In x l -> f x <> [] -> flat_map f l <> [].
Proof.
  induction l as [|y l IH]; simpl; intros Hin Hf; [contradiction |].
  destruct Hin as [-> | Hin].
  - destruct (f x); [congruence | discriminate].
  - intros E. apply app_eq_nil in E as [_ E]. now apply IH.
Qed.

Lemma segments_of_nonempty (text : string) : segments_of text <> [].
Proof.
  unfold segments_of.
  destruct (map Str.strip _); discriminate.
Qed.

Lemma quad_get_total {V : Type} (d : list (Quadrant * V)) (q : Quadrant) :
  map fst d = Quadrant_members -> exists v, quad_get d q = Py.Return v.
Proof.
  unfold Quadrant_members.
  destruct d as [|[q1 v1] [|[q2 v2] [|[q3 v3] [|[q4 v4] [|]]]]]; try discriminate.
  simpl. intros [= -> -> -> ->].
  destruct q; simpl; eauto.
Qed.

Lemma score_segment_returns (seg : string) :
  exists q,
    score_segment seg =
      Py.Return (mkSegmentScore (excerpt seg) q (quadrant_scores (Str.lower seg))).
Proof.
  unfold score_segment.
  destruct (quadrant_scores (Str.lower seg)) as [|x l] eqn:E.
  - unfold quadrant_scores, QUADRANT_INDICATORS in E.
    cbn [map] in E. discriminate E.
  - cbn [Py.max_by Py.bind]. eexists. reflexivity.
Qed.

Lemma score_body_appends (acc : list SegmentScore) (seg : string) :
  score_body acc seg = Py.Return (acc ++ Py.appended_by score_body seg)%list.
Proof.
  unfold Py.appended_by, score_body.
  destruct (score_segment_returns seg) as [q ->]. reflexivity.
Qed.

Lemma score_body_well_keyed (seg : string) (s : SegmentScore) :
  In s (Py.appended_by score_body seg) -> well_keyed s.
Proof.
  unfold Py.appended_by, score_body.
  destruct (score_segment_returns seg) as [q ->]. simpl.
  intros [<- | []]. reflexivity.
Qed.

Lemma score_segments_returns (segments : list string) :
  exists ss,
    score_segments segments = Py.Return ss /\
    Forall well_keyed ss /\
    length ss = length segments.
Proof.
  exists (flat_map (Py.appended_by score_body) segments).
  split; [| split].
  - unfold score_segments.
    apply (foldM_append score_body (Py.appended_by score_body)).
    intros; apply score_body_appends.
  - apply Forall_forall. intros s Hs.
    apply in_flat_map in Hs as (seg & _ & Hs).
    eapply score_body_well_keyed; eassumption.
  - induction segments as [|seg l IH]; [reflexivity |].
    cbn [flat_map length]. rewrite length_app, IH.
    unfold Py.appended_by, score_body.
    destruct (score_segment_returns seg) as [q ->]. reflexivity.
Qed.

Lemma occurrences_cons (q : Quadrant) (s : SegmentScore) (ss : list SegmentScore) :
  occurrences q (s :: ss) =
    (if Quadrant_eqb (seg_quadrant s) q then 1 else 0) + occurrences q ss.
Proof.
  unfold occurrences, Py.len. simpl.
  destruct (Quadrant_eqb (seg_quadrant s) q); simpl length; lia.
Qed.

Lemma count_loop (ss : list SegmentScore) (a b c d : Z) :
  Py.foldM (fun quad_counts seg => quad_incr quad_counts (seg_quadrant seg)) ss
           [(SW, a); (SE, b); (NE, c); (NW, d)]
  = Py.Return [(SW, a + occurrences SW ss); (SE, b + occurrences SE ss);
               (NE, c + occurrences NE ss); (NW, d + occurrences NW ss)].
Proof.
  revert a b c d. induction ss as [|s ss IH]; intros a b c d.
  - unfold occurrences, Py.len. simpl. now rewrite !Z.add_0_r.
  - simpl Py.foldM. rewrite !occurrences_cons.
    destruct (seg_quadrant s);
      cbn [Py.foldM quad_incr Quadrant_eqb Py.bind];
      rewrite IH, ?Z.add_0_l, ?Z.add_assoc; reflexivity.
Qed.

Lemma count_quadrants_returns (ss : list SegmentScore) :
  count_quadrants ss =
    Py.Return [(SW, occurrences SW ss); (SE, occurrences SE ss);
               (NE, occurrences NE ss); (NW, occurrences NW ss)].
Proof.
  unfold count_quadrants. simpl map. now rewrite count_loop.
Qed.

Lemma occurrences_pos (s : SegmentScore) (ss : list SegmentScore) :
  In s ss -> occurrences (seg_quadrant s) ss > 0.
Proof.
  intros Hin. unfold occurrences, Py.len.
  assert (H : In s (filter (fun s' => Quadrant_eqb (seg_quadrant s') (seg_quadrant s)) ss)).
  { apply filter_In. split; [assumption |]. now destruct (seg_quadrant s). }
  destruct (filter _ ss); [destruct H | simpl length; lia].
Qed.

Section EvidenceFacts.

Variable ss : list SegmentScore.
Hypothesis keyed : Forall well_keyed ss.

Lemma evidence_step_appends (acc : list Evidence) (qc : Quadrant * Z) :
  evidence_step ss acc qc =
    Py.Return (acc ++ Py.appended_by (evidence_step ss) qc)%list.
Proof.
  unfold Py.appended_by, evidence_step.
  destruct qc as [quad count].
  destruct (count >? 0); [| now rewrite app_nil_r].
  destruct (filter _ ss) as [|ex0 rest] eqn:E; [now rewrite app_nil_r |].
  assert (Hin : In ex0 ss).
  { assert (H : In ex0 (ex0 :: rest)) by now left.
    rewrite <- E in H. now apply filter_In in H. }
  rewrite Forall_forall in keyed.
  destruct (quad_get_total (scores ex0) quad (keyed ex0 Hin)) as [sc ->].
  reflexivity.
Qed.

Lemma evidence_step_nonempty (s : SegmentScore) (count : Z) :
  In s ss -> count > 0 ->
  Py.appended_by (evidence_step ss) (seg_quadrant s, count) <> [].
Proof.
  intros Hin Hc.
  unfold Py.appended_by, evidence_step.
  assert (E : (count >? 0) = true) by (apply Z.gtb_lt; lia). rewrite E.
  assert (H : In s (filter (fun s' => Quadrant_eqb (seg_quadrant s') (seg_quadrant s)) ss)).
  { apply filter_In. split; [assumption |]. now destruct (seg_quadrant s). }
  destruct (filter _ ss) as [|ex0 rest] eqn:F; [destruct H |].
  assert (Hin0 : In ex0 ss).
  { assert (H0 : In ex0 (ex0 :: rest)) by now left.
    rewrite <- F in H0. now apply filter_In in H0. }
  rewrite Forall_forall in keyed.
  destruct (quad_get_total (scores ex0) (seg_quadrant s) (keyed ex0 Hin0)) as [sc ->].
  simpl. discriminate.
Qed.

End EvidenceFacts.

Lemma getitem_lt {A : Type} (l : list A) (i : nat) :
  (i < length l)%nat -> exists x, Py.getitem l i = Py.Return x.
Proof.
  intros H. unfold Py.getitem.
  destruct (nth_error l i) eqn:E; [eauto |].
  apply nth_error_None in E. lia.
Qed.

(** The mapper cannot raise, and always reports at least one segment and
    at least one evidence entry. *)
Lemma quad_map_returns (text : string) :
  exists m,
    quad_map text = Py.Return m /\
    segment_scores m <> [] /\
    evidence m <> [].
Proof.
  unfold quad_map.
  destruct (score_segments_returns (segments_of text)) as (ss & -> & Hk & Hlen).
  cbn [Py.bind]. rewrite count_quadrants_returns. cbn [Py.bind].
  set (counts := [(SW, occurrences SW ss); (SE, occurrences SE ss);
                  (NE, occurrences NE ss); (NW, occurrences NW ss)]).
  pose proof (sorted_desc_length snd counts) as Hsl.
  change (length counts) with 4%nat in Hsl.
  destruct (getitem_lt (Py.sorted_desc snd counts) 0) as [first ->]; [lia |].
  destruct (getitem_lt (Py.sorted_desc snd counts) 1) as [second ->]; [lia |].
  cbn [Py.bind].
  rewrite (foldM_append (evidence_step ss) (Py.appended_by (evidence_step ss)))
    by (intros; now apply evidence_step_appends).
  cbn [Py.bind app]. eexists. split; [reflexivity |].
  cbn [segment_scores evidence].
  assert (Hne : ss <> []).
  { pose proof (segments_of_nonempty text) as Hn.
    destruct ss; [| discriminate].
    destruct (segments_of text); [congruence | discriminate]. }
  split; [exact Hne |].
  destruct ss as [|s0 ss0]; [congruence |].
  apply (flat_map_nonempty _ _ (seg_quadrant s0, occurrences (seg_quadrant s0) (s0 :: ss0))).
  - apply sorted_desc_In. unfold counts.
    destruct (seg_quadrant s0); cbn [In]; auto.
  - apply evidence_step_nonempty; [assumption | now left |].
    apply occurrences_pos. now left.
Qed.

(** ** ECHO-TRACE *)

(** Every symbol, curated or not, has a role for each of the seven
    spirals. *)
Lemma spiral_roles_seven (sym : string) :
  exists roles,
    _get_symbol_spiral_roles sym = Py.Return roles /\ length roles = 7%nat.
Proof.
  unfold _get_symbol_spiral_roles, str_getitem, roles_map.
  simpl.
  repeat match goal with
         | |- context [if ?b then _ else _] => destruct b
         end; eexists; split; reflexivity.
Qed.

Lemma echo_trace_returns (sym : string) (current : Spiral) :
  exists t,
    echo_trace sym current = Py.Return t /\
    et_symbol t = sym /\
    length (spiral_roles t) = 7%nat.
Proof.
  unfold echo_trace.
  destruct (spiral_roles_seven sym) as (roles & -> & Hlen).
  simpl. eexists. repeat split. exact Hlen.
Qed.

Lemma trace_body_appends (current : Spiral) (acc : list EchoTrace) (seed : PatternSeed) :
  trace_body current acc seed =
    Py.Return (acc ++ Py.appended_by (trace_body current) seed)%list.
Proof.
  unfold Py.appended_by, trace_body.
  destruct (echo_trace_returns (symbol seed) current) as (t & -> & _).
  reflexivity.
Qed.

Lemma trace_body_one (current : Spiral) (seed : PatternSeed) :
  exists t,
    Py.appended_by (trace_body current) seed = [t] /\
    length (spiral_roles t) = 7%nat.
Proof.
  unfold Py.appended_by, trace_body.
  destruct (echo_trace_returns (symbol seed) current) as (t & -> & _ & Hlen).
  exists t. now split.
Qed.

(** One trace per seed (up to three), each over all seven spirals. *)
Lemma trace_seeds_returns (current : Spiral) (seeds : list PatternSeed) :
  exists traces,
    trace_seeds current seeds = Py.Return traces /\
    length traces = length (firstn 3 seeds) /\
    Forall (fun t => length (spiral_roles t) = 7%nat) traces.
Proof.
  exists (flat_map (Py.appended_by (trace_body current)) (firstn 3 seeds)).
  split; [| split].
  - unfold trace_seeds.
    apply (foldM_append (trace_body current) (Py.appended_by (trace_body current))).
    intros; apply trace_body_appends.
  - induction (firstn 3 seeds) as [|seed l IH]; [reflexivity |].
    cbn [flat_map length].
    destruct (trace_body_one current seed) as (t & -> & _).
    cbn [app length]. now rewrite IH.
  - apply Forall_forall. intros t Ht.
    apply in_flat_map in Ht as (seed & _ & Ht).
    destruct (trace_body_one current seed) as (t' & E & Hlen).
    rewrite E in Ht. destruct Ht as [<- | []]. exact Hlen.
Qed.

(** ** URIM & THUMMIM *)

Lemma urim_thummim_returns (seeds : list PatternSeed) (traces : list EchoTrace)
    (gravity : GravitySync) :
  exists u, urim_thummim seeds traces gravity = Py.Return u.
Proof.
  unfold urim_thummim, truediv_ge.
  destruct (Py.len traces >? 0) eqn:E.
  - apply Z.gtb_lt in E.
    assert (E0 : (Py.len traces =? 0) = false) by (apply Z.eqb_neq; lia).
    rewrite E0. simpl. eauto.
  - simpl. eauto.
Qed.

(** ** FRACTAL-FILTER on the traces of a run *)

Lemma fractal_filter_no_seeds :
  classification (fractal_filter [] []) = "Likely Feedback".
Proof. reflexivity. Qed.

Lemma fractal_filter_with_seeds (seeds : list PatternSeed) (traces : list EchoTrace) :
  seeds <> [] -> traces <> [] ->
  Forall (fun t => length (spiral_roles t) = 7%nat) traces ->
  classification (fractal_filter seeds traces) = "Fractal".
Proof.
  intros Hs Ht H7. unfold fractal_filter.
  assert (Hlt : (Py.len traces >? 0) = true).
  { destruct traces; [congruence |]. reflexivity. }
  assert (Hls : (Py.len seeds >? 0) = true).
  { destruct seeds; [congruence |]. reflexivity. }
  assert (Hall : forallb (fun t => Py.len (spiral_roles t) >=? 3) traces = true).
  { apply forallb_forall. intros t Hin.
    rewrite Forall_forall in H7. unfold Py.len. rewrite (H7 t Hin). reflexivity. }
  assert (Hany : existsb (fun t => Py.len (spiral_roles t) >=? 5) traces = true).
  { destruct traces as [|t traces']; [congruence |].
    inversion H7 as [|? ? H7t _]; subst. simpl.
    unfold Py.len at 1. rewrite H7t. reflexivity. }
  rewrite Hlt, Hls, Hall, Hany.
  destruct (existsb _ seeds), (Py.len seeds >=? 2); reflexivity.
Qed.

(** ** Inputs without a match *)

Lemma assign_spiral_default (reference : string) :
  Str.any_in all_books (Str.lower reference) = false ->
  assign_spiral reference = Py.Return S6_CHRIST.
Proof.
  unfold all_books, Str.any_in. intros H.
  change (existsb ?p ("genesis" :: ?l)) with (p "genesis" || existsb p l) in H.
  apply orb_false_elim in H as [Hg H].
  repeat (rewrite existsb_app in H; apply orb_false_elim in H as [? H]).
  unfold assign_spiral, Str.any_in.
  repeat match goal with
         | E : _ = false |- _ => rewrite E; clear E
         end.
  reflexivity.
Qed.

Lemma flat_map_nil {A B : Type} (f : A -> list B) (l : list A) :
  (forall x, In x l -> f x = []) -> flat_map f l = [].
Proof.
  induction l as [|x l IH]; simpl; intros H; [reflexivity |].
  rewrite (H x) by now left. apply IH. intros; apply H; now right.
Qed.

Lemma matched_nil (kws : list string) (text_lower : string) :
  Str.any_in kws text_lower = false -> matched kws text_lower = [].
Proof. unfold matched, Str.any_in. apply filter_nil_existsb. Qed.

Lemma pattern_seed_no_keyword (text : string) :
  no_symbol_keyword text = true -> pattern_seed text = Py.Return [].
Proof.
  intros H. rewrite pattern_seed_returns.
  rewrite flat_map_nil; [reflexivity |].
  intros [sym data] Hin.
  unfold no_symbol_keyword in H. rewrite forallb_forall in H.
  specialize (H _ Hin). simpl in H. apply negb_true_iff in H.
  unfold Py.appended_by, candidate_step.
  now rewrite (matched_nil _ _ H).
Qed.

Lemma quadrant_scores_no_keyword (seg : string) :
  no_quadrant_keyword seg = true ->
  quadrant_scores (Str.lower seg) = zero_scores.
Proof.
  intros H. unfold no_quadrant_keyword in H. rewrite forallb_forall in H.
  unfold quadrant_scores.
  rewrite (map_ext_in _ (fun qi : Quadrant * Indicators =>
                           (fst qi, mkQuadScore 0 []))).
  - reflexivity.
  - intros [q ind] Hin. specialize (H _ Hin). simpl in H.
    apply negb_true_iff in H. now rewrite (matched_nil _ _ H).
Qed.

Lemma score_body_no_keyword (seg : string) :
  no_quadrant_keyword seg = true ->
  Py.appended_by score_body seg = [unmatched_segment seg].
Proof.
  intros H. unfold Py.appended_by, score_body, score_segment.
  now rewrite (quadrant_scores_no_keyword seg H).
Qed.

Lemma score_segments_no_keyword (segments : list string) :
  Forall (fun seg => no_quadrant_keyword seg = true) segments ->
  score_segments segments = Py.Return (map unmatched_segment segments).
Proof.
  intros H. unfold score_segments.
  rewrite (foldM_append score_body (Py.appended_by score_body))
    by (intros; apply score_body_appends).
  cbn [app]. f_equal.
  induction H as [|seg l Hseg _ IH]; [reflexivity |].
  cbn [flat_map map].
  now rewrite (score_body_no_keyword seg Hseg), IH.
Qed.

Lemma occurrences_unmatched (q : Quadrant) (segments : list string) :
  occurrences q (map unmatched_segment segments) =
    if Quadrant_eqb SW q then Py.len segments else 0.
Proof.
  induction segments as [|seg l IH].
  - now destruct q.
  - change (map unmatched_segment (seg :: l))
      with (unmatched_segment seg :: map unmatched_segment l).
    rewrite occurrences_cons, IH. simpl seg_quadrant.
    unfold Py.len. simpl length.
    destruct (Quadrant_eqb SW q); lia.
Qed.

Lemma evidence_no_keyword (seg0 : string) (segs : list string) (n : Z) :
  n > 0 ->
  Py.foldM (evidence_step (map unmatched_segment (seg0 :: segs)))
           [(SW, n); (SE, 0); (NE, 0); (NW, 0)] []
  = Py.Return [mkEvidence "SW" "Tonal match"].
Proof.
  intros Hn.
  assert (E : (n >? 0) = true) by (apply Z.gtb_lt; lia).
  cbn [Py.foldM evidence_step]. rewrite E.
  cbn [map filter unmatched_segment seg_quadrant Quadrant_eqb].
  reflexivity.
Qed.

Lemma sorted_counts_unmatched (n : Z) :
  n > 0 ->
  Py.sorted_desc snd [(SW, n); (SE, 0); (NE, 0); (NW, 0)]
  = [(SW, n); (SE, 0); (NE, 0); (NW, 0)].
Proof.
  intros Hn.
  assert (E : (n <? 0) = false) by (apply Z.ltb_ge; lia).
  repeat (cbn [Py.sorted_desc Py.insert_desc snd];
          change (0 <? 0) with false; cbv iota).
  cbn [Py.sorted_desc Py.insert_desc snd]. now rewrite E.
Qed.

(** Without any quadrant keyword the mapper reports the first quadrant
    alone, with one "Tonal match" evidence entry. *)
Lemma quad_map_no_keyword (text : string) :
  Forall (fun seg => no_quadrant_keyword seg = true) (segments_of text) ->
  exists m,
    quad_map text = Py.Return m /\
    segment_scores m = map unmatched_segment (segments_of text) /\
    primary_quadrant m = SW /\
    secondary_quadrant m = None /\
    evidence m = [mkEvidence "SW" "Tonal match"].
Proof.
  intros H. unfold quad_map.
  rewrite (score_segments_no_keyword _ H). cbn [Py.bind].
  rewrite count_quadrants_returns, !occurrences_unmatched. cbn [Py.bind].
  pose proof (segments_of_nonempty text) as Hne.
  destruct (segments_of text) as [|seg0 segs]; [congruence |].
  set (n := Py.len (seg0 :: segs)).
  assert (Hn : n > 0) by (unfold n, Py.len; simpl length; lia).
  cbn [Quadrant_eqb].
  rewrite (sorted_counts_unmatched n Hn).
  rewrite (evidence_no_keyword seg0 segs n Hn).
  eexists. split; [reflexivity |]. repeat split.
Qed.

(** ** TELOS-RUN *)

(** Once the reference is classified the pipeline cannot raise; its
    report is assembled from the stages. *)
Lemma telos_run_returns (reference text : string) (sp : Spiral) :
  assign_spiral reference = Py.Return sp ->
  exists quadrants seeds traces u,
    quad_map text = Py.Return quadrants /\
    pattern_seed text = Py.Return seeds /\
    trace_seeds sp seeds = Py.Return traces /\
    urim_thummim seeds traces (gravity_sync text seeds) = Py.Return u /\
    telos_run reference text =
      Py.Return
        (mkTelosRun reference sp quadrants seeds traces
           (gravity_sync text seeds) (comp_435 text) u
           (fractal_filter seeds traces)
           (generate_summary sp quadrants seeds (gravity_sync text seeds))).
Proof.
  intros Hsp.
  destruct (quad_map_returns text) as (quadrants & Hq & _).
  pose proof (pattern_seed_returns text) as Hs.
  set (seeds := select_seeds _) in Hs.
  destruct (trace_seeds_returns sp seeds) as (traces & Ht & _).
  destruct (urim_thummim_returns seeds traces (gravity_sync text seeds))
    as (u & Hu).
  exists quadrants, seeds, traces, u.
  repeat (split; [assumption |]).
  unfold telos_run. rewrite Hsp. cbn [Py.bind].
  rewrite Hq. cbn [Py.bind]. rewrite Hs. cbn [Py.bind].
  rewrite Ht. cbn [Py.bind]. rewrite Hu. reflexivity.
Qed.

(** A run that returns went through every stage. *)
Lemma telos_run_inv (reference text : string) (r : TelosRun) :
  telos_run reference text = Py.Return r ->
  exists sp quadrants seeds traces u,
    assign_spiral reference = Py.Return sp /\
    quad_map text = Py.Return quadrants /\
    pattern_seed text = Py.Return seeds /\
    trace_seeds sp seeds = Py.Return traces /\
    urim_thummim seeds traces (gravity_sync text seeds) = Py.Return u /\
    r = mkTelosRun reference sp quadrants seeds traces
          (gravity_sync text seeds) (comp_435 text) u
          (fractal_filter seeds traces)
          (generate_summary sp quadrants seeds (gravity_sync text seeds)).
Proof.
  destruct (assign_spiral reference) as [sp | e] eqn:Hsp.
  - destruct (telos_run_returns reference text sp Hsp)
      as (quadrants & seeds & traces & u & Hq & Hs & Ht & Hu & H).
    rewrite H. intros [= <-].
    exists sp, quadrants, seeds, traces, u. repeat split; assumption.
  - unfold telos_run. rewrite Hsp. discriminate.
Qed.

(** The pipeline fails exactly where the classifier does: on the Genesis
    references whose chapter is too long for [int()], with ValueError. *)
Lemma telos_run_raises (reference text : string) (e : Py.exn) :
  telos_run reference text = Py.Raise e <->
  e = Py.ValueError /\ long_genesis_chapter reference.
Proof.
  rewrite <- assign_spiral_raises.
  destruct (assign_spiral reference) as [sp | e'] eqn:Hsp.
  - destruct (telos_run_returns reference text sp Hsp)
      as (quadrants & seeds & traces & u & _ & _ & _ & _ & H).
    rewrite H. split; discriminate.
  - unfold telos_run. rewrite Hsp. cbn [Py.bind]. split; congruence.
Qed.

Lemma telos_run_returns_unless_long (reference text : string) :
  ~ long_genesis_chapter reference ->
  exists r, telos_run reference text = Py.Return r.
Proof.
  intros N. destruct (telos_run reference text) as [r | e] eqn:E; [eauto |].
  exfalso. apply N. now apply (telos_run_raises reference text e).
Qed.

(** C7: a run returns unless the reference names Genesis with a chapter
    too long for [int()]; in every run that returns each echo trace has
    seven spiral roles, and the classification is "Fractal" exactly when
    a seed was detected: with a seed, echo density, cross-spiral reach
    and the bidirectional check all hold; without seeds all five criteria
    fail. *)
Theorem telos_run_fractal_iff_seed (reference text : string) :
  (~ long_genesis_chapter reference ->
   exists r, telos_run reference text = Py.Return r) /\
  forall r,
    telos_run reference text = Py.Return r ->
    Forall (fun t => length (spiral_roles t) = 7%nat) (echo_traces r) /\
    (classification (fractal_filter_result r) = "Fractal"
     <-> pattern_seeds r <> []) /\
    (pattern_seeds r <> [] ->
     exists load controls,
       checklist_results (fractal_filter_result r) =
         [("echo_density", true); ("cross_spiral_reach", true);
          ("theological_load", load); ("controls", controls);
          ("bidirectional", true)]) /\
    (pattern_seeds r = [] ->
     checklist_results (fractal_filter_result r) =
       [("echo_density", false); ("cross_spiral_reach", false);
        ("theological_load", false); ("controls", false);
        ("bidirectional", false)]).
Proof.
  split; [apply telos_run_returns_unless_long |].
  intros r Hr.
  destruct (telos_run_inv reference text r Hr)
    as (sp & quadrants & seeds & traces & u & _ & _ & _ & Ht & _ & ->).
  destruct (trace_seeds_returns sp seeds) as (traces' & Ht' & Hlen & H7).
  assert (traces' = traces) by congruence. subst traces'.
  cbn [echo_traces fractal_filter_result pattern_seeds].
  split; [exact H7 |].
  destruct seeds as [|seed seeds'].
  - destruct traces; [| discriminate Hlen].
    split; [split; [discriminate | congruence] |].
    split; [congruence | reflexivity].
  - assert (Hne : traces <> []) by (destruct traces; [discriminate Hlen | discriminate]).
    split.
    { split; [discriminate | intros _].
      apply fractal_filter_with_seeds; [discriminate | assumption | assumption]. }
    split; [| discriminate].
    intros _.
    pose proof (fractal_filter_with_seeds (seed :: seeds') traces) as Hc.
    unfold fractal_filter in *.
    assert (Hlt : (Py.len traces >? 0) = true).
    { destruct traces; [congruence |]. reflexivity. }
    assert (Hall : forallb (fun t => Py.len (spiral_roles t) >=? 3) traces = true).
    { apply forallb_forall. intros t Hin.
      rewrite Forall_forall in H7. unfold Py.len. rewrite (H7 t Hin). reflexivity. }
    assert (Hany : existsb (fun t => Py.len (spiral_roles t) >=? 5) traces = true).
    { destruct traces as [|t traces']; [congruence |].
      inversion H7 as [|? ? H7t _]; subst. simpl.
      unfold Py.len at 1. rewrite H7t. reflexivity. }
    rewrite Hlt, Hall, Hany.
    assert (Hls : (Py.len (seed :: seeds') >? 0) = true) by reflexivity.
    rewrite Hls.
    destruct (existsb _ (seed :: seeds')), (Py.len (seed :: seeds') >=? 2);
      simpl; eauto.
Qed.

Lemma quad_map_empty :
  quad_map "" =
    Py.Return (mkQuadrantMapping SW None "Static SW"
                 [mkEvidence "SW" "Tonal match"]
                 [mkSegmentScore "" SW zero_scores]).
Proof. vm_compute. reflexivity. Qed.

Lemma pattern_seed_empty : pattern_seed "" = Py.Return [].
Proof. vm_compute. reflexivity. Qed.

(** C8: on the empty text the mapper reports one segment with all four
    scores zero, primary quadrant SW and no secondary quadrant; the
    detector returns no seeds; with no seeds the centrality score is 0
    and the classification is "Likely Feedback".  A run on the empty
    text returns unless the reference names Genesis with a chapter too
    long for [int()], and every run that returns carries these results. *)
Theorem telos_run_empty_text (reference : string) :
  (exists q s,
      quad_map "" = Py.Return q /\
      segment_scores q = [s] /\
      map fst (scores s) = [SW; SE; NE; NW] /\
      Forall (fun e => qs_score (snd e) = 0) (scores s) /\
      primary_quadrant q = SW /\
      secondary_quadrant q = None) /\
  pattern_seed "" = Py.Return [] /\
  gs_score (gravity_sync "" []) = 0 /\
  classification (fractal_filter [] []) = "Likely Feedback" /\
  (~ long_genesis_chapter reference ->
   exists r, telos_run reference "" = Py.Return r) /\
  forall r,
    telos_run reference "" = Py.Return r ->
    exists s,
      segment_scores (quadrants r) = [s] /\
      map fst (scores s) = [SW; SE; NE; NW] /\
      Forall (fun e => qs_score (snd e) = 0) (scores s) /\
      primary_quadrant (quadrants r) = SW /\
      secondary_quadrant (quadrants r) = None /\
      pattern_seeds r = [] /\
      gs_score (gravity_sync_result r) = 0 /\
      classification (fractal_filter_result r) = "Likely Feedback".
Proof.
  split.
  { eexists. exists (mkSegmentScore "" SW zero_scores).
    split; [apply quad_map_empty |].
    cbn [segment_scores primary_quadrant secondary_quadrant].
    split; [reflexivity |]. split; [reflexivity |].
    split; [repeat constructor |]. split; reflexivity. }
  split; [apply pattern_seed_empty |].
  split; [reflexivity |]. split; [reflexivity |].
  split; [apply telos_run_returns_unless_long |].
  intros r Hr.
  destruct (telos_run_inv reference "" r Hr)
    as (sp & quadrants & seeds & traces & u & _ & Hq & Hs & Ht & _ & ->).
  rewrite quad_map_empty in Hq. injection Hq as <-.
  rewrite pattern_seed_empty in Hs. injection Hs as <-.
  cbv [trace_seeds firstn Py.foldM] in Ht. injection Ht as <-.
  exists (mkSegmentScore "" SW zero_scores).
  cbv [quadrants segment_scores primary_quadrant secondary_quadrant
       pattern_seeds gravity_sync_result fractal_filter_result].
  split; [reflexivity |]. split; [reflexivity |].
  split; [repeat constructor |].
  repeat split.
Qed.

Lemma gravity_sync_no_hit (text : string) (seeds : list PatternSeed) :
  tier1_hit text = false ->
  tier_hit strong_types seeds = false ->
  tier_hit light_hints seeds = false ->
  gravity_sync text seeds = mkGravitySync 0 "No clear Christ-pattern detected" [].
Proof.
  intros H1 H2 H3. unfold gravity_sync.
  rewrite (matched_nil _ _ H1).
  rewrite (proj2 (seed_hits_nil _ _) H2), (proj2 (seed_hits_nil _ _) H3).
  reflexivity.
Qed.

(** C10 (as the code has it): the pipeline raises, with ValueError, on
    the references that name Genesis with a chapter too long for [int()],
    and on every other reference and every text it returns a report; a
    reference naming no known book gets the default spiral 6; the mapper
    always reports evidence, which is the single "Tonal match" entry for
    SW when no segment has a quadrant keyword; a text without lexicon
    keywords gives zero seeds; without seeds there are no traces, urim is
    false and the classification is "Likely Feedback"; and without a
    direct keyword or a typological seed the centrality score is 0 with
    no matched patterns. *)
Theorem telos_run_total (ref text : string) :
  (long_genesis_chapter ref -> telos_run ref text = Py.Raise Py.ValueError) /\
  (~ long_genesis_chapter ref ->
   exists r,
     telos_run ref text = Py.Return r /\
     reference r = ref /\
     (Str.any_in all_books (Str.lower ref) = false ->
      spiral r = S6_CHRIST) /\
     segment_scores (quadrants r) <> [] /\
     evidence (quadrants r) <> [] /\
     (Forall (fun seg => no_quadrant_keyword seg = true) (segments_of text) ->
      primary_quadrant (quadrants r) = SW /\
      secondary_quadrant (quadrants r) = None /\
      evidence (quadrants r) = [mkEvidence "SW" "Tonal match"]) /\
     (no_symbol_keyword text = true -> pattern_seeds r = []) /\
     (pattern_seeds r = [] ->
      echo_traces r = [] /\
      urim (urim_thummim_result r) = false /\
      classification (fractal_filter_result r) = "Likely Feedback") /\
     (tier1_hit text = false ->
      tier_hit strong_types (pattern_seeds r) = false ->
      tier_hit light_hints (pattern_seeds r) = false ->
      gs_score (gravity_sync_result r) = 0 /\
      christ_patterns (gravity_sync_result r) = [])).
Proof.
  split.
  { intros L. now apply telos_run_raises. }
  intros N. destruct (assign_spiral_returns ref N) as [sp Hsp].
  destruct (telos_run_returns ref text sp Hsp)
    as (quadrants & seeds & traces & u & Hq & Hs & Ht & Hu & ->).
  eexists. split; [reflexivity |]. simpl.
  split; [reflexivity |].
  split.
  { intros Hb. rewrite (assign_spiral_default ref Hb) in Hsp. congruence. }
  destruct (quad_map_returns text) as (m & Hm & Hseg & Hev).
  assert (m = quadrants) by congruence. subst m.
  split; [exact Hseg |]. split; [exact Hev |].
  split.
  { intros Hno.
    destruct (quad_map_no_keyword text Hno) as (m & Hm' & _ & Hp & Hsec & He).
    assert (m = quadrants) by congruence. subst m. auto. }
  split.
  { intros Hno. rewrite (pattern_seed_no_keyword text Hno) in Hs. congruence. }
  split.
  { intros ->. simpl in Ht. injection Ht as <-.
    simpl in Hu. injection Hu as <-. simpl. auto. }
  intros H1 H2 H3. now rewrite (gravity_sync_no_hit text seeds H1 H2 H3).
Qed.

Lemma telos_run_total_witness :
  exists r,
    telos_run "Hezekiah 3:1" "Selah" = Py.Return r /\
    spiral r = S6_CHRIST /\
    evidence (quadrants r) = [mkEvidence "SW" "Tonal match"] /\
    pattern_seeds r = [] /\
    classification (fractal_filter_result r) = "Likely Feedback" /\
    gs_score (gravity_sync_result r) = 0.
Proof.
  destruct (proj2 (telos_run_total "Hezekiah 3:1" "Selah"))
    as (r & Hr & _ & Hsp & _ & _ & Hq & Hs & Hf & Hg).
  { intros [Hg _]. vm_compute in Hg. discriminate Hg. }
  exists r. split; [exact Hr |].
  split; [apply Hsp; reflexivity |].
  split; [apply Hq; repeat constructor |].
  assert (Hseeds : pattern_seeds r = []) by (apply Hs; reflexivity).
  split; [exact Hseeds |].
  split; [apply (Hf Hseeds) |].
  apply Hg; [reflexivity | rewrite Hseeds; reflexivity ..].
Defined.

(** C10, as stated, fails twice.  On a Genesis reference whose chapter
    has 4301 digits the pipeline raises ValueError.  And the no-match
    case of the mapper does not give an empty evidence list: on the empty
    reference and text no segment has a quadrant keyword, and the report
    carries the "Tonal match" entry. *)
Lemma telos_run_raises_and_evidence_not_empty :
  telos_run long_chapter_reference "" = Py.Raise Py.ValueError /\
  (exists r, telos_run "" "" = Py.Return r /\
             Forall (fun seg => no_quadrant_keyword seg = true) (segments_of "") /\
             evidence (quadrants r) = [mkEvidence "SW" "Tonal match"]) /\
  ~ (exists r, telos_run "" "" = Py.Return r /\ evidence (quadrants r) = []).
Proof.
  split; [vm_compute; reflexivity |].
  split.
  - eexists. split; [vm_compute; reflexivity |].
    split; [repeat constructor | reflexivity].
  - intros (r & Hr & He). vm_compute in Hr.
    injection Hr as <-. discriminate He.
Qed.

Lemma telos_run_fractal_iff_seed_witness :
  exists r,
    telos_run "John 1:29" "Behold the Lamb of God" = Py.Return r /\
    pattern_seeds r <> [] /\
    classification (fractal_filter_result r) = "Fractal".
Proof.
  destruct (telos_run "John 1:29" "Behold the Lamb of God") as [r | e] eqn:Hr;
    [| exfalso; vm_compute in Hr; discriminate Hr].
  destruct (proj2 (telos_run_fractal_iff_seed "John 1:29" "Behold the Lamb of God")
              r Hr) as (_ & Hiff & _).
  assert (Hs : pattern_seeds r <> []).
  { pose proof Hr as Hc. vm_compute in Hc. injection Hc as <-. discriminate. }
  exists r. split; [reflexivity |]. split; [exact Hs |].
  apply Hiff. exact Hs.
Defined.

(** ** Further runs *)

(** A direct keyword wins over any number of strong-type seeds. *)
Example gravity_sync_tier1_over_tier2 :
  let text := "The blood of the lamb on the altar; he was crucified" in
  option_map (fun seeds => (map symbol seeds, gs_score (gravity_sync text seeds)))
    (match pattern_seed text with
     | Py.Return seeds => Some seeds
     | Py.Raise _ => None
     end)
  = Some (["BLOOD"; "LAMB"; "ALTAR"], 3).
Proof. vm_compute. reflexivity. Qed.

Example gravity_sync_tier2 :
  let text := "The blood of the lamb on the altar" in
  option_map (fun seeds => (map symbol seeds, gs_score (gravity_sync text seeds)))
    (match pattern_seed text with
     | Py.Return seeds => Some seeds
     | Py.Raise _ => None
     end)
  = Some (["BLOOD"; "ALTAR"; "LAMB"], 2).
Proof. vm_compute. reflexivity. Qed.

Example fractal_filter_reasoning_empty :
  reasoning (fractal_filter [] []) =
    "Only 0/5 criteria satisfied; likely over-interpretation".
Proof. vm_compute. reflexivity. Qed.

Example comp_435_all_three :
  let c := comp_435 "The earth was without form. And God said, Behold. And it was filled." in
  (has_pattern c, confidence c) = (true, "Medium").
Proof. vm_compute. reflexivity. Qed.

(* ====================================================================== *)
(** * Further properties of the engine *)
(* ====================================================================== *)

(** ** Maxima and stable sorting *)

Lemma max_from_first_maximal {A : Type} (key : A -> Z) (l1 : list A) (best : A)
    (l2 l : list A) :
  Forall (fun y => key y < key best) l1 ->
  Forall (fun y => key y <= key best) l2 ->
  first_maximal key (l1 ++ best :: l2 ++ l) (Py.max_from key best l).
Proof.
  revert l1 best l2. induction l as [|x l IH]; intros l1 best l2 H1 H2.
  - cbn [Py.max_from]. rewrite app_nil_r. exists l1, l2. auto.
  - cbn [Py.max_from]. destruct (key best <? key x) eqn:E.
    + apply Z.ltb_lt in E.
      replace (l1 ++ best :: l2 ++ x :: l)%list
        with ((l1 ++ best :: l2) ++ x :: [] ++ l)%list
        by (now rewrite <- app_assoc).
      apply IH; [| constructor].
      apply Forall_app. split.
      * eapply Forall_impl; [| exact H1]. cbn. intros; lia.
      * constructor; [exact E |].
        eapply Forall_impl; [| exact H2]. cbn. intros; lia.
    + apply Z.ltb_ge in E.
      replace (l1 ++ best :: l2 ++ x :: l)%list
        with (l1 ++ best :: (l2 ++ [x]) ++ l)%list
        by (now rewrite <- app_assoc).
      apply IH; [exact H1 |].
      apply Forall_app. split; [exact H2 | constructor; [exact E | constructor]].
Qed.

Lemma max_by_first_maximal {A : Type} (key : A -> Z) (l : list A) (r : A) :
  Py.max_by key l = Py.Return r -> first_maximal key l r.
Proof.
  destruct l as [|x l]; [discriminate |].
  cbn [Py.max_by]. intros [= <-].
  apply (max_from_first_maximal key [] x [] l); constructor.
Qed.

Lemma insert_desc_head {A : Type} (key : A -> Z) (x : A) (l : list A) :
  exists rest,
    Py.insert_desc key x l =
      match l with
      | [] => x :: rest
      | y :: _ => (if key x <? key y then y else x) :: rest
      end.
Proof.
  destruct l as [|y l]; cbn [Py.insert_desc]; [eauto |].
  destruct (key x <? key y); eauto.
Qed.

(** The head of a stable descending sort is the first maximal element of
    the input. *)
Lemma sorted_desc_head {A : Type} (key : A -> Z) (l : list A) (r : A)
    (rest : list A) :
  Py.sorted_desc key l = r :: rest -> first_maximal key l r.
Proof.
  revert r rest. induction l as [|x l IH]; intros r rest; [discriminate |].
  cbn [Py.sorted_desc].
  destruct (Py.sorted_desc key l) as [|y sl] eqn:Es.
  - cbn [Py.insert_desc]. intros [= <- <-].
    assert (l = []).
    { pose proof (sorted_desc_length key l) as Hl. rewrite Es in Hl.
      destruct l; [reflexivity | discriminate]. }
    subst l. exists [], []. repeat split; constructor.
  - cbn [Py.insert_desc]. destruct (key x <? key y) eqn:E.
    + intros [= <- <-]. apply Z.ltb_lt in E.
      destruct (IH y sl eq_refl) as (l1 & l2 & -> & H1 & H2).
      exists (x :: l1), l2. repeat split; auto.
    + intros [= <- <-]. apply Z.ltb_ge in E.
      destruct (IH y sl eq_refl) as (l1 & l2 & -> & H1 & H2).
      exists [], (l1 ++ y :: l2)%list. repeat split; [constructor |].
      apply Forall_app. split.
      * eapply Forall_impl; [| exact H1]. cbn. intros; lia.
      * constructor; [lia |].
        eapply Forall_impl; [| exact H2]. cbn. intros; lia.
Qed.

(** ** QUAD-MAP: the shape of a mapping *)

Lemma score_body_scored (seg : string) :
  exists s, Py.appended_by score_body seg = [s] /\ segment_scored seg s.
Proof.
  unfold Py.appended_by, score_body, score_segment.
  destruct (Py.max_by (fun x : Quadrant * QuadScore => qs_score (snd x))
              (quadrant_scores (Str.lower seg))) as [best|e] eqn:E.
  - cbn [Py.bind app]. eexists. split; [reflexivity |].
    unfold segment_scored. cbn [segment scores seg_quadrant].
    repeat split. exists (snd best).
    rewrite <- surjective_pairing. now apply max_by_first_maximal.
  - exfalso. unfold quadrant_scores, QUADRANT_INDICATORS in E.
    cbn [map Py.max_by] in E. discriminate E.
Qed.

Lemma score_segments_scored (segments : list string) :
  exists ss,
    score_segments segments = Py.Return ss /\
    Forall2 segment_scored segments ss.
Proof.
  exists (flat_map (Py.appended_by score_body) segments). split.
  - unfold score_segments.
    apply (foldM_append score_body (Py.appended_by score_body)).
    intros; apply score_body_appends.
  - induction segments as [|seg l IH]; [constructor |].
    cbn [flat_map].
    destruct (score_body_scored seg) as (s & -> & Hs).
    cbn [app]. now constructor.
Qed.

Lemma segment_scored_well_keyed (seg : string) (s : SegmentScore) :
  segment_scored seg s -> well_keyed s.
Proof.
  intros (_ & Hsc & _). unfold well_keyed. rewrite Hsc. reflexivity.
Qed.

(** A run of the mapper, stage by stage. *)
Lemma quad_map_shape (text : string) :
  exists ss first second rest evid,
    Forall2 segment_scored (segments_of text) ss /\
    Py.sorted_desc snd (quad_counts ss) = first :: second :: rest /\
    evid = flat_map (Py.appended_by (evidence_step ss))
                    (Py.sorted_desc snd (quad_counts ss)) /\
    quad_map text =
      Py.Return
        (mkQuadrantMapping (fst first)
           (if snd second >? 0 then Some (fst second) else None)
           (_compress_movement (map seg_quadrant ss)) evid ss).
Proof.
  destruct (score_segments_scored (segments_of text)) as (ss & Hss & Hf).
  assert (Hk : Forall well_keyed ss).
  { clear Hss. induction Hf; constructor; eauto using segment_scored_well_keyed. }
  pose proof (sorted_desc_length snd (quad_counts ss)) as Hlen.
  destruct (Py.sorted_desc snd (quad_counts ss))
    as [|first [|second rest]] eqn:Es; try discriminate Hlen.
  exists ss, first, second, rest. eexists.
  split; [exact Hf |]. split; [exact Es |]. split; [reflexivity |].
  unfold quad_map. rewrite Hss. cbn [Py.bind].
  rewrite count_quadrants_returns. cbn [Py.bind].
  fold (quad_counts ss). rewrite Es.
  unfold Py.getitem. cbn [nth_error Py.bind].
  rewrite (foldM_append (evidence_step ss) (Py.appended_by (evidence_step ss)))
    by (intros; now apply evidence_step_appends).
  reflexivity.
Qed.

Lemma quadrant_scores_range (seg_lower : string) :
  Forall (fun e : Quadrant * QuadScore =>
            0 <= qs_score (snd e) <= 3 /\
            qs_score (snd e) = Z.min (Py.len (qs_keywords (snd e))) 3)
         (quadrant_scores seg_lower).
Proof.
  unfold quadrant_scores. apply Forall_forall. intros e He.
  apply in_map_iff in He as ([q ind] & <- & _).
  cbn [snd qs_score qs_keywords]. unfold Py.len. lia.
Qed.

(** X1: in every mapping there is one score record per segment, each
    with the four quadrants SW, SE, NE, NW as keys, and every score is the
    number of matched keywords capped at 3, so between 0 and 3. *)
Theorem quad_map_scores_capped (text : string) :
  exists m,
    quad_map text = Py.Return m /\
    length (segment_scores m) = length (segments_of text) /\
    Forall (fun s =>
              map fst (scores s) = [SW; SE; NE; NW] /\
              Forall (fun e : Quadrant * QuadScore =>
                        0 <= qs_score (snd e) <= 3 /\
                        qs_score (snd e) = Z.min (Py.len (qs_keywords (snd e))) 3)
                     (scores s))
           (segment_scores m).
Proof.
  destruct (quad_map_shape text) as (ss & first & second & rest & evid & Hf & _ & _ & ->).
  eexists. split; [reflexivity |]. cbn [segment_scores].
  split; [symmetry; eapply Forall2_length; eassumption |].
  induction Hf as [|seg s segs ss' Hs _ IH]; constructor; [| exact IH].
  destruct Hs as (_ & Hsc & _). rewrite Hsc.
  split; [reflexivity | apply quadrant_scores_range].
Qed.

(** X2: every segment is assigned the quadrant with the highest score
    for it, and on a tie the first such quadrant in the order SW, SE, NE,
    NW. *)
Theorem quad_map_segment_quadrant (text : string) :
  exists m,
    quad_map text = Py.Return m /\
    Forall (fun s =>
              exists sc,
                first_maximal (fun x : Quadrant * QuadScore => qs_score (snd x))
                              (scores s) (seg_quadrant s, sc))
           (segment_scores m).
Proof.
  destruct (quad_map_shape text) as (ss & first & second & rest & evid & Hf & _ & _ & ->).
  eexists. split; [reflexivity |]. cbn [segment_scores].
  induction Hf as [|seg s segs ss' Hs _ IH]; constructor; [| exact IH].
  now destruct Hs as (_ & _ & Hq).
Qed.

Lemma insert_desc_NoDup {A : Type} (key : A -> Z) (x : A) (l : list A) :
  ~ In x l -> NoDup l -> NoDup (Py.insert_desc key x l).
Proof.
  induction l as [|y l IH]; cbn [Py.insert_desc]; intros Hx Hl.
  - constructor; [exact Hx | constructor].
  - destruct (key x <? key y); [| now constructor].
    inversion Hl as [|? ? Hy Hl']; subst.
    constructor.
    + rewrite insert_desc_In. intros [-> | Hin]; [apply Hx; now left | now apply Hy].
    + apply IH; [| exact Hl']. intros Hin. apply Hx. now right.
Qed.

Lemma sorted_desc_NoDup {A : Type} (key : A -> Z) (l : list A) :
  NoDup l -> NoDup (Py.sorted_desc key l).
Proof.
  induction l as [|x l IH]; cbn [Py.sorted_desc]; intros Hl; [constructor |].
  inversion Hl as [|? ? Hx Hl']; subst.
  apply insert_desc_NoDup; [| now apply IH].
  now rewrite sorted_desc_In.
Qed.

Lemma occurrences_nonneg (q : Quadrant) (ss : list SegmentScore) :
  0 <= occurrences q ss.
Proof. unfold occurrences, Py.len. lia. Qed.

Lemma quad_counts_In (ss : list SegmentScore) (qc : Quadrant * Z) :
  In qc (quad_counts ss) <-> qc = (fst qc, occurrences (fst qc) ss).
Proof.
  unfold quad_counts. cbn [In]. split.
  - intros [<- | [<- | [<- | [<- | []]]]]; reflexivity.
  - destruct qc as [[] n]; cbn [fst]; intros [= ->]; auto.
Qed.

Lemma quad_counts_NoDup (ss : list SegmentScore) : NoDup (quad_counts ss).
Proof.
  unfold quad_counts.
  repeat constructor; cbn [In]; intros H;
    repeat (destruct H as [H | H]; [discriminate H |]); exact H.
Qed.

(** The head of the sorted counts is the most frequent quadrant, the
    earliest one on a tie. *)
Lemma quad_counts_first_maximal (ss : list SegmentScore) (first : Quadrant * Z) :
  first_maximal snd (quad_counts ss) first ->
  first = (fst first, occurrences (fst first) ss) /\
  (forall q, occurrences q ss <= occurrences (fst first) ss) /\
  (forall q, (Quadrant_index q < Quadrant_index (fst first))%nat ->
             occurrences q ss < occurrences (fst first) ss).
Proof.
  intros (l1 & l2 & E & H1 & H2). unfold quad_counts in E.
  destruct l1 as [|a [|b [|c [|d [|? ?]]]]]; cbn [app] in E;
    injection E as <-; intros; subst;
    repeat match goal with
           | H : Forall _ (_ :: _) |- _ => inversion H; clear H; subst
           | H : _ :: _ = _ :: _ |- _ => injection H as <-; intros; subst
           | H : _ :: _ = [] |- _ => discriminate H
           | H : [] = _ :: _ |- _ => discriminate H
           | H : (_ ++ _ :: _)%list = [] |- _ =>
               apply app_eq_nil in H; destruct H; discriminate
           end;
    cbn [fst snd] in *;
    (split; [reflexivity |]);
    (split; intros q; destruct q; cbn [Quadrant_index]; intros; lia).
Qed.

(** X3: the primary quadrant is the one with the most segments, the
    earliest in the order SW, SE, NE, NW on a tie, and it has at least one
    segment.  The secondary quadrant, when there is one, is a different
    quadrant with at least one segment and at least as many as any other
    non-primary quadrant; there is none exactly when every segment is in
    the primary quadrant. *)
Theorem quad_map_primary_secondary (text : string) :
  exists m,
    quad_map text = Py.Return m /\
    (forall q, occurrences q (segment_scores m)
               <= occurrences (primary_quadrant m) (segment_scores m)) /\
    (forall q, (Quadrant_index q < Quadrant_index (primary_quadrant m))%nat ->
               occurrences q (segment_scores m)
               < occurrences (primary_quadrant m) (segment_scores m)) /\
    occurrences (primary_quadrant m) (segment_scores m) > 0 /\
    match secondary_quadrant m with
    | Some q2 =>
        q2 <> primary_quadrant m /\
        occurrences q2 (segment_scores m) > 0 /\
        forall q, q <> primary_quadrant m ->
                  occurrences q (segment_scores m)
                  <= occurrences q2 (segment_scores m)
    | None =>
        forall q, q <> primary_quadrant m ->
                  occurrences q (segment_scores m) = 0
    end.
Proof.
  destruct (quad_map_shape text)
    as (ss & first & second & rest & evid & Hf & Es & _ & ->).
  eexists. split; [reflexivity |].
  cbn [segment_scores primary_quadrant secondary_quadrant].
  destruct (quad_counts_first_maximal ss first (sorted_desc_head _ _ _ _ Es))
    as (Hfirst & Hmax & Htie).
  split; [exact Hmax |]. split; [exact Htie |].
  split.
  { pose proof (segments_of_nonempty text) as Hne.
    destruct Hf as [|seg s segs ss' _ _]; [congruence |].
    pose proof (occurrences_pos s (s :: ss') (or_introl eq_refl)) as Hp.
    specialize (Hmax (seg_quadrant s)). lia. }
  pose proof (sorted_desc_descending snd (quad_counts ss)) as Hd.
  pose proof (sorted_desc_NoDup snd _ (quad_counts_NoDup ss)) as Hnd.
  rewrite Es in Hd, Hnd.
  assert (Hsecond : second = (fst second, occurrences (fst second) ss)).
  { apply quad_counts_In. apply (sorted_desc_In snd). rewrite Es. right; now left. }
  assert (Hneq : fst second <> fst first).
  { intros E. inversion Hnd as [|? ? Hnot _]; subst. apply Hnot. left.
    rewrite Hfirst, Hsecond, E. reflexivity. }
  assert (Hle : forall q, q <> fst first -> occurrences q ss <= snd second).
  { intros q Hq.
    assert (Hin : In (q, occurrences q ss) (first :: second :: rest)).
    { rewrite <- Es. apply sorted_desc_In. now apply quad_counts_In. }
    destruct Hin as [E | [E | Hin]].
    - rewrite E in Hq. now cbn [fst] in Hq.
    - rewrite E. cbn [snd]. lia.
    - unfold descending in Hd.
      inversion Hd as [|? ? Hd' _]; subst.
      inversion Hd' as [|? ? _ Hall]; subst.
      rewrite Forall_forall in Hall. apply (Hall _ Hin). }
  assert (Es2 : snd second = occurrences (fst second) ss)
    by (rewrite Hsecond at 1; reflexivity).
  destruct (snd second >? 0) eqn:E.
  - apply Z.gtb_lt in E.
    split; [exact Hneq |]. split; [lia |].
    intros q Hq. rewrite <- Es2. now apply Hle.
  - intros q Hq.
    assert (snd second <= 0).
    { destruct (Z.gtb_spec (snd second) 0); [discriminate | lia]. }
    pose proof (Hle q Hq). pose proof (occurrences_nonneg q ss). lia.
Qed.

(** ** QUAD-MAP: the movement signature *)

Lemma Quadrant_eqb_eq (a b : Quadrant) : Quadrant_eqb a b = true <-> a = b.
Proof. destruct a, b; cbn; split; congruence. Qed.

Lemma compress_fold (rest pre : list Quadrant) (q : Quadrant) :
  exists ext,
    fold_left compress_step rest (pre ++ [q])%list = (pre ++ [q] ++ ext)%list /\
    (ext = [] <-> Forall (eq q) rest).
Proof.
  revert pre q. induction rest as [|x rest IH]; intros pre q.
  - exists []. cbn [fold_left]. split; [reflexivity |]. split; constructor.
  - cbn [fold_left]. unfold compress_step at 2. rewrite last_last.
    destruct (Quadrant_eqb x q) eqn:E.
    + apply Quadrant_eqb_eq in E. subst x.
      destruct (IH pre q) as (ext & -> & Hext).
      exists ext. split; [reflexivity |].
      rewrite Hext. split; [now constructor | now inversion 1].
    + destruct (IH (pre ++ [q])%list x) as (ext & -> & _).
      exists (x :: ext). split; [now rewrite <- !app_assoc |].
      split; [discriminate |].
      inversion 1; subst. rewrite (proj2 (Quadrant_eqb_eq x x) eq_refl) in E.
      discriminate E.
Qed.

Lemma compress_movement_static (sequence : list Quadrant) (q : Quadrant) :
  sequence <> [] ->
  (_compress_movement sequence = "Static " ++ Quadrant_value q
   <-> Forall (eq q) sequence) /\
  _compress_movement sequence <> "Unknown".
Proof.
  destruct sequence as [|q0 rest]; [congruence |]. intros _.
  unfold _compress_movement.
  destruct (compress_fold rest [] q0) as (ext & Hfold & Hext).
  cbn [app] in Hfold. rewrite Hfold.
  destruct ext as [|e ext].
  - split; [| destruct q0; discriminate].
    split.
    + intros H. assert (q0 = q) by (destruct q0, q; cbn in H; congruence).
      subst q0. constructor; [reflexivity | now apply Hext].
    + inversion 1; subst. reflexivity.
  - unfold Str.join. cbn [map String.concat].
    split; [| destruct q0; discriminate].
    split.
    + intros H. exfalso. destruct q0, q; cbn in H; discriminate H.
    + inversion 1; subst.
      assert (Hn : e :: ext = []) by now apply Hext.
      discriminate Hn.
Qed.

(** X4: the movement signature of a mapping is never "Unknown", and it is
    "Static q" exactly when every segment was assigned the quadrant q. *)
Theorem quad_map_movement_static (text : string) :
  exists m,
    quad_map text = Py.Return m /\
    movement m <> "Unknown" /\
    forall q,
      movement m = "Static " ++ Quadrant_value q
      <-> Forall (fun s => seg_quadrant s = q) (segment_scores m).
Proof.
  destruct (quad_map_shape text)
    as (ss & first & second & rest & evid & Hf & _ & _ & ->).
  eexists. split; [reflexivity |]. cbn [movement segment_scores].
  assert (Hne : map seg_quadrant ss <> []).
  { pose proof (segments_of_nonempty text) as Hn.
    destruct Hf; [congruence | discriminate]. }
  split; [apply (compress_movement_static _ SW Hne) |].
  intros q.
  rewrite (proj1 (compress_movement_static _ q Hne)).
  rewrite Forall_map. split; apply Forall_impl; intros; congruence.
Qed.

(** ** QUAD-MAP: the evidence list *)

Lemma insert_desc_map_NoDup {A B : Type} (f : A -> B) (key : A -> Z) (x : A)
    (l : list A) :
  ~ In (f x) (map f l) -> NoDup (map f l) ->
  NoDup (map f (Py.insert_desc key x l)).
Proof.
  induction l as [|y l IH]; cbn [Py.insert_desc map]; intros Hx Hl.
  - constructor; [exact Hx | constructor].
  - destruct (key x <? key y); cbn [map]; [| now constructor].
    inversion Hl as [|? ? Hy Hl']; subst.
    constructor.
    + rewrite in_map_iff. intros (z & Ez & Hz).
      apply insert_desc_In in Hz as [-> | Hz].
      * apply Hx. left. now symmetry.
      * apply Hy. apply in_map_iff. eauto.
    + apply IH; [| exact Hl']. intros Hin. apply Hx. now right.
Qed.

Lemma sorted_desc_map_NoDup {A B : Type} (f : A -> B) (key : A -> Z) (l : list A) :
  NoDup (map f l) -> NoDup (map f (Py.sorted_desc key l)).
Proof.
  induction l as [|x l IH]; cbn [Py.sorted_desc map]; intros Hl; [constructor |].
  inversion Hl as [|? ? Hx Hl']; subst.
  apply insert_desc_map_NoDup; [| now apply IH].
  rewrite in_map_iff. intros (z & Ez & Hz). apply sorted_desc_In in Hz.
  apply Hx. apply in_map_iff. eauto.
Qed.

(** Dropping elements keeps the projected keys pairwise distinct. *)
Lemma filter_map_NoDup {K V : Type} (proj : K -> V) (l : list K)
    (keep : K -> bool) (Hnd : NoDup (map proj l)) :
  NoDup (map proj (filter keep l)).
Proof.
  induction l as [|x l IH]; cbn [filter map] in *; [constructor |].
  inversion Hnd as [|? ? Hx Hl']; subst.
  destruct (keep x); cbn [map]; [| now apply IH].
  constructor; [| now apply IH].
  rewrite in_map_iff. intros (z & Ez & Hz). apply filter_In in Hz as [Hz _].
  apply Hx. apply in_map_iff. eauto.
Qed.

Lemma map_inj_NoDup {A B : Type} (f : A -> B) (l : list A) :
  (forall a b, f a = f b -> a = b) -> NoDup l -> NoDup (map f l).
Proof.
  intros Hinj. induction 1 as [|x l Hx _ IH]; cbn [map]; constructor; [| exact IH].
  rewrite in_map_iff. intros (y & E & Hy). apply Hinj in E. now subst.
Qed.

Lemma Quadrant_value_inj (a b : Quadrant) :
  Quadrant_value a = Quadrant_value b -> a = b.
Proof. destruct a, b; cbn; congruence. Qed.

Section EvidenceShape.

Variable ss : list SegmentScore.
Hypothesis keyed : Forall well_keyed ss.

(** One entry for a quadrant that has segments, none for one that has
    not. *)
Lemma evidence_step_entry (q : Quadrant) :
  exists r,
    Py.appended_by (evidence_step ss) (q, occurrences q ss) =
      if occurrences q ss >? 0 then [mkEvidence (Quadrant_value q) r] else [].
Proof.
  unfold Py.appended_by, evidence_step.
  destruct (occurrences q ss >? 0) eqn:E; [| now exists ""].
  apply Z.gtb_lt in E. unfold occurrences, Py.len in E.
  destruct (filter (fun s => Quadrant_eqb (seg_quadrant s) q) ss)
    as [|ex0 exs] eqn:F; [cbn in E; lia |].
  assert (Hin : In ex0 ss).
  { assert (H0 : In ex0 (ex0 :: exs)) by now left.
    rewrite <- F in H0. now apply filter_In in H0. }
  rewrite Forall_forall in keyed.
  destruct (quad_get_total (scores ex0) q (keyed ex0 Hin)) as [sc ->].
  cbn [Py.bind app]. eauto.
Qed.

Lemma evidence_quadrants (l : list (Quadrant * Z)) :
  Forall (fun qc => In qc (quad_counts ss)) l ->
  map ev_quadrant (flat_map (Py.appended_by (evidence_step ss)) l) =
    map (fun qc : Quadrant * Z => Quadrant_value (fst qc))
        (filter (fun qc : Quadrant * Z => snd qc >? 0) l).
Proof.
  induction 1 as [|qc l Hqc _ IH]; [reflexivity |].
  cbn [flat_map filter]. rewrite map_app, IH.
  apply quad_counts_In in Hqc. rewrite Hqc.
  destruct (evidence_step_entry (fst qc)) as [r ->].
  cbn [snd fst]. destruct (occurrences (fst qc) ss >? 0); reflexivity.
Qed.

End EvidenceShape.

(** X5: the evidence list has one entry for each quadrant that received a
    segment and none for the others, without repetition; its first entry
    is for the primary quadrant. *)
Theorem quad_map_evidence_quadrants (text : string) :
  exists m,
    quad_map text = Py.Return m /\
    (exists e rest,
        evidence m = e :: rest /\
        ev_quadrant e = Quadrant_value (primary_quadrant m)) /\
    (forall q,
        In (Quadrant_value q) (map ev_quadrant (evidence m))
        <-> occurrences q (segment_scores m) > 0) /\
    NoDup (map ev_quadrant (evidence m)).
Proof.
  destruct (quad_map_shape text)
    as (ss & first & second & rest & evid & Hf & Es & -> & ->).
  eexists. split; [reflexivity |].
  cbn [evidence primary_quadrant segment_scores].
  assert (Hk : Forall well_keyed ss).
  { clear Es. induction Hf; constructor; eauto using segment_scored_well_keyed. }
  assert (Hall : Forall (fun qc => In qc (quad_counts ss))
                        (Py.sorted_desc snd (quad_counts ss))).
  { apply Forall_forall. intros qc. apply sorted_desc_In. }
  pose proof (evidence_quadrants ss Hk _ Hall) as Hq.
  destruct (quad_counts_first_maximal ss first (sorted_desc_head _ _ _ _ Es))
    as (Hfirst & Hmax & _).
  assert (Hpos : occurrences (fst first) ss > 0).
  { pose proof (segments_of_nonempty text) as Hne.
    destruct Hf as [|seg s segs ss' _ _]; [congruence |].
    pose proof (occurrences_pos s (s :: ss') (or_introl eq_refl)) as Hp.
    specialize (Hmax (seg_quadrant s)). lia. }
  split; [| split].
  - rewrite Es in Hq. cbn [filter] in Hq.
    assert (E : (snd first >? 0) = true).
    { rewrite Hfirst. cbn [snd]. apply Z.gtb_lt. lia. }
    rewrite E in Hq. cbn [map] in Hq. rewrite <- Es in Hq.
    destruct (flat_map _ (Py.sorted_desc snd (quad_counts ss))) as [|e evs];
      [discriminate Hq |].
    exists e, evs. split; [reflexivity |].
    cbn [map] in Hq. now injection Hq.
  - intros q. rewrite Hq, in_map_iff. split.
    + intros (qc & Eq & Hin). apply Quadrant_value_inj in Eq.
      apply filter_In in Hin as [Hin Hc].
      apply sorted_desc_In, quad_counts_In in Hin.
      rewrite Hin in Hc. cbn [snd] in Hc. apply Z.gtb_lt in Hc.
      rewrite <- Eq. lia.
    + intros Hc. exists (q, occurrences q ss). split; [reflexivity |].
      apply filter_In. split.
      * apply sorted_desc_In. now apply quad_counts_In.
      * cbn [snd]. apply Z.gtb_lt. lia.
  - rewrite Hq.
    rewrite <- (map_map fst Quadrant_value).
    apply map_inj_NoDup; [exact Quadrant_value_inj |].
    apply filter_map_NoDup. apply sorted_desc_map_NoDup.
    unfold quad_counts. cbn [map].
    repeat constructor; cbn [In]; intros H;
      repeat (destruct H as [H | H]; [discriminate H |]); exact H.
Qed.

(** ** PATTERN-SEED: what a seed carries *)

Lemma lexicon_weights :
  Forall (fun entry : string * SymbolData => 1 <= weight (snd entry) <= 3)
         SYMBOL_LEXICON.
Proof.
  apply Forall_forall. intros entry Hin.
  assert (H : forallb (fun entry : string * SymbolData =>
                         (1 <=? weight (snd entry)) && (weight (snd entry) <=? 3))
                      SYMBOL_LEXICON = true) by (vm_compute; reflexivity).
  rewrite forallb_forall in H. specialize (H entry Hin).
  apply andb_prop in H as [H1 H2].
  apply Z.leb_le in H1. apply Z.leb_le in H2. lia.
Qed.

Lemma struct_score_range (pos len : Z) : 1 <= struct_score pos len <= 3.
Proof.
  unfold struct_score.
  destruct (Py.lt_frac pos len 2 10); [lia |].
  destruct (Py.lt_frac pos len 5 10); lia.
Qed.

(** The candidate the scoring loop builds for a lexicon entry. *)
Lemma appended_by_candidate (text sym : string) (data : SymbolData) (c : Candidate) :
  In c (Py.appended_by (candidate_step text (Str.lower text)) (sym, data)) ->
  c_symbol c = sym /\
  c_theological_weight c = weight data /\
  c_matches c = matched (keywords data) (Str.lower text) /\
  c_matches c <> [] /\
  c_frequency c = Z.min (Py.len (c_matches c)) 3 /\
  1 <= c_structural_position c <= 3 /\
  c_score c =
    c_frequency c + c_structural_position c + c_theological_weight c
    + (if c_frequency c =? 3 then 1 else 0).
Proof.
  unfold Py.appended_by, candidate_step.
  destruct (matched (keywords data) (Str.lower text)) as [|m0 rest] eqn:Em;
    [intros [] |].
  unfold score_candidate.
  destruct (Str.index (Str.lower text) m0) as [pos|e]; cbn [Py.bind app];
    [| intros []].
  intros [<- | []].
  cbn [c_symbol c_theological_weight c_matches c_frequency
       c_structural_position c_score].
  repeat split; try discriminate; try apply struct_score_range.
  set (n := Py.len (m0 :: rest)).
  destruct (Z.geb_spec n 3), (Z.eqb_spec (Z.min n 3) 3); lia.
Qed.

Lemma candidates_of_all (text : string) :
  candidates_of text = Py.Return (all_candidates text).
Proof. apply candidates_of_flat_map. Qed.

Lemma pattern_seed_selected (text : string) :
  pattern_seed text =
    Py.Return (select_seeds (Py.sorted_desc c_score (all_candidates text))).
Proof. apply pattern_seed_returns. Qed.

Lemma all_candidates_In (text : string) (c : Candidate) :
  In c (all_candidates text) <->
  exists sym data,
    In (sym, data) SYMBOL_LEXICON /\
    In c (Py.appended_by (candidate_step text (Str.lower text)) (sym, data)).
Proof.
  unfold all_candidates. rewrite in_flat_map. split.
  - intros ([sym data] & Hl & Hc). eauto.
  - intros (sym & data & Hl & Hc). eauto.
Qed.

Lemma selected_seed_candidate (text : string) (seed : PatternSeed) :
  In seed (select_seeds (Py.sorted_desc c_score (all_candidates text))) ->
  exists c sym data,
    seed = make_seed c /\ c_score c >= 4 /\
    In c (all_candidates text) /\
    In (sym, data) SYMBOL_LEXICON /\
    In c (Py.appended_by (candidate_step text (Str.lower text)) (sym, data)).
Proof.
  intros Hin. unfold select_seeds in Hin.
  apply in_map_iff in Hin as (c & <- & Hc).
  apply filter_In in Hc as [Hc Hs].
  apply firstn_In, sorted_desc_In in Hc.
  destruct (proj1 (all_candidates_In text c) Hc) as (sym & data & Hl & Hc').
  exists c, sym, data. repeat split; try assumption.
  apply Z.geb_le in Hs. lia.
Qed.

(** X6: every returned seed is a lexicon symbol with a keyword in the
    text; its theological weight is the lexicon weight, its frequency is
    the number of matched keywords capped at 3 (at least 1), frequency,
    structural position and weight each lie between 1 and 3, and the
    score is their sum plus 1 when the frequency is 3, so between 4 and
    10. *)
Theorem pattern_seed_components (text : string) :
  exists seeds,
    pattern_seed text = Py.Return seeds /\
    Forall (fun seed =>
              exists data,
                In (symbol seed, data) SYMBOL_LEXICON /\
                theological_weight seed = weight data /\
                frequency seed =
                  Z.min (Py.len (matched (keywords data) (Str.lower text))) 3 /\
                1 <= frequency seed <= 3 /\
                1 <= structural_position seed <= 3 /\
                1 <= theological_weight seed <= 3 /\
                score seed =
                  frequency seed + structural_position seed
                  + theological_weight seed
                  + (if frequency seed =? 3 then 1 else 0) /\
                4 <= score seed <= 10)
           seeds.
Proof.
  eexists. split; [apply pattern_seed_selected |].
  apply Forall_forall. intros seed Hin.
  destruct (selected_seed_candidate text seed Hin)
    as (c & sym & data & -> & Hge & _ & Hlex & Hc).
  destruct (appended_by_candidate text sym data c Hc)
    as (Hsym & Hw & Hm & Hne & Hf & Hs & Hscore).
  pose proof lexicon_weights as Hlw. rewrite Forall_forall in Hlw.
  specialize (Hlw _ Hlex). cbn [snd] in Hlw.
  exists data.
  cbn [make_seed symbol theological_weight frequency structural_position score].
  rewrite Hsym.
  assert (Hfr : 1 <= c_frequency c <= 3).
  { rewrite Hf. unfold Py.len. destruct (c_matches c); [congruence |].
    cbn [length]. lia. }
  repeat split; try assumption; try lia.
  - now rewrite Hf, Hm.
  - rewrite Hscore. destruct (c_frequency c =? 3); lia.
Qed.

(** ** PATTERN-SEED: which candidates become seeds *)

Lemma appended_by_at_most_one (text : string) (entry : string * SymbolData) :
  Py.appended_by (candidate_step text (Str.lower text)) entry = [] \/
  exists c,
    Py.appended_by (candidate_step text (Str.lower text)) entry = [c] /\
    c_symbol c = fst entry.
Proof.
  destruct entry as [sym data].
  unfold Py.appended_by, candidate_step.
  destruct (matched (keywords data) (Str.lower text)) as [|m0 rest]; [now left |].
  unfold score_candidate.
  destruct (Str.index (Str.lower text) m0); cbn [Py.bind app]; [| now left].
  right. eexists. split; reflexivity.
Qed.

Lemma candidates_symbols_NoDup (text : string) (l : list (string * SymbolData)) :
  NoDup (map fst l) ->
  NoDup (map c_symbol
           (flat_map (Py.appended_by (candidate_step text (Str.lower text))) l)).
Proof.
  induction l as [|entry l IH]; cbn [map flat_map]; intros Hnd; [constructor |].
  inversion Hnd as [|? ? Hnot Hnd']; subst.
  destruct (appended_by_at_most_one text entry) as [-> | (c & -> & Hc)].
  - now apply IH.
  - cbn [app map]. constructor; [| now apply IH].
    rewrite in_map_iff. intros (c' & Ec & Hin).
    apply in_flat_map in Hin as ([sym' data'] & Hl & Hc').
    apply appended_by_symbol in Hc'.
    apply Hnot. apply in_map_iff. exists (sym', data').
    split; [cbn [fst]; congruence | exact Hl].
Qed.

Lemma firstn_map_NoDup {K V : Type} (proj : K -> V) (n : nat) (l : list K) :
  NoDup (map proj l) -> NoDup (map proj (firstn n l)).
Proof.
  revert l. induction n as [|n IH]; intros [|x l] Hnd; cbn [firstn map];
    try constructor.
  - inversion Hnd as [|? ? Hx _]; subst.
    rewrite in_map_iff. intros (z & Ez & Hz). apply firstn_In in Hz.
    apply Hx. apply in_map_iff. eauto.
  - inversion Hnd; subst. now apply IH.
Qed.

(** X7: the returned seeds have pairwise different symbols. *)
Theorem pattern_seed_distinct_symbols (text : string) :
  exists seeds,
    pattern_seed text = Py.Return seeds /\ NoDup (map symbol seeds).
Proof.
  eexists. split; [apply pattern_seed_selected |].
  unfold select_seeds. rewrite map_map.
  change (fun x => symbol (make_seed x)) with c_symbol.
  apply filter_map_NoDup. apply firstn_map_NoDup.
  apply sorted_desc_map_NoDup.
  apply candidates_symbols_NoDup, lexicon_symbols_distinct.
Qed.

Lemma descending_firstn_skipn {A : Type} (key : A -> Z) (n : nat) (l : list A)
    (a b : A) :
  descending key l -> In a (firstn n l) -> In b (skipn n l) -> key b <= key a.
Proof.
  unfold descending. revert l.
  induction n as [|n IH]; intros [|x l] Hd Ha Hb; cbn [firstn skipn] in *;
    try contradiction.
  inversion Hd as [|? ? Hd' Hall]; subst.
  destruct Ha as [<- | Ha].
  - rewrite Forall_forall in Hall. apply Hall.
    rewrite <- (firstn_skipn n l). apply in_or_app. now right.
  - now apply (IH l).
Qed.

Lemma filter_all {A : Type} (p : A -> bool) (l : list A) :
  (forall x, In x l -> p x = true) -> filter p l = l.
Proof.
  induction l as [|x l IH]; cbn [filter]; intros H; [reflexivity |].
  rewrite (H x) by now left. f_equal. apply IH. intros; apply H; now right.
Qed.

(** X8: no qualifying candidate is lost to a weaker one: a symbol that
    matched the text with total score at least 4 is either among the
    seeds, or three seeds were returned and each scores at least as
    much. *)
Theorem pattern_seed_keeps_best (text : string) :
  exists candidates seeds,
    candidates_of text = Py.Return candidates /\
    pattern_seed text = Py.Return seeds /\
    forall c,
      In c candidates -> c_score c >= 4 ->
      In (c_symbol c) (map symbol seeds) \/
      (length seeds = 3%nat /\ Forall (fun seed => score seed >= c_score c) seeds).
Proof.
  exists (all_candidates text). eexists.
  split; [apply candidates_of_all |]. split; [apply pattern_seed_selected |].
  intros c Hc Hge.
  set (sorted := Py.sorted_desc c_score (all_candidates text)).
  assert (Hs : In c sorted) by now apply sorted_desc_In.
  rewrite <- (firstn_skipn 3 sorted) in Hs.
  apply in_app_or in Hs as [Hs | Hs].
  - left. unfold select_seeds. apply in_map_iff.
    exists (make_seed c). split; [reflexivity |].
    apply in_map. apply filter_In. split; [exact Hs |].
    apply Z.geb_le. lia.
  - right.
    assert (Hall : forall a, In a (firstn 3 sorted) -> c_score c <= c_score a).
    { intros a Ha.
      apply (descending_firstn_skipn c_score 3 sorted a c);
        [apply sorted_desc_descending | exact Ha | exact Hs]. }
    unfold select_seeds. fold sorted.
    rewrite filter_all
      by (intros a Ha; apply Z.geb_le; specialize (Hall a Ha); lia).
    split.
    + rewrite length_map. apply firstn_length_le.
      destruct sorted as [|? [|? [|? ?]]]; cbn [skipn] in Hs;
        try contradiction; cbn [length]; lia.
    + apply Forall_forall. intros seed Hin.
      apply in_map_iff in Hin as (a & <- & Ha).
      cbn [make_seed score]. specialize (Hall a Ha). lia.
Qed.

(** X9: a text that contains a keyword of any lexicon symbol of weight 2
    or 3 yields at least one seed. *)
Theorem pattern_seed_weighty_match (text sym : string) (data : SymbolData) :
  In (sym, data) SYMBOL_LEXICON ->
  2 <= weight data ->
  Str.any_in (keywords data) (Str.lower text) = true ->
  exists seeds, pattern_seed text = Py.Return seeds /\ seeds <> [].
Proof.
  intros Hlex Hw Hany.
  eexists. split; [apply pattern_seed_selected |].
  destruct (matched (keywords data) (Str.lower text)) as [|m0 rest] eqn:Em.
  { apply filter_nil_existsb in Em. unfold Str.any_in in Hany. congruence. }
  destruct (contains_find _ _ (matched_head _ _ _ _ Em)) as [pos Hpos].
  destruct (appended_by_matched text sym data m0 rest pos Em Hpos)
    as (c & Hc & _).
  assert (Hin : In c (Py.appended_by (candidate_step text (Str.lower text)) (sym, data)))
    by (rewrite Hc; now left).
  destruct (appended_by_candidate text sym data c Hin)
    as (_ & Hcw & Hm & Hne & Hf & Hs & Hscore).
  assert (Hge : c_score c >= 4).
  { rewrite Hscore, Hcw, Hf. unfold Py.len.
    destruct (c_matches c); [congruence |]. cbn [length].
    match goal with |- context [if ?b then _ else _] => destruct b end; lia. }
  set (sorted := Py.sorted_desc c_score (all_candidates text)).
  assert (Hsorted : In c sorted).
  { apply sorted_desc_In. apply all_candidates_In. eauto. }
  destruct sorted as [|c0 sorted'] eqn:Es; [contradiction |].
  assert (Hd : descending c_score (c0 :: sorted'))
    by (rewrite <- Es; apply sorted_desc_descending).
  assert (H0 : c_score c0 >= 4).
  { destruct Hsorted as [-> | Hin']; [exact Hge |].
    inversion Hd as [|? ? _ Hall]; subst.
    rewrite Forall_forall in Hall. specialize (Hall c Hin'). lia. }
  unfold select_seeds. cbn [firstn filter].
  assert (E : (c_score c0 >=? 4) = true) by (apply Z.geb_le; lia).
  rewrite E. discriminate.
Qed.

Lemma pattern_seed_weighty_match_witness :
  exists seeds, pattern_seed "a voice in the desert" = Py.Return seeds /\ seeds <> [].
Proof.
  apply (pattern_seed_weighty_match "a voice in the desert" "VOICE"
           (mkSym "revelation / calling" ["voice"; "voices"; "cry"] 2)).
  - unfold SYMBOL_LEXICON.
    repeat (first [left; reflexivity | right]).
  - cbn. lia.
  - reflexivity.
Defined.

(** ** GRAVITY-SYNC: the matched patterns *)

Lemma matched_In (kws : list string) (text_lower p : string) :
  In p (matched kws text_lower) <-> In p kws /\ Str.contains p text_lower = true.
Proof. unfold matched. rewrite filter_In. reflexivity. Qed.

Lemma seed_hits_In (names : list string) (seeds : list PatternSeed) (p : string) :
  In p (seed_hits names seeds) <->
  exists seed,
    In seed seeds /\ symbol seed = p /\
    Str.mem (Str.lower (symbol seed)) names = true.
Proof.
  unfold seed_hits. rewrite in_map_iff. split.
  - intros (seed & <- & Hin). apply filter_In in Hin as [Hin Hm]. eauto.
  - intros (seed & Hin & <- & Hm). exists seed. split; [reflexivity |].
    apply filter_In. auto.
Qed.

(** X10: the list of matched patterns is empty exactly when the score is
    0.  With score 3 it holds direct-event keywords that occur in the
    lowered text; with score 2 or 1 it holds the symbols of seeds that are
    strong types, respectively light hints. *)
Theorem gravity_sync_patterns (text : string) (seeds : list PatternSeed) :
  let g := gravity_sync text seeds in
  (gs_score g = 0 <-> christ_patterns g = []) /\
  (gs_score g = 3 ->
   forall p, In p (christ_patterns g) <->
             In p direct_christ /\ Str.contains p (Str.lower text) = true) /\
  (gs_score g = 2 ->
   forall p, In p (christ_patterns g) <->
             exists seed, In seed seeds /\ symbol seed = p /\
                          Str.mem (Str.lower (symbol seed)) strong_types = true) /\
  (gs_score g = 1 ->
   forall p, In p (christ_patterns g) <->
             exists seed, In seed seeds /\ symbol seed = p /\
                          Str.mem (Str.lower (symbol seed)) light_hints = true).
Proof.
  unfold gravity_sync.
  destruct (matched direct_christ (Str.lower text)) as [|p1 l1] eqn:E1.
  - destruct (seed_hits strong_types seeds) as [|p2 l2] eqn:E2.
    + destruct (seed_hits light_hints seeds) as [|p3 l3] eqn:E3;
        cbn [gs_score christ_patterns].
      * split; [split; reflexivity |].
        split; [discriminate |]. split; discriminate.
      * split; [split; discriminate |].
        split; [discriminate |]. split; [discriminate |].
        intros _ p. rewrite <- E3. apply seed_hits_In.
    + cbn [gs_score christ_patterns].
      split; [split; discriminate |].
      split; [discriminate |]. split; [| discriminate].
      intros _ p. rewrite <- E2. apply seed_hits_In.
  - cbn [gs_score christ_patterns].
    split; [split; discriminate |].
    split; [| split; discriminate].
    intros _ p. rewrite <- E1. apply matched_In.
Qed.

(** ** ECHO-TRACE: roles, arc and placement *)

(** X11: for every symbol and spiral the trace has one role per spiral,
    numbered 1 to 7 in order; the overall arc is built from the roles of
    spirals 1, 4 and 7, and the placement reason is the role of the
    current spiral, so the fallback texts are never used. *)
Theorem echo_trace_covers_spirals (sym : string) (current : Spiral) :
  exists t r1 r4 r7 rc,
    echo_trace sym current = Py.Return t /\
    et_symbol t = sym /\
    map role_spiral (spiral_roles t) = [1; 2; 3; 4; 5; 6; 7] /\
    nth_error (spiral_roles t) 0 = Some r1 /\
    nth_error (spiral_roles t) 3 = Some r4 /\
    nth_error (spiral_roles t) 6 = Some r7 /\
    overall_arc t =
      sym ++ " moves from " ++ role r1 ++ " → " ++ role r4 ++ " → " ++ role r7 /\
    nth_error (spiral_roles t) (Z.to_nat (Spiral_value current - 1)) = Some rc /\
    place_reason (current_passage_stage t) = role rc.
Proof.
  unfold echo_trace, _get_symbol_spiral_roles, str_getitem, roles_map.
  cbn [str_get].
  change (("DEFAULT" =? "DEFAULT")%string) with true.
  change (("WATER" =? "DEFAULT")%string) with false.
  change (("SPIRIT" =? "DEFAULT")%string) with false.
  change (("LAMB" =? "DEFAULT")%string) with false.
  cbv iota. cbn [Py.bind].
  destruct (("WATER" =? sym)%string);
    [| destruct (("SPIRIT" =? sym)%string);
       [| destruct (("LAMB" =? sym)%string);
          [| destruct (("DEFAULT" =? sym)%string)]]];
    destruct current;
    do 5 eexists; repeat split; reflexivity.
Qed.

(** ** TELOS-RUN: how the stages compose *)

Lemma sum_of_from {A : Type} (f : A -> Z) (l : list A) (acc : Z) :
  fold_left (fun acc x => acc + f x) l acc = acc + sum_of f l.
Proof.
  unfold sum_of. revert acc.
  induction l as [|x l IH]; intros acc; cbn [fold_left]; [lia |].
  rewrite (IH (acc + f x)), (IH (0 + f x)). lia.
Qed.

Lemma sum_of_seven (traces : list EchoTrace) :
  Forall (fun t => length (spiral_roles t) = 7%nat) traces ->
  sum_of (fun t => Py.len (spiral_roles t)) traces = 7 * Py.len traces.
Proof.
  induction 1 as [|t l Ht _ IH].
  - reflexivity.
  - unfold sum_of. cbn [fold_left]. rewrite sum_of_from, IH.
    unfold Py.len. rewrite Ht. cbn [length]. lia.
Qed.

Lemma urim_thummim_of_run (seeds : list PatternSeed) (traces : list EchoTrace)
    (gravity : GravitySync) :
  Forall (fun t => length (spiral_roles t) = 7%nat) traces ->
  exists u,
    urim_thummim seeds traces gravity = Py.Return u /\
    (urim u = true <-> traces <> []) /\
    thummim u = (gs_score gravity >=? 2) /\
    interpretation u =
      (if urim u
       then if thummim u
            then "Fully alive, coherent, and completed spiral"
            else "Real pattern but still open / unresolved"
       else if thummim u
            then "Sealed mystery; not fully revealed"
            else "Likely false spiral or over-interpretation").
Proof.
  intros H7. unfold urim_thummim, truediv_ge.
  rewrite (sum_of_seven traces H7).
  destruct traces as [|t traces'].
  - cbn [Py.len length Z.of_nat Z.gtb Z.compare Py.bind].
    eexists. split; [reflexivity |].
    cbn [urim thummim interpretation].
    split; [split; [discriminate | congruence] |].
    split; [reflexivity |].
    destruct (gs_score gravity >=? 2); reflexivity.
  - set (n := Py.len (t :: traces')).
    assert (Hn : n > 0) by (unfold n, Py.len; cbn [length]; lia).
    assert (E1 : (n >? 0) = true) by (apply Z.gtb_lt; lia).
    assert (E2 : (n =? 0) = false) by (apply Z.eqb_neq; lia).
    assert (E3 : (5 * n <=? 7 * n) = true) by (apply Z.leb_le; lia).
    rewrite E1, E2, E3. cbn [Py.bind].
    eexists. split; [reflexivity |].
    cbn [urim thummim interpretation].
    split; [split; [discriminate | reflexivity] |].
    split; [reflexivity |].
    destruct (gs_score gravity >=? 2); reflexivity.
Qed.

Lemma trace_body_symbol (current : Spiral) (seed : PatternSeed) :
  exists t,
    Py.appended_by (trace_body current) seed = [t] /\
    et_symbol t = symbol seed.
Proof.
  unfold Py.appended_by, trace_body.
  destruct (echo_trace_returns (symbol seed) current) as (t & -> & Hs & _).
  exists t. now split.
Qed.

Lemma trace_seeds_symbols (current : Spiral) (seeds : list PatternSeed) :
  exists traces,
    trace_seeds current seeds = Py.Return traces /\
    map et_symbol traces = map symbol (firstn 3 seeds).
Proof.
  exists (flat_map (Py.appended_by (trace_body current)) (firstn 3 seeds)).
  split.
  - unfold trace_seeds.
    apply (foldM_append (trace_body current) (Py.appended_by (trace_body current))).
    intros; apply trace_body_appends.
  - induction (firstn 3 seeds) as [|seed l IH]; [reflexivity |].
    cbn [flat_map].
    destruct (trace_body_symbol current seed) as (t & -> & Hs).
    cbn [app map]. now rewrite Hs, IH.
Qed.

Lemma firstn_short {A : Type} (n : nat) (l : list A) :
  (length l <= n)%nat -> firstn n l = l.
Proof.
  revert l. induction n as [|n IH]; intros [|x l] H; cbn [firstn length] in *;
    try reflexivity; try lia.
  f_equal. apply IH. lia.
Qed.

(** A run together with the facts that tie its stages to each other. *)
Lemma telos_run_stages (ref text : string) (r : TelosRun) :
  telos_run ref text = Py.Return r ->
  assign_spiral ref = Py.Return (spiral r) /\
  pattern_seed text = Py.Return (pattern_seeds r) /\
  trace_seeds (spiral r) (pattern_seeds r) = Py.Return (echo_traces r) /\
  gravity_sync_result r = gravity_sync text (pattern_seeds r) /\
  urim_thummim (pattern_seeds r) (echo_traces r) (gravity_sync_result r)
    = Py.Return (urim_thummim_result r) /\
  fractal_filter_result r = fractal_filter (pattern_seeds r) (echo_traces r).
Proof.
  intros Hr.
  destruct (telos_run_inv ref text r Hr)
    as (sp & quadrants & seeds & traces & u & Hsp & _ & Hs & Ht & Hu & ->).
  cbn [spiral pattern_seeds echo_traces gravity_sync_result
       urim_thummim_result fractal_filter_result].
  repeat split; assumption.
Qed.

(** X12: a run returns unless the reference names Genesis with a chapter
    too long for [int()]; in every run that returns urim is true exactly
    when a seed was detected, which is exactly when the classification is
    "Fractal"; thummim is true exactly when the centrality score is at
    least 2; and the interpretation is the one of the four texts selected
    by the two flags. *)
Theorem telos_run_urim_thummim (ref text : string) :
  (~ long_genesis_chapter ref -> exists r, telos_run ref text = Py.Return r) /\
  forall r,
    telos_run ref text = Py.Return r ->
    (urim (urim_thummim_result r) = true <-> pattern_seeds r <> []) /\
    (urim (urim_thummim_result r) = true
     <-> classification (fractal_filter_result r) = "Fractal") /\
    (thummim (urim_thummim_result r) = true
     <-> gs_score (gravity_sync_result r) >= 2) /\
    interpretation (urim_thummim_result r) =
      (if urim (urim_thummim_result r)
       then if thummim (urim_thummim_result r)
            then "Fully alive, coherent, and completed spiral"
            else "Real pattern but still open / unresolved"
       else if thummim (urim_thummim_result r)
            then "Sealed mystery; not fully revealed"
            else "Likely false spiral or over-interpretation").
Proof.
  split; [apply telos_run_returns_unless_long |].
  intros r Hr.
  destruct (telos_run_stages ref text r Hr) as (_ & _ & Ht & _ & Hu & Hff).
  destruct (trace_seeds_returns (spiral r) (pattern_seeds r))
    as (traces & Ht' & Hlen & H7).
  assert (traces = echo_traces r) by congruence. subst traces.
  destruct (urim_thummim_of_run (pattern_seeds r) (echo_traces r)
              (gravity_sync_result r) H7) as (u & Hu' & Hurim & Hth & Hint).
  assert (u = urim_thummim_result r) by congruence. subst u.
  assert (Hiff : echo_traces r <> [] <-> pattern_seeds r <> []).
  { destruct (pattern_seeds r) as [|s l], (echo_traces r) as [|t l'];
      cbn [firstn length] in Hlen; try discriminate Hlen;
      split; congruence. }
  split; [now rewrite Hurim |].
  split.
  { rewrite Hurim, Hff. split.
    - intros Hne. apply fractal_filter_with_seeds; [now apply Hiff | exact Hne | exact H7].
    - intros Hc Hnil.
      assert (Hs : pattern_seeds r = []).
      { destruct (pattern_seeds r); [reflexivity |].
        exfalso. apply (proj2 Hiff); [discriminate | exact Hnil]. }
      rewrite Hs, Hnil in Hc. discriminate Hc. }
  split; [| exact Hint].
  rewrite Hth. split.
  - intros H. apply Z.geb_le in H. lia.
  - intros H. apply Z.geb_le. lia.
Qed.

(** X13: a run returns unless the reference names Genesis with a chapter
    too long for [int()]; a run that returns has exactly one echo trace
    per seed, in seed order and for the seed's symbol, each with seven
    roles. *)
Theorem telos_run_traces_follow_seeds (ref text : string) :
  (~ long_genesis_chapter ref -> exists r, telos_run ref text = Py.Return r) /\
  forall r,
    telos_run ref text = Py.Return r ->
    map et_symbol (echo_traces r) = map symbol (pattern_seeds r) /\
    (length (echo_traces r) <= 3)%nat /\
    Forall (fun t => length (spiral_roles t) = 7%nat) (echo_traces r).
Proof.
  split; [apply telos_run_returns_unless_long |].
  intros r Hr.
  destruct (telos_run_stages ref text r Hr) as (_ & Hs & Ht & _ & _ & _).
  assert (Hlen : (length (pattern_seeds r) <= 3)%nat).
  { rewrite pattern_seed_selected in Hs.
    assert (E : pattern_seeds r =
                select_seeds (Py.sorted_desc c_score (all_candidates text)))
      by congruence.
    rewrite E. apply select_seeds_length. }
  destruct (trace_seeds_symbols (spiral r) (pattern_seeds r))
    as (traces & Ht' & Hsym).
  assert (traces = echo_traces r) by congruence. subst traces.
  rewrite (firstn_short 3 _ Hlen) in Hsym.
  split; [exact Hsym |].
  split.
  - rewrite <- (length_map et_symbol), Hsym, length_map. exact Hlen.
  - destruct (trace_seeds_returns (spiral r) (pattern_seeds r))
      as (traces & Ht'' & _ & H7).
    assert (traces = echo_traces r) by congruence. now subst traces.
Qed.

(** ** Spiral assignment: the complete decision table *)

Lemma gospel_test_is_john (ref_lower : string) :
  Str.any_in gospel_books ref_lower && Str.contains "john" ref_lower
  = Str.contains "john" ref_lower.
Proof.
  unfold Str.any_in, gospel_books. cbn [existsb].
  destruct (Str.contains "john" ref_lower); [| apply andb_false_r].
  now rewrite !orb_true_r.
Qed.

(** X14: the complete decision table of the classifier.  It raises
    ValueError, and nothing else, exactly for references naming Genesis
    whose chapter has more than 4300 digits; stage 1 is returned exactly
    for references naming Genesis with a chapter up to 11; stage 2 for
    the other Genesis references on which it returns and for Exodus;
    stages 3, 4 and 5 for the first law, kingship or wisdom/prophets name
    found in that priority; stage 7 when no earlier book is named, the
    John test fails and a remaining New Testament name occurs; stage 6 in
    all other cases. *)
Theorem assign_spiral_table (reference : string) :
  let r := Str.lower reference in
  let genesis := Str.contains "genesis" r in
  let exodus := Str.any_in exodus_books r in
  let law := Str.any_in law_books r in
  let kingship := Str.any_in kingship_books r in
  let wisdom := Str.any_in wisdom_books r in
  let john := Str.contains "john" r && negb (Str.any_in epistle_john r) in
  let later := Str.any_in new_creation_books r in
  (forall e, assign_spiral reference = Py.Raise e
             <-> e = Py.ValueError /\ genesis = true /\
                 chapter_too_long reference) /\
  (assign_spiral reference = Py.Return S1_CREATION
   <-> genesis = true /\ chapter_up_to_11 reference) /\
  (assign_spiral reference = Py.Return S2_COVENANT
   <-> (genesis = true /\ ~ chapter_up_to_11 reference /\
        ~ chapter_too_long reference)
       \/ (genesis = false /\ exodus = true)) /\
  (assign_spiral reference = Py.Return S3_LAW
   <-> genesis = false /\ exodus = false /\ law = true) /\
  (assign_spiral reference = Py.Return S4_KINGSHIP
   <-> genesis = false /\ exodus = false /\ law = false /\ kingship = true) /\
  (assign_spiral reference = Py.Return S5_WISDOM
   <-> genesis = false /\ exodus = false /\ law = false /\ kingship = false
       /\ wisdom = true) /\
  (assign_spiral reference = Py.Return S7_NEW_CREATION
   <-> no_earlier_book r = true /\ john = false /\ later = true) /\
  (assign_spiral reference = Py.Return S6_CHRIST
   <-> no_earlier_book r = true /\ (john = true \/ later = false)).
Proof.
  cbv zeta.
  split; [intros e; apply assign_spiral_raises |].
  unfold assign_spiral, no_earlier_book.
  rewrite <- andb_assoc.
  rewrite (andb_assoc (Str.any_in gospel_books _)), gospel_test_is_john.
  destruct (genesis_spiral_cases reference) as (_ & H1 & H2 & H12).
  destruct (Str.contains "genesis" (Str.lower reference)).
  - cbn [negb andb].
    assert (Hno : forall s, s <> S1_CREATION -> s <> S2_COVENANT ->
                            genesis_spiral reference <> Py.Return s).
    { intros s Hs1 Hs2 E. destruct H12 as [E' | [E' | E']]; congruence. }
    split; [rewrite H1; tauto |].
    split; [rewrite H2; split;
            [tauto | intros [H | (H & _)]; [tauto | discriminate H]] |].
    repeat (split;
            [split; [intros H; exfalso; revert H; apply Hno; discriminate
                    | intros (H & _); discriminate H] |]).
    split; [intros H; exfalso; revert H; apply Hno; discriminate
           | intros (H & _); discriminate H].
  - cbn [negb andb].
    destruct (Str.any_in exodus_books (Str.lower reference));
      destruct (Str.any_in law_books (Str.lower reference));
      destruct (Str.any_in kingship_books (Str.lower reference));
      destruct (Str.any_in wisdom_books (Str.lower reference));
      destruct (Str.contains "john" (Str.lower reference)
                && negb (Str.any_in epistle_john (Str.lower reference)));
      destruct (Str.any_in new_creation_books (Str.lower reference));
      cbn [negb andb];
      intuition (try discriminate; try congruence).
Qed.

(** ** Letter case *)

Lemma lower_char_digit (c : ascii) :
  Str.is_digit (Str.lower_char c) = Str.is_digit c.
Proof. destruct c as [[] [] [] [] [] [] [] []]; reflexivity. Qed.

Lemma lower_char_of_digit (c : ascii) :
  Str.is_digit c = true -> Str.lower_char c = c.
Proof. destruct c as [[] [] [] [] [] [] [] []]; intros H; try reflexivity; discriminate H. Qed.

Lemma lower_char_colon (c : ascii) :
  Ascii.eqb ":" (Str.lower_char c) = Ascii.eqb ":" c.
Proof. destruct c as [[] [] [] [] [] [] [] []]; reflexivity. Qed.

Lemma lower_length (s : string) : String.length (Str.lower s) = String.length s.
Proof. induction s as [|c s IH]; cbn [Str.lower String.length]; congruence. Qed.

Lemma prefix_colon (r : string) :
  prefix ":" r = match r with
                 | EmptyString => false
                 | String c _ => Ascii.eqb ":" c
                 end.
Proof.
  destruct r as [|c r]; [reflexivity |].
  cbn [prefix]. destruct (ascii_dec ":" c) as [<- | Hne].
  - rewrite Ascii.eqb_refl. now destruct r.
  - symmetry. now apply Ascii.eqb_neq.
Qed.

Lemma span_digits_lower (s : string) :
  Str.span_digits (Str.lower s) =
    (fst (Str.span_digits s), Str.lower (snd (Str.span_digits s))).
Proof.
  induction s as [|c s IH]; [reflexivity |].
  cbn [Str.lower Str.span_digits]. rewrite lower_char_digit.
  destruct (Str.is_digit c) eqn:E.
  - rewrite IH, (lower_char_of_digit c E).
    destruct (Str.span_digits s). reflexivity.
  - reflexivity.
Qed.

Lemma search_digits_colon_lower (s : string) :
  Str.search_digits_colon (Str.lower s) = Str.search_digits_colon s.
Proof.
  induction s as [|c s IH]; [reflexivity |].
  change (Str.lower (String c s)) with (String (Str.lower_char c) (Str.lower s)).
  unfold Str.search_digits_colon; fold Str.search_digits_colon.
  change (String (Str.lower_char c) (Str.lower s)) with (Str.lower (String c s)).
  rewrite span_digits_lower, IH.
  destruct (Str.span_digits (String c s)) as [d r]. cbn [fst snd].
  rewrite !prefix_colon.
  destruct r as [|c' r']; cbn [Str.lower]; [reflexivity |].
  now rewrite lower_char_colon.
Qed.

(** X15: the classifier does not depend on letter case: two references
    that agree after lowering get the same spiral. *)
Theorem assign_spiral_case_insensitive (a b : string) :
  Str.lower a = Str.lower b -> assign_spiral a = assign_spiral b.
Proof.
  intros E. unfold assign_spiral, genesis_spiral.
  rewrite <- (search_digits_colon_lower a), <- (search_digits_colon_lower b).
  now rewrite E.
Qed.

Lemma assign_spiral_case_insensitive_witness :
  assign_spiral "GENESIS 3:15" = assign_spiral "genesis 3:15".
Proof.
  apply (assign_spiral_case_insensitive "GENESIS 3:15" "genesis 3:15").
  reflexivity.
Defined.

Lemma foldM_ext {A S : Type} (f g : S -> A -> Py.result S) (l : list A) (s : S) :
  (forall s x, f s x = g s x) -> Py.foldM f l s = Py.foldM g l s.
Proof.
  intros H. revert s. induction l as [|x l IH]; intros s; cbn [Py.foldM];
    [reflexivity |].
  rewrite H. destruct (g s x); cbn [Py.bind]; [apply IH | reflexivity].
Qed.

(** X16: on ASCII text, seed detection, centrality scoring and the
    compression test do not depend on letter case: two texts within ASCII
    that agree after lowering give the same seeds, the same centrality
    result for any seeds, and the same compression result.  (Outside
    ASCII [lower()] can change the length of a text, and with it the
    position band of a seed.) *)
Theorem text_stages_case_insensitive (a b : string) :
  ascii_text a = true ->
  ascii_text b = true ->
  Str.lower a = Str.lower b ->
  pattern_seed a = pattern_seed b /\
  (forall seeds, gravity_sync a seeds = gravity_sync b seeds) /\
  comp_435 a = comp_435 b.
Proof.
  intros _ _ E.
  assert (Hlen : String.length a = String.length b)
    by (rewrite <- (lower_length a), <- (lower_length b); now rewrite E).
  split; [| split].
  - unfold pattern_seed, candidates_of. rewrite E.
    rewrite (foldM_ext (candidate_step a (Str.lower b))
                       (candidate_step b (Str.lower b))); [reflexivity |].
    intros acc [sym data]. unfold candidate_step, score_candidate.
    now rewrite Hlen.
  - intros seeds. unfold gravity_sync. now rewrite E.
  - unfold comp_435. now rewrite E.
Qed.

Lemma text_stages_case_insensitive_witness :
  pattern_seed "Behold the LAMB of God" = pattern_seed "behold the lamb of god" /\
  (forall seeds,
      gravity_sync "Behold the LAMB of God" seeds
      = gravity_sync "behold the lamb of god" seeds) /\
  comp_435 "Behold the LAMB of God" = comp_435 "behold the lamb of god".
Proof.
  apply (text_stages_case_insensitive
           "Behold the LAMB of God" "behold the lamb of god");
    reflexivity.
Defined.

(** ** Substrings and longer passages *)

Lemma prefix_app (sub b : string) : prefix sub (sub ++ b) = true.
Proof.
  induction sub as [|c sub IH]; cbn [append].
  - now destruct b.
  - cbn [prefix]. destruct (ascii_dec c c); [exact IH | congruence].
Qed.

Lemma prefix_split (sub s : string) :
  prefix sub s = true -> exists b, s = sub ++ b.
Proof.
  revert s. induction sub as [|c sub IH]; intros s H.
  - exists s. reflexivity.
  - destruct s as [|c' s]; [discriminate H |].
    cbn [prefix] in H. destruct (ascii_dec c c') as [<- |]; [| discriminate H].
    destruct (IH s H) as [b ->]. exists b. reflexivity.
Qed.

Lemma append_assoc (a b c : string) : (a ++ b) ++ c = a ++ b ++ c.
Proof. induction a as [|x a IH]; cbn [append]; congruence. Qed.

(** [sub in s] holds exactly when [s] can be cut around an occurrence of
    [sub]. *)
Lemma contains_split (sub s : string) :
  Str.contains sub s = true <-> exists a b, s = a ++ sub ++ b.
Proof.
  unfold Str.contains. split.
  - induction s as [|c s IH]; rewrite find_unfold.
    + destruct (prefix sub "") eqn:E; [| discriminate].
      intros _. destruct (prefix_split _ _ E) as [b Hb]. exists "", b. exact Hb.
    + destruct (prefix sub (String c s)) eqn:E.
      * intros _. destruct (prefix_split _ _ E) as [b Hb]. exists "", b. exact Hb.
      * destruct (Str.find sub s) as [n|]; [| discriminate].
        intros _. destruct (IH eq_refl) as (a & b & ->).
        exists (String c a), b. reflexivity.
  - intros (a & b & ->). induction a as [|c a IH].
    + cbn [append]. rewrite find_unfold, prefix_app. reflexivity.
    + cbn [append]. rewrite find_unfold.
      destruct (prefix sub (String c (a ++ sub ++ b))); [reflexivity |].
      destruct (Str.find sub (a ++ sub ++ b)); [reflexivity | discriminate IH].
Qed.

Lemma contains_in_context (sub pre s post : string) :
  Str.contains sub s = true -> Str.contains sub (pre ++ s ++ post) = true.
Proof.
  rewrite !contains_split. intros (a & b & ->).
  exists (pre ++ a), (b ++ post).
  now rewrite !append_assoc.
Qed.

Lemma lower_app (a b : string) : Str.lower (a ++ b) = Str.lower a ++ Str.lower b.
Proof. induction a as [|c a IH]; cbn [append Str.lower]; congruence. Qed.

Lemma any_in_in_context (names : list string) (pre s post : string) :
  Str.any_in names (Str.lower s) = true ->
  Str.any_in names (Str.lower (pre ++ s ++ post)) = true.
Proof.
  unfold Str.any_in. rewrite !existsb_exists.
  intros (kw & Hin & Hc). exists kw. split; [exact Hin |].
  rewrite !lower_app. now apply contains_in_context.
Qed.

(** X17: hits are not lost when a passage is quoted inside a longer one:
    if a text scores 3 for centrality, so does every text that contains
    it, whatever the seeds; if it shows the compression pattern, so does
    every text that contains it; and a reference that names Genesis is
    still handled by the Genesis rule whatever is written around it: the
    classifier gives stage 1 or stage 2, or raises ValueError (the
    chapter has more than 4300 digits), and never another stage. *)
Theorem hits_survive_context (pre text post : string) :
  (forall seeds seeds',
      gs_score (gravity_sync text seeds) = 3 ->
      gs_score (gravity_sync (pre ++ text ++ post) seeds') = 3) /\
  (has_pattern (comp_435 text) = true ->
   has_pattern (comp_435 (pre ++ text ++ post)) = true) /\
  (Str.contains "genesis" (Str.lower text) = true ->
   assign_spiral (pre ++ text ++ post) = Py.Return S1_CREATION \/
   assign_spiral (pre ++ text ++ post) = Py.Return S2_COVENANT \/
   assign_spiral (pre ++ text ++ post) = Py.Raise Py.ValueError).
Proof.
  split; [| split].
  - intros seeds seeds' H.
    assert (H1 : tier1_hit text = true).
    { unfold gravity_sync in H. unfold tier1_hit, Str.any_in.
      destruct (matched direct_christ (Str.lower text)) as [|p l] eqn:E.
      - exfalso.
        destruct (seed_hits strong_types seeds);
          [destruct (seed_hits light_hints seeds) |]; discriminate H.
      - destruct (existsb _ direct_christ) eqn:E'; [reflexivity |].
        apply filter_nil_existsb in E'. unfold matched in E. congruence. }
    apply (any_in_in_context direct_christ pre text post) in H1.
    unfold gravity_sync.
    destruct (matched direct_christ (Str.lower (pre ++ text ++ post))) eqn:E;
      [| reflexivity].
    apply filter_nil_existsb in E. unfold Str.any_in in H1. congruence.
  - unfold comp_435.
    destruct (Str.any_in stage_4_words (Str.lower text)) eqn:E4;
      destruct (Str.any_in stage_3_words (Str.lower text)) eqn:E3;
      destruct (Str.any_in stage_5_words (Str.lower text)) eqn:E5;
      cbn [andb has_pattern]; try discriminate.
    intros _.
    rewrite (any_in_in_context _ pre text post E4),
            (any_in_in_context _ pre text post E3),
            (any_in_in_context _ pre text post E5).
    reflexivity.
  - intros H. unfold assign_spiral.
    rewrite !lower_app, (contains_in_context _ _ _ _ H).
    destruct (genesis_spiral_cases (pre ++ text ++ post))
      as (_ & _ & _ & [E | [E | E]]); rewrite E; tauto.
Qed.

(* ====================================================================== *)
(** * Properties of the memory engine *)
(* ====================================================================== *)

(** ** Sorting by (chapter, verse) *)

Lemma pair_ltb_false (a b : Z * Z) : pair_ltb a b = false <-> pair_le b a.
Proof.
  unfold pair_ltb, pair_le.
  destruct (Z.ltb_spec (fst a) (fst b)), (Z.eqb_spec (fst a) (fst b)),
    (Z.ltb_spec (snd a) (snd b)); cbn [orb andb]; split; intros G;
    try discriminate; try reflexivity; lia.
Qed.

Lemma pair_ltb_true (a b : Z * Z) : pair_ltb a b = true -> pair_le a b.
Proof.
  unfold pair_ltb, pair_le.
  destruct (Z.ltb_spec (fst a) (fst b)), (Z.eqb_spec (fst a) (fst b)),
    (Z.ltb_spec (snd a) (snd b)); cbn [orb andb]; intros G;
    try discriminate; lia.
Qed.

Lemma pair_le_trans (a b c : Z * Z) : pair_le a b -> pair_le b c -> pair_le a c.
Proof. unfold pair_le. lia. Qed.

Section SortedAsc.

Context {A : Type}.
Variable key : A -> Z * Z.

Lemma insert_asc_In (x y : A) (l : list A) :
  In y (insert_asc key x l) <-> y = x \/ In y l.
Proof.
  induction l as [|z l IH]; cbn [insert_asc In].
  - intuition.
  - destruct (pair_ltb (key z) (key x)); cbn [In]; rewrite ?IH; intuition.
Qed.

Lemma sorted_asc_In (y : A) (l : list A) :
  In y (sorted_asc key l) <-> In y l.
Proof.
  induction l as [|x l IH]; cbn [sorted_asc In]; [tauto |].
  rewrite insert_asc_In, IH. intuition.
Qed.

Lemma insert_asc_ascending (x : A) (l : list A) :
  ascending key l -> ascending key (insert_asc key x l).
Proof.
  unfold ascending.
  induction l as [|z l IH]; cbn [insert_asc]; intros Hs.
  - repeat constructor.
  - inversion Hs as [|? ? Hl Hz]; subst.
    destruct (pair_ltb (key z) (key x)) eqn:E.
    + apply pair_ltb_true in E.
      constructor; [now apply IH |].
      apply Forall_forall. intros y Hy.
      apply insert_asc_In in Hy as [-> | Hy]; [exact E |].
      rewrite Forall_forall in Hz. now apply Hz.
    + apply pair_ltb_false in E.
      constructor; [exact Hs |].
      constructor; [exact E |].
      eapply Forall_impl; [| exact Hz]. cbn.
      intros y Hy. eapply pair_le_trans; eassumption.
Qed.

Lemma sorted_asc_ascending (l : list A) : ascending key (sorted_asc key l).
Proof.
  induction l as [|x l IH]; cbn [sorted_asc]; [constructor |].
  now apply insert_asc_ascending.
Qed.

(** Stability: elements with one and the same key keep their order. *)
Lemma sorted_asc_same_key (k : Z * Z) (l : list A) :
  Forall (fun x => key x = k) l -> sorted_asc key l = l.
Proof.
  induction 1 as [|x l Hx Hl IH]; cbn [sorted_asc]; [reflexivity |].
  rewrite IH. destruct l as [|y l']; [reflexivity |].
  cbn [insert_asc]. pose proof (Forall_inv Hl) as Hy. cbn beta in Hy.
  rewrite Hy, <- Hx.
  assert (E : pair_ltb (key x) (key x) = false).
  { apply pair_ltb_false. unfold pair_le. lia. }
  now rewrite E.
Qed.

End SortedAsc.

(** ** The verse store *)

Lemma stored_map_snd (verses : VerseStore) (verse_data : Verse) :
  In verse_data (map snd verses) <-> stored verses verse_data.
Proof.
  unfold stored. rewrite in_map_iff. split.
  - intros ([c v] & E & Hin). cbn [snd] in E. subst v. eauto.
  - intros (c & Hin). exists (c, verse_data). auto.
Qed.

(** X18: a range query returns exactly the stored verses of the book
    (compared without regard to case) whose (chapter, verse) lies between
    the start and the end of the range in tuple order, and returns them
    sorted by (chapter, verse). *)
Theorem get_passage_range (verses : VerseStore) (book : string)
    (start_chapter start_verse end_chapter end_verse : Z) :
  let found :=
    get_passage verses book start_chapter start_verse
                (Some (end_chapter, end_verse)) in
  ascending (fun x => (v_chapter x, v_verse x)) found /\
  forall verse_data,
    In verse_data found <->
    stored verses verse_data /\
    upper (v_book verse_data) = upper book /\
    pair_le (start_chapter, start_verse) (v_chapter verse_data, v_verse verse_data) /\
    pair_le (v_chapter verse_data, v_verse verse_data) (end_chapter, end_verse).
Proof.
  cbv zeta. unfold get_passage. split; [apply sorted_asc_ascending |].
  intros verse_data.
  rewrite sorted_asc_In, filter_In, stored_map_snd.
  unfold same_book, in_passage, pair_le. cbn [fst snd].
  rewrite !andb_true_iff, !orb_true_iff, !andb_true_iff, String.eqb_eq.
  rewrite Z.gtb_lt, Z.geb_le, Z.ltb_lt, Z.leb_le, !Z.eqb_eq.
  intuition lia.
Qed.

(** X19: looking up one verse agrees with the single-verse form of a
    passage query: [get_verse] returns the first verse of
    [get_passage] for the same book, chapter and verse, and nothing
    exactly when that passage is empty. *)
Theorem get_verse_is_head_of_passage (verses : VerseStore) (book : string)
    (chapter verse : Z) :
  get_verse verses book chapter verse =
    List.hd_error (get_passage verses book chapter verse None).
Proof.
  unfold get_verse, get_passage.
  rewrite (sorted_asc_same_key _ (chapter, verse)).
  - induction verses as [|[c vd] l IH]; cbn [List.find map filter snd];
      [reflexivity |].
    unfold in_passage. rewrite andb_assoc.
    destruct (same_book vd book && (v_chapter vd =? chapter)
              && (v_verse vd =? verse)); [reflexivity | exact IH].
  - apply Forall_forall. intros vd Hin. apply filter_In in Hin as [_ Hin].
    apply andb_prop in Hin as [_ Hin]. unfold in_passage in Hin.
    apply andb_prop in Hin as [H1 H2].
    apply Z.eqb_eq in H1. apply Z.eqb_eq in H2. congruence.
Qed.

(** ** Splitting *)

Lemma split_nonempty (sep : ascii) (s : string) : Str.split sep s <> [].
Proof.
  destruct s as [|c s]; cbn [Str.split]; [discriminate |].
  destruct (Ascii.eqb c sep); [discriminate |].
  destruct (Str.split sep s); discriminate.
Qed.

Lemma split_head_prefix (sep : ascii) (s h : string) (t : list string) :
  Str.split sep s = h :: t -> exists b, s = h ++ b.
Proof.
  revert h t. induction s as [|c s IH]; intros h t; cbn [Str.split].
  - intros [= <- <-]. exists "". reflexivity.
  - destruct (Ascii.eqb c sep).
    + intros [= <- <-]. exists (String c s). reflexivity.
    + destruct (Str.split sep s) as [|h' t'] eqn:E.
      * intros [= <- <-]. exfalso. now apply (split_nonempty sep s).
      * intros [= <- <-]. destruct (IH h' t' eq_refl) as [b ->].
        exists b. reflexivity.
Qed.

(** Every piece of a split is a substring of the string. *)
Lemma split_In_substring (sep : ascii) (s p : string) :
  In p (Str.split sep s) -> exists a b, s = a ++ p ++ b.
Proof.
  revert p. induction s as [|c s IH]; intros p; cbn [Str.split].
  - intros [<- | []]. exists "", "". reflexivity.
  - destruct (Ascii.eqb c sep).
    + intros [<- | Hin].
      * exists "", (String c s). reflexivity.
      * destruct (IH p Hin) as (a & b & ->). exists (String c a), b. reflexivity.
    + destruct (Str.split sep s) as [|h t] eqn:E.
      * intros [<- | []]. exfalso. now apply (split_nonempty sep s).
      * intros [<- | Hin].
        -- destruct (split_head_prefix sep s h t E) as [b ->].
           exists "", b. reflexivity.
        -- destruct (IH p (or_intror Hin)) as (a & b & ->).
           exists (String c a), b. reflexivity.
Qed.

Lemma contains_substring (sub a p b : string) :
  Str.contains sub p = true -> Str.contains sub (a ++ p ++ b) = true.
Proof. apply contains_in_context. Qed.

Lemma split_piece_without (sep : ascii) (sub s p : string) :
  Str.contains sub s = false -> In p (Str.split sep s) ->
  Str.contains sub p = false.
Proof.
  intros Hs Hin. destruct (split_In_substring sep s p Hin) as (a & b & ->).
  destruct (Str.contains sub p) eqn:E; [| reflexivity].
  rewrite (contains_substring sub a p b E) in Hs. discriminate Hs.
Qed.

(** A string without the separator is its own single piece. *)
Lemma split_without_sep (sep : ascii) (s : string) :
  Str.contains (String sep "") s = false -> Str.split sep s = [s].
Proof.
  induction s as [|c s IH]; intros H; cbn [Str.split]; [reflexivity |].
  destruct (Ascii.eqb_spec c sep) as [-> | Hne].
  - exfalso.
    assert (E : Str.contains (String sep "") (String sep s) = true).
    { apply contains_split. exists "", s. reflexivity. }
    congruence.
  - rewrite IH; [reflexivity |].
    destruct (Str.contains (String sep "") s) eqn:E; [| reflexivity].
    apply contains_split in E as (a & b & ->).
    assert (E : Str.contains (String sep "") (String c (a ++ String sep "" ++ b)) = true).
    { apply contains_split. exists (String c a), b. reflexivity. }
    congruence.
Qed.

Lemma words_without_space (s : string) :
  all_chars (fun c => negb (Str.is_space c)) s = true ->
  words s = match s with
            | EmptyString => []
            | _ => [s]
            end.
Proof.
  induction s as [|c s IH]; [reflexivity |].
  cbn [all_chars]. intros H. apply andb_prop in H as [Hc Hs].
  apply negb_true_iff in Hc. cbn [words]. rewrite Hc.
  destruct s as [|c' s']; [reflexivity |].
  cbn [all_chars] in Hs. pose proof Hs as Hs'.
  apply andb_prop in Hs' as [Hc' _]. apply negb_true_iff in Hc'.
  rewrite Hc'. now rewrite (IH Hs).
Qed.

(** ** The ANALYZE handler *)

(** X20: a reference whose second word has no colon makes the handler
    raise ValueError, for every store: a chapter-only reference
    ("Genesis 1", "Genesis 1-3") and a book with a numeric prefix
    ("1 John 4:8", whose second word is "John") are not answered with an
    error reply. *)
Theorem _analyze_raises_without_colon (verses : VerseStore)
    (reference book verse_ref : string) (rest : list string) :
  words reference = book :: verse_ref :: rest ->
  Str.contains ":" verse_ref = false ->
  _analyze verses reference = Py.Raise Py.ValueError.
Proof.
  intros Hw Hc. unfold _analyze. rewrite Hw.
  unfold lookup_verses.
  destruct (Str.contains "-" verse_ref).
  - destruct (Str.split "-" verse_ref) as [|start [|end_ [|x l]]] eqn:E;
      cbn [unpack_pair Py.bind]; try reflexivity.
    assert (Hs : Str.contains ":" start = false).
    { apply (split_piece_without "-" ":" verse_ref start Hc).
      rewrite E. now left. }
    rewrite (split_without_sep ":" start Hs). reflexivity.
  - rewrite (split_without_sep ":" verse_ref Hc). reflexivity.
Qed.

Lemma _analyze_raises_without_colon_witness :
  _analyze [] "Genesis 1" = Py.Raise Py.ValueError /\
  _analyze [] "1 John 4:8" = Py.Raise Py.ValueError.
Proof.
  split.
  - apply (_analyze_raises_without_colon [] "Genesis 1" "Genesis" "1" []);
      reflexivity.
  - apply (_analyze_raises_without_colon [] "1 John 4:8" "1" "John" ["4:8"]);
      reflexivity.
Defined.

(** X21: a reference without any whitespace (a bare book name, the empty
    string) is answered with the error "Invalid reference format"; no
    lookup is made and nothing is raised. *)
Theorem _analyze_single_word (verses : VerseStore) (reference : string) :
  all_chars (fun c => negb (Str.is_space c)) reference = true ->
  _analyze verses reference = Py.Return (AnalyzeError "Invalid reference format").
Proof.
  intros H. unfold _analyze. rewrite (words_without_space reference H).
  now destruct reference.
Qed.

Lemma _analyze_single_word_witness :
  _analyze [] "Genesis" = Py.Return (AnalyzeError "Invalid reference format").
Proof. apply (_analyze_single_word [] "Genesis"). reflexivity. Defined.

Lemma get_passage_sound (verses : VerseStore) (book : string)
    (start_chapter start_verse : Z) (range_end : option (Z * Z))
    (verse_data : Verse) :
  In verse_data (get_passage verses book start_chapter start_verse range_end) ->
  stored verses verse_data /\ upper (v_book verse_data) = upper book.
Proof.
  unfold get_passage. rewrite sorted_asc_In, filter_In, stored_map_snd.
  intros (Hs & Hb). split; [exact Hs |].
  apply andb_prop in Hb as [Hb _]. now apply String.eqb_eq in Hb.
Qed.

Lemma get_verse_sound (verses : VerseStore) (book : string) (chapter verse : Z)
    (verse_data : Verse) :
  get_verse verses book chapter verse = Some verse_data ->
  stored verses verse_data /\ upper (v_book verse_data) = upper book.
Proof.
  unfold get_verse.
  destruct (List.find _ verses) as [[c vd]|] eqn:E; [| discriminate].
  cbn [option_map snd]. intros [= <-].
  apply find_some in E as [Hin Hb]. cbn [snd] in Hb.
  split; [exists c; exact Hin |].
  apply andb_prop in Hb as [Hb _]. apply andb_prop in Hb as [Hb _].
  now apply String.eqb_eq in Hb.
Qed.

Lemma lookup_verses_sound (verses : VerseStore) (book verse_ref : string)
    (found : list Verse) :
  lookup_verses verses book verse_ref = Py.Return found ->
  Forall (fun verse_data =>
            stored verses verse_data /\ upper (v_book verse_data) = upper book)
         found.
Proof.
  unfold lookup_verses.
  destruct (Str.contains "-" verse_ref).
  - destruct (unpack_pair (Str.split "-" verse_ref)) as [[start end_]|];
      cbn [Py.bind]; [| discriminate].
    destruct (unpack_int_pair (Str.split ":" start)) as [[start_ch start_v]|];
      cbn [Py.bind]; [| discriminate].
    destruct (if Str.contains ":" end_
              then unpack_int_pair (Str.split ":" end_)
              else end_v <- py_int end_;; Py.Return (start_ch, end_v))
      as [e|]; cbn [Py.bind]; [| discriminate].
    intros [= <-]. apply Forall_forall. intros vd.
    apply get_passage_sound.
  - destruct (unpack_int_pair (Str.split ":" verse_ref)) as [[ch v]|];
      cbn [Py.bind]; [| discriminate].
    destruct (get_verse verses book ch v) as [vd|] eqn:E; intros [= <-];
      constructor; [| constructor].
    eapply get_verse_sound; eassumption.
Qed.

(** X22: every successful ANALYZE reply comes from a pipeline run on the
    full reference and the space-joined text of at least one stored verse
    of the named book, and carries the pipeline's invariants: the spiral
    is that of the reference, there are at most three seeds, each scoring
    at least 4, the status is "Fractal" exactly when there is a seed,
    which is exactly when urim is set, and thummim is set exactly when the
    centrality score is at least 2. *)
Theorem _analyze_success (verses : VerseStore) (reference replied : string)
    (a : Analysis) :
  _analyze verses reference = Py.Return (AnalyzeSuccess replied a) ->
  replied = reference /\
  (exists book verse_ref rest found r,
      words reference = book :: verse_ref :: rest /\
      found <> [] /\
      Forall (fun verse_data =>
                stored verses verse_data /\
                upper (v_book verse_data) = upper book) found /\
      telos_run reference (Str.join " " (map v_text found)) = Py.Return r /\
      a = report r) /\
  (exists sp, assign_spiral reference = Py.Return sp /\
              an_spiral a = Spiral_name sp) /\
  (length (an_pattern_seeds a) <= 3)%nat /\
  Forall (fun s => sr_score s >= 4) (an_pattern_seeds a) /\
  (an_fractal_status a = "Fractal" <-> an_pattern_seeds a <> []) /\
  (an_urim a = true <-> an_pattern_seeds a <> []) /\
  (an_thummim a = true <-> an_gravity_score a >= 2).
Proof.
  unfold _analyze.
  destruct (words reference) as [|book [|verse_ref rest]] eqn:Hw;
    try discriminate.
  destruct (lookup_verses verses book verse_ref) as [found|] eqn:Hl;
    cbn [Py.bind]; [| discriminate].
  destruct found as [|vd0 found']; [discriminate |].
  set (text := Str.join " " (map v_text (vd0 :: found'))).
  destruct (telos_run reference text) as [r | e] eqn:Hr;
    cbn [Py.bind]; [| discriminate].
  destruct (telos_run_stages reference text r Hr)
    as (Hsp & Hs & Ht & Hg & Hu & Hff).
  intros [= <- <-].
  split; [reflexivity |].
  split.
  { exists book, verse_ref, rest, (vd0 :: found'), r.
    repeat split; try assumption; try discriminate.
    now apply lookup_verses_sound with (verse_ref := verse_ref). }
  assert (Eseeds : pattern_seeds r =
                   select_seeds (Py.sorted_desc c_score (all_candidates text))).
  { rewrite pattern_seed_selected in Hs. congruence. }
  destruct (trace_seeds_returns (spiral r) (pattern_seeds r))
    as (traces & Ht' & Hlen & H7).
  assert (traces = echo_traces r) by congruence. subst traces.
  destruct (urim_thummim_of_run (pattern_seeds r) (echo_traces r)
              (gravity_sync_result r) H7) as (u & Hu' & Hurim & Hth & _).
  assert (u = urim_thummim_result r) by congruence. subst u.
  assert (Hiff : echo_traces r <> [] <-> pattern_seeds r <> []).
  { destruct (pattern_seeds r) as [|s l], (echo_traces r) as [|t l'];
      cbn [firstn length] in Hlen; try discriminate Hlen;
      split; congruence. }
  cbn [report an_spiral an_pattern_seeds an_fractal_status an_urim an_thummim
       an_gravity_score].
  set (reports := map (fun s => mkSeedReport (symbol s) (local_role s) (score s))
                      (pattern_seeds r)).
  assert (Hmap : reports <> [] <-> pattern_seeds r <> []).
  { unfold reports. destruct (pattern_seeds r); cbn [map]; split; congruence. }
  split; [exists (spiral r); now split |].
  split.
  { unfold reports. rewrite length_map, Eseeds. apply select_seeds_length. }
  split.
  { unfold reports. rewrite Forall_map. cbn [sr_score].
    rewrite Eseeds. apply select_seeds_score. }
  split.
  { rewrite Hmap, Hff. split.
    - intros Hc Hnil. rewrite Hnil in Hc.
      assert (Enil : echo_traces r = []).
      { destruct (echo_traces r); [reflexivity |].
        exfalso. apply (proj1 Hiff); [discriminate | exact Hnil]. }
      rewrite Enil in Hc. discriminate Hc.
    - intros Hne. apply fractal_filter_with_seeds;
        [exact Hne | now apply Hiff | exact H7]. }
  split; [now rewrite Hmap, Hurim |].
  rewrite Hth. split.
  - intros H. apply Z.geb_le in H. lia.
  - intros H. apply Z.geb_le. lia.
Qed.

Lemma _analyze_success_witness :
  exists a,
    an_spiral a = Spiral_name S6_CHRIST /\
    an_fractal_status a = "Fractal".
Proof.
  set (verses := [("L0.Q2.KJV.JOHN.1_29[C3]",
                   mkVerse "JOHN" 1 29 "Behold the Lamb of God"
                           "L0.Q2.KJV.JOHN.1_29[C3]" "JOHN 1:29")]).
  destruct (_analyze verses "John 1:29") as [[msg | replied a] | e] eqn:E;
    try (exfalso; vm_compute in E; discriminate E).
  exists a.
  destruct (_analyze_success verses "John 1:29" replied a E)
    as (_ & _ & (sp & Hsp & Ha) & _ & _ & Hf & _).
  split; [vm_compute in Hsp; injection Hsp as <-; exact Ha |].
  apply Hf. vm_compute in E. injection E as _ <-. discriminate.
Defined.

(** ** The ECHO handler *)

(** X23: the ECHO handler never raises, echoes the symbol as given, and
    ignores its letter case: two symbols that agree after uppercasing get
    the same seven roles and the same arc (so "water" reaches the curated
    WATER roles). *)
Theorem _echo_trace_case_insensitive (a b : string) :
  upper a = upper b ->
  exists ra rb,
    _echo_trace a = Py.Return ra /\
    _echo_trace b = Py.Return rb /\
    er_symbol ra = a /\ er_symbol rb = b /\
    er_spiral_roles ra = er_spiral_roles rb /\
    er_overall_arc ra = er_overall_arc rb /\
    length (er_spiral_roles ra) = 7%nat.
Proof.
  intros E. unfold _echo_trace. rewrite E.
  destruct (echo_trace_returns (upper b) S1_CREATION) as (t & -> & _ & Hlen).
  cbn [Py.bind]. do 2 eexists. repeat split. exact Hlen.
Qed.

Lemma _echo_trace_case_insensitive_witness :
  exists ra rb,
    _echo_trace "water" = Py.Return ra /\
    _echo_trace "WATER" = Py.Return rb /\
    er_symbol ra = "water" /\ er_symbol rb = "WATER" /\
    er_spiral_roles ra = er_spiral_roles rb /\
    er_overall_arc ra = er_overall_arc rb /\
    length (er_spiral_roles ra) = 7%nat.
Proof.
  apply (_echo_trace_case_insensitive "water" "WATER"). reflexivity.
Defined.

(** ** Storing and retrieving memories *)

Lemma str_get_set_same {V : Type} (d : list (string * V)) (k : string) (v : V) :
  str_get (str_set d k v) k = Some v.
Proof.
  induction d as [|[k' v'] d IH]; cbn [str_set str_get].
  - now rewrite String.eqb_refl.
  - destruct (String.eqb k' k) eqn:E; cbn [str_get]; rewrite E;
      [reflexivity | exact IH].
Qed.

Lemma str_get_set_other {V : Type} (d : list (string * V)) (k k' : string) (v : V) :
  k' <> k -> str_get (str_set d k v) k' = str_get d k'.
Proof.
  intros Hne. induction d as [|[k0 v0] d IH]; cbn [str_set str_get].
  - assert (E : String.eqb k k' = false) by (apply String.eqb_neq; congruence).
    now rewrite E.
  - destruct (String.eqb k0 k) eqn:E; cbn [str_get].
    + apply String.eqb_eq in E. subst k0.
      assert (E : String.eqb k k' = false) by (apply String.eqb_neq; congruence).
      now rewrite E.
    + destruct (String.eqb k0 k'); [reflexivity | exact IH].
Qed.

Section MemoryFacts.

Context {Content Meta : Type}.

Let Entry := MemoryEntry Content Meta.
Let Layers := list (Z * Layer Content Meta).

(** Storing under one coordinate does not change what any layer holds
    under another. *)
Lemma layer_store_other (layers layers' : Layers) (k : Z)
    (coordinate other : string) (entry : Entry) :
  layer_store layers k coordinate entry = Py.Return layers' ->
  other <> coordinate ->
  find_in_layers layers' other = find_in_layers layers other.
Proof.
  revert layers'. induction layers as [|[k' d] rest IH]; intros layers';
    cbn [layer_store]; [discriminate |].
  destruct (k' =? k).
  - intros [= <-] Hne. cbn [find_in_layers].
    now rewrite (str_get_set_other d coordinate other entry Hne).
  - destruct (layer_store rest k coordinate entry) as [rest'|];
      cbn [Py.bind]; [| discriminate].
    intros [= <-] Hne. cbn [find_in_layers].
    now rewrite (IH rest' eq_refl Hne).
Qed.

Lemma layer_store_keys (layers layers' : Layers) (k : Z) (coordinate : string)
    (entry : Entry) :
  layer_store layers k coordinate entry = Py.Return layers' ->
  map fst layers' = map fst layers.
Proof.
  revert layers'. induction layers as [|[k' d] rest IH]; intros layers';
    cbn [layer_store]; [discriminate |].
  destruct (k' =? k).
  - intros [= <-]. reflexivity.
  - destruct (layer_store rest k coordinate entry) as [rest'|];
      cbn [Py.bind]; [| discriminate].
    intros [= <-]. cbn [map fst]. now rewrite (IH rest' eq_refl).
Qed.

Lemma layer_store_returns (layers : Layers) (k : Z) (coordinate : string)
    (entry : Entry) :
  In k (map fst layers) ->
  exists layers', layer_store layers k coordinate entry = Py.Return layers'.
Proof.
  induction layers as [|[k' d] rest IH]; cbn [map fst In layer_store];
    [contradiction |].
  intros Hin. destruct (Z.eqb_spec k' k) as [-> | Hne]; [eauto |].
  destruct Hin as [E | Hin]; [congruence |].
  destruct (IH Hin) as [rest' ->]. cbn [Py.bind]. eauto.
Qed.

Lemma layer_store_first (layers layers' : Layers) (k : Z) (coordinate : string)
    (entry : Entry) :
  layer_store layers k coordinate entry = Py.Return layers' ->
  clear_before layers k coordinate ->
  find_in_layers layers' coordinate = Some entry.
Proof.
  revert layers'. induction layers as [|[k' d] rest IH]; intros layers';
    cbn [layer_store clear_before]; [discriminate |].
  destruct (Z.eqb_spec k' k) as [-> | Hne].
  - intros [= <-] _. cbn [find_in_layers].
    now rewrite str_get_set_same.
  - destruct (layer_store rest k coordinate entry) as [rest'|];
      cbn [Py.bind]; [| discriminate].
    intros [= <-] [E | [Hd Hrest]]; [congruence |].
    cbn [find_in_layers]. rewrite Hd. now apply IH.
Qed.

Lemma layer_store_shadowed (layers layers' : Layers) (k : Z) (coordinate : string)
    (entry : Entry) :
  layer_store layers k coordinate entry = Py.Return layers' ->
  held_before layers k coordinate ->
  find_in_layers layers' coordinate = find_in_layers layers coordinate.
Proof.
  revert layers'. induction layers as [|[k' d] rest IH]; intros layers';
    cbn [layer_store held_before]; [discriminate |].
  destruct (Z.eqb_spec k' k) as [-> | Hne]; [intros _ [H _]; congruence |].
  destruct (layer_store rest k coordinate entry) as [rest'|];
    cbn [Py.bind]; [| discriminate].
  intros [= <-] [_ Hheld]. cbn [find_in_layers].
  destruct (str_get d coordinate) as [old|]; [reflexivity |].
  destruct Hheld as [H | H]; [congruence | now apply IH].
Qed.

End MemoryFacts.

(** X24: storing and then retrieving.  In an engine with layers 1 to 7,
    storing into a layer in that range under a coordinate that does not
    start with "L0" and is not held by a lower-numbered layer succeeds;
    afterwards the coordinate retrieves exactly the stored record (with
    empty metadata when none was given), every other coordinate retrieves
    what it did before, and the verses are untouched. *)
Theorem store_then_retrieve {Content Meta : Type} (e : Engine Content Meta)
    (layer : Z) (coordinate : string) (content : Content)
    (metadata : option (list (string * Meta))) (lht_analysis : option TelosRun) :
  layers_keyed e ->
  1 <= layer <= 7 ->
  prefix "L0" coordinate = false ->
  (forall j d, In (j, d) (e_layers e) -> j < layer ->
               str_get d coordinate = None) ->
  exists e',
    store_memory e layer coordinate content metadata lht_analysis = Py.Return e' /\
    layers_keyed e' /\
    e_verses e' = e_verses e /\
    retrieve_memory e' coordinate =
      Some (inr (mkMemoryEntry content (metadata_or_empty metadata) coordinate
                               lht_analysis)) /\
    forall other, other <> coordinate ->
                  retrieve_memory e' other = retrieve_memory e other.
Proof.
  intros Hk Hl Hp Hfree.
  set (entry := mkMemoryEntry content (metadata_or_empty metadata) coordinate
                              lht_analysis).
  unfold store_memory.
  assert (E : negb ((1 <=? layer) && (layer <? 8)) = false).
  { apply negb_false_iff, andb_true_iff. split;
      [apply Z.leb_le | apply Z.ltb_lt]; lia. }
  rewrite E. fold entry.
  destruct (layer_store_returns (e_layers e) layer coordinate entry)
    as [layers' Hs].
  { rewrite Hk. cbn [In]. lia. }
  rewrite Hs. cbn [Py.bind]. eexists. split; [reflexivity |].
  unfold layers_keyed, retrieve_memory. cbn [e_layers e_verses].
  split; [now rewrite (layer_store_keys _ _ _ _ _ Hs) |].
  split; [reflexivity |].
  split.
  - rewrite Hp. rewrite (layer_store_first _ _ _ _ _ Hs); [reflexivity |].
    unfold layers_keyed in Hk.
    destruct (e_layers e)
      as [|[k1 d1] [|[k2 d2] [|[k3 d3] [|[k4 d4] [|[k5 d5] [|[k6 d6]
          [|[k7 d7] [|? ?]]]]]]]]; try discriminate Hk.
    cbn [map fst] in Hk. injection Hk as -> -> -> -> -> -> ->.
    cbn [clear_before].
    repeat match goal with
           | |- ?i = layer \/ _ =>
               destruct (Z.eq_dec i layer) as [? | ?];
               [left; assumption
               | right; split; [apply (Hfree i); [cbn [In]; tauto | lia] |]]
           end.
    exact I.
  - intros other Hne.
    now rewrite (layer_store_other _ _ _ _ _ _ Hs Hne).
Qed.

Lemma store_then_retrieve_witness :
  exists e' : Engine string string,
    store_memory new_engine 3 "L3.Q1.TECH.pattern" "content" None None
      = Py.Return e' /\
    retrieve_memory e' "L3.Q1.TECH.pattern" =
      Some (inr (mkMemoryEntry "content" [] "L3.Q1.TECH.pattern" None)).
Proof.
  destruct (store_then_retrieve (new_engine : Engine string string) 3
              "L3.Q1.TECH.pattern" "content" None None)
    as (e' & Hs & _ & _ & Hr & _).
  - reflexivity.
  - lia.
  - reflexivity.
  - intros j d Hin _. cbn in Hin.
    repeat (destruct Hin as [Hin | Hin]; [injection Hin as _ <-; reflexivity |]).
    contradiction.
  - exists e'. split; [exact Hs | exact Hr].
Defined.

(** X25: lost writes.  A store under a coordinate that starts with "L0",
    or that a lower-numbered layer already holds, succeeds but does not
    change what the coordinate retrieves. *)
Theorem store_memory_shadowed {Content Meta : Type} (e : Engine Content Meta)
    (layer : Z) (coordinate : string) (content : Content)
    (metadata : option (list (string * Meta))) (lht_analysis : option TelosRun) :
  layers_keyed e ->
  1 <= layer <= 7 ->
  prefix "L0" coordinate = true \/
  (exists j d, In (j, d) (e_layers e) /\ j < layer /\
               str_get d coordinate <> None) ->
  exists e',
    store_memory e layer coordinate content metadata lht_analysis = Py.Return e' /\
    retrieve_memory e' coordinate = retrieve_memory e coordinate.
Proof.
  intros Hk Hl Hcase.
  set (entry := mkMemoryEntry content (metadata_or_empty metadata) coordinate
                              lht_analysis).
  unfold store_memory.
  assert (E : negb ((1 <=? layer) && (layer <? 8)) = false).
  { apply negb_false_iff, andb_true_iff. split;
      [apply Z.leb_le | apply Z.ltb_lt]; lia. }
  rewrite E. fold entry.
  destruct (layer_store_returns (e_layers e) layer coordinate entry)
    as [layers' Hs].
  { rewrite Hk. cbn [In]. lia. }
  rewrite Hs. cbn [Py.bind]. eexists. split; [reflexivity |].
  unfold retrieve_memory. cbn [e_layers e_verses].
  destruct (prefix "L0" coordinate) eqn:Hp; [reflexivity |].
  destruct Hcase as [Hc | (j & d & Hin & Hj & Hd)]; [discriminate Hc |].
  rewrite (layer_store_shadowed _ _ _ _ _ Hs); [reflexivity |].
  unfold layers_keyed in Hk.
  destruct (e_layers e)
    as [|[k1 d1] [|[k2 d2] [|[k3 d3] [|[k4 d4] [|[k5 d5] [|[k6 d6]
        [|[k7 d7] [|? ?]]]]]]]]; try discriminate Hk.
  cbn [map fst] in Hk. injection Hk as -> -> -> -> -> -> ->.
  cbn [In] in Hin. cbn [held_before].
  repeat (destruct Hin as [Hin | Hin];
          [injection Hin as <- <-;
           repeat (split; [lia |]; first [left; exact Hd | right]) |]).
  contradiction.
Qed.

Lemma store_memory_shadowed_witness :
  exists e' : Engine string string,
    store_memory new_engine 2 "L0.Q1.KJV.GENESIS.1_1[C3]" "note" None None
      = Py.Return e' /\
    retrieve_memory e' "L0.Q1.KJV.GENESIS.1_1[C3]" =
      retrieve_memory (new_engine : Engine string string)
                      "L0.Q1.KJV.GENESIS.1_1[C3]".
Proof.
  apply (store_memory_shadowed (new_engine : Engine string string) 2
           "L0.Q1.KJV.GENESIS.1_1[C3]" "note" None None).
  - reflexivity.
  - lia.
  - left. reflexivity.
Defined.

(* ====================================================================== *)
(** * Properties of the coordinate grid *)
(* ====================================================================== *)

Lemma span_run (p : ascii -> bool) (a : string) (c : ascii) (r : string) :
  all_chars p a = true -> p c = false ->
  Grid.span p (a ++ String c r) = (a, String c r).
Proof.
  intros Ha Hc. induction a as [|x a IH]; cbn [append Grid.span].
  - now rewrite Hc.
  - cbn [all_chars] in Ha. apply andb_prop in Ha as [Hx Ha].
    now rewrite Hx, (IH Ha).
Qed.

Lemma span_spec (p : ascii -> bool) (s r rest : string) :
  Grid.span p s = (r, rest) -> s = r ++ rest /\ all_chars p r = true.
Proof.
  revert r rest. induction s as [|x s IH]; intros r rest; cbn [Grid.span].
  - intros [= <- <-]. split; reflexivity.
  - destruct (p x) eqn:Hx.
    + destruct (Grid.span p s) as [r' rest'] eqn:E. intros [= <- <-].
      destruct (IH r' rest' eq_refl) as [-> Hr].
      split; [reflexivity |]. cbn [all_chars]. now rewrite Hx, Hr.
    + intros [= <- <-]. split; reflexivity.
Qed.

Lemma run_complete (p : ascii -> bool) (a : string) (c : ascii) (r : string) :
  name_like p a = true -> p c = false ->
  Grid.run p (a ++ String c r) = Some (a, String c r).
Proof.
  unfold name_like, Grid.run. intros Ha Hc.
  apply andb_prop in Ha as [Hne Ha].
  now rewrite (span_run p a c r Ha Hc), Hne.
Qed.

Lemma run_sound (p : ascii -> bool) (s r rest : string) :
  Grid.run p s = Some (r, rest) -> s = r ++ rest /\ name_like p r = true.
Proof.
  unfold Grid.run, name_like.
  destruct (Grid.span p s) as [r' rest'] eqn:E.
  destruct (Str.nonempty r') eqn:Hne; [| discriminate].
  intros [= <- <-]. destruct (span_spec p s r' rest' E) as [-> Hr].
  split; [reflexivity |]. now rewrite Hne, Hr.
Qed.

Lemma expect_sound (c : ascii) (s s' : string) :
  Grid.expect c s = Some s' -> s = String c s'.
Proof.
  destruct s as [|x s]; cbn [Grid.expect]; [discriminate |].
  destruct (Ascii.eqb_spec x c) as [-> |]; [| discriminate].
  now intros [= <-].
Qed.

Lemma digit_sound (s : string) (d : ascii) (s' : string) :
  Grid.digit s = Some (d, s') -> s = String d s' /\ Str.is_digit d = true.
Proof.
  destruct s as [|x s]; cbn [Grid.digit]; [discriminate |].
  destruct (Str.is_digit x) eqn:E; [| discriminate].
  intros [= <- <-]. now split.
Qed.

(** The matcher accepts every text of the pattern's shape... *)
Lemma match_coordinate_complete (m : Grid.Groups) (rest : string) :
  Str.is_digit (Grid.g_layer m) = true ->
  Str.is_digit (Grid.g_quadrant m) = true ->
  name_like Grid.is_name_char (Grid.g_lexicon m) = true ->
  name_like Grid.is_entity_char (Grid.g_entity m) = true ->
  Str.is_digit (Grid.g_coherence m) = true ->
  Grid.match_coordinate (coordinate_text m rest) = Some m.
Proof.
  destruct m as [d1 d2 lex ent d3].
  cbn [Grid.g_layer Grid.g_quadrant Grid.g_lexicon Grid.g_entity Grid.g_coherence].
  intros H1 H2 Hl He H3.
  unfold Grid.match_coordinate, coordinate_text.
  cbn [Grid.g_layer Grid.g_quadrant Grid.g_lexicon Grid.g_entity Grid.g_coherence].
  do 6 (cbn [Grid.expect Grid.digit]; rewrite ?Ascii.eqb_refl, ?H1, ?H2).
  rewrite (run_complete Grid.is_name_char lex "." _ Hl eq_refl).
  cbn [Grid.expect]. rewrite Ascii.eqb_refl.
  rewrite (run_complete Grid.is_entity_char ent "[" _ He eq_refl).
  do 4 (cbn [Grid.expect Grid.digit]; rewrite ?Ascii.eqb_refl, ?H3).
  reflexivity.
Qed.

(** ... and nothing else. *)
Lemma match_coordinate_sound (s : string) (m : Grid.Groups) :
  Grid.match_coordinate s = Some m ->
  (exists rest, s = coordinate_text m rest) /\
  Str.is_digit (Grid.g_layer m) = true /\
  Str.is_digit (Grid.g_quadrant m) = true /\
  name_like Grid.is_name_char (Grid.g_lexicon m) = true /\
  name_like Grid.is_entity_char (Grid.g_entity m) = true /\
  Str.is_digit (Grid.g_coherence m) = true.
Proof.
  unfold Grid.match_coordinate.
  destruct (Grid.expect "L" s) as [s1|] eqn:E1; [| discriminate].
  destruct (Grid.digit s1) as [[d1 s2]|] eqn:E2; [| discriminate].
  destruct (Grid.expect "." s2) as [s3|] eqn:E3; [| discriminate].
  destruct (Grid.expect "Q" s3) as [s4|] eqn:E4; [| discriminate].
  destruct (Grid.digit s4) as [[d2 s5]|] eqn:E5; [| discriminate].
  destruct (Grid.expect "." s5) as [s6|] eqn:E6; [| discriminate].
  destruct (Grid.run Grid.is_name_char s6) as [[lex s7]|] eqn:E7; [| discriminate].
  destruct (Grid.expect "." s7) as [s8|] eqn:E8; [| discriminate].
  destruct (Grid.run Grid.is_entity_char s8) as [[ent s9]|] eqn:E9; [| discriminate].
  destruct (Grid.expect "[" s9) as [s10|] eqn:E10; [| discriminate].
  destruct (Grid.expect "C" s10) as [s11|] eqn:E11; [| discriminate].
  destruct (Grid.digit s11) as [[d3 s12]|] eqn:E12; [| discriminate].
  destruct (Grid.expect "]" s12) as [s13|] eqn:E13; [| discriminate].
  intros [= <-].
  cbn [Grid.g_layer Grid.g_quadrant Grid.g_lexicon Grid.g_entity Grid.g_coherence].
  apply expect_sound in E1, E3, E4, E6, E8, E10, E11, E13.
  apply digit_sound in E2 as [E2 H1], E5 as [E5 H2], E12 as [E12 H3].
  apply run_sound in E7 as [E7 Hl], E9 as [E9 He].
  split; [| now repeat split].
  exists s13. unfold coordinate_text.
  cbn [Grid.g_layer Grid.g_quadrant Grid.g_lexicon Grid.g_entity Grid.g_coherence].
  congruence.
Qed.

Lemma digit_cases (d : ascii) :
  Str.is_digit d = true ->
  In d ["0"; "1"; "2"; "3"; "4"; "5"; "6"; "7"; "8"; "9"]%char.
Proof.
  destruct d as [[] [] [] [] [] [] [] []]; intros H;
    try (vm_compute in H; discriminate H); cbn [In]; tauto.
Qed.

Lemma Layer_getitem_sound (name : string) (l : Grid.Layer) :
  Grid.Layer_getitem name = Py.Return l -> Grid.Layer_name l = name.
Proof.
  unfold Grid.Layer_getitem.
  destruct (List.find _ Grid.Layer_members) as [l'|] eqn:E; [| discriminate].
  intros [= <-]. apply find_some in E as [_ E]. now apply String.eqb_eq in E.
Qed.

Lemma Quadrant_getitem_sound (name : string) (q : Grid.Quadrant) :
  Grid.Quadrant_getitem name = Py.Return q -> Grid.Quadrant_name q = name.
Proof.
  unfold Grid.Quadrant_getitem.
  destruct (List.find _ Grid.Quadrant_members) as [q'|] eqn:E; [| discriminate].
  intros [= <-]. apply find_some in E as [_ E]. now apply String.eqb_eq in E.
Qed.

(** Printing the value of a digit gives the digit back. *)
Lemma py_str_digit (d : ascii) :
  Str.is_digit d = true -> py_str (Str.to_int (String d "")) = String d "".
Proof.
  intros H. apply digit_cases in H. cbn [In] in H.
  repeat (destruct H as [<- | H]; [reflexivity |]). contradiction.
Qed.

(** The text of a printed coordinate, by the groups the pattern finds. *)
Lemma to_string_text (c : Grid.EzekielCoordinate) (d1 d2 d3 : ascii) (rest : string) :
  Grid.Layer_name (Grid.layer c) = String "L" (String d1 "") ->
  Grid.Quadrant_name (Grid.quadrant c) = String "Q" (String d2 "") ->
  py_str (Grid.coherence c) = String d3 "" ->
  Grid.to_string c ++ rest =
    coordinate_text (Grid.mkGroups d1 d2 (Grid.lexicon c) (Grid.entity c) d3) rest.
Proof.
  intros H1 H2 H3. unfold Grid.to_string, coordinate_text.
  rewrite H1, H2, H3. rewrite !append_assoc.
  cbn [append Grid.g_layer Grid.g_quadrant Grid.g_lexicon Grid.g_entity
       Grid.g_coherence].
  reflexivity.
Qed.

Lemma Layer_name_digit (l : Grid.Layer) :
  exists d, Grid.Layer_name l = String "L" (String d "") /\
            Str.is_digit d = true /\
            Grid.Layer_getitem (String "L" (String d "")) = Py.Return l.
Proof. destruct l; eexists; repeat split. Qed.

Lemma Quadrant_name_digit (q : Grid.Quadrant) :
  exists d, Grid.Quadrant_name q = String "Q" (String d "") /\
            Str.is_digit d = true /\
            Grid.Quadrant_getitem (String "Q" (String d "")) = Py.Return q.
Proof. destruct q; eexists; repeat split. Qed.

Lemma coherence_digit (n : Z) :
  0 <= n <= 3 ->
  exists d, py_str n = String d "" /\ Str.is_digit d = true /\
            Str.to_int (String d "") = n.
Proof.
  intros H.
  assert (E : n = 0 \/ n = 1 \/ n = 2 \/ n = 3) by lia.
  destruct E as [-> | [-> | [-> | ->]]]; eexists; repeat split.
Qed.

(** X26: printing and parsing back.  A coordinate whose lexicon is a
    non-empty string over [A-Z_], whose entity is a non-empty string over
    [A-Z_.] and whose coherence is 0 to 3 is what [from_string] reads
    from its printed form, whatever text follows that form. *)
Theorem from_string_to_string (c : Grid.EzekielCoordinate) (rest : string) :
  well_formed c ->
  Grid.from_string (Grid.to_string c ++ rest) = Py.Return c.
Proof.
  intros (Hl & He & Hc).
  destruct (Layer_name_digit (Grid.layer c)) as (d1 & N1 & D1 & G1).
  destruct (Quadrant_name_digit (Grid.quadrant c)) as (d2 & N2 & D2 & G2).
  destruct (coherence_digit (Grid.coherence c) Hc) as (d3 & N3 & D3 & V3).
  rewrite (to_string_text c d1 d2 d3 rest N1 N2 N3).
  unfold Grid.from_string.
  rewrite match_coordinate_complete by assumption.
  cbn [Grid.g_layer Grid.g_quadrant Grid.g_lexicon Grid.g_entity Grid.g_coherence].
  rewrite G1, G2, V3. cbn [Py.bind]. unfold Grid.new.
  assert (E : negb ((0 <=? Grid.coherence c) && (Grid.coherence c <=? 3)) = false).
  { apply negb_false_iff, andb_true_iff. split; apply Z.leb_le; lia. }
  rewrite E. now destruct c.
Qed.

Lemma from_string_to_string_witness :
  Grid.from_string "L4.Q3.TECH.NETWORK[C2] and more" =
    Py.Return (Grid.mkCoordinate Grid.L4 Grid.Q3 "TECH" "NETWORK" 2).
Proof.
  apply (from_string_to_string
           (Grid.mkCoordinate Grid.L4 Grid.Q3 "TECH" "NETWORK" 2) " and more").
  unfold well_formed. cbn [Grid.lexicon Grid.entity Grid.coherence].
  split; [reflexivity | split; [reflexivity | lia]].
Defined.

(** X27: parsing and printing back, on ASCII text.  Whatever
    [from_string] returns for a string within ASCII is well formed, and
    the string starts with the printed form of the result; only text
    after that form is lost.  (Outside ASCII [\d] also matches other
    decimal digits, which are printed back as 0 to 9.) *)
Theorem from_string_sound (s : string) (c : Grid.EzekielCoordinate) :
  ascii_text s = true ->
  Grid.from_string s = Py.Return c ->
  well_formed c /\ exists rest, s = Grid.to_string c ++ rest.
Proof.
  intros _. unfold Grid.from_string.
  destruct (Grid.match_coordinate s) as [m|] eqn:E; [| discriminate].
  destruct (match_coordinate_sound s m E) as ([rest ->] & D1 & D2 & Hl & He & D3).
  destruct (Grid.Layer_getitem _) as [l|] eqn:G1; cbn [Py.bind]; [| discriminate].
  destruct (Grid.Quadrant_getitem _) as [q|] eqn:G2; cbn [Py.bind]; [| discriminate].
  unfold Grid.new.
  destruct (negb _) eqn:Hc; [discriminate |].
  intros [= <-].
  apply negb_false_iff, andb_true_iff in Hc as [Hc1 Hc2].
  apply Z.leb_le in Hc1, Hc2.
  split.
  - unfold well_formed. cbn [Grid.lexicon Grid.entity Grid.coherence].
    repeat split; assumption.
  - exists rest.
    rewrite (to_string_text _ (Grid.g_layer m) (Grid.g_quadrant m)
               (Grid.g_coherence m) rest).
    + now destruct m.
    + now apply Layer_getitem_sound.
    + now apply Quadrant_getitem_sound.
    + cbn [Grid.coherence]. now apply py_str_digit.
Qed.

Lemma from_string_sound_witness :
  let c := Grid.mkCoordinate Grid.L4 Grid.Q3 "TECH" "NETWORK" 2 in
  Grid.from_string "L4.Q3.TECH.NETWORK[C2]" = Py.Return c /\
  well_formed c /\
  exists rest, "L4.Q3.TECH.NETWORK[C2]" = Grid.to_string c ++ rest.
Proof.
  cbv zeta. split; [reflexivity |].
  apply (from_string_sound "L4.Q3.TECH.NETWORK[C2]"); reflexivity.
Defined.

(** No string that starts with "L0" is parsed. *)
Lemma from_string_layer0_raises (s : string) :
  prefix "L0" s = true ->
  exists e, Grid.from_string s = Py.Raise e /\
            (e = Py.ValueError \/ e = Py.KeyError).
Proof.
  intros Hp. unfold Grid.from_string.
  destruct (Grid.match_coordinate s) as [m|] eqn:E; [| eauto].
  destruct (match_coordinate_sound s m E) as ([rest ->] & _).
  unfold coordinate_text in Hp. cbn [prefix] in Hp.
  destruct (ascii_dec "L" "L") as [_ | N]; [| discriminate Hp].
  destruct (ascii_dec "0" (Grid.g_layer m)) as [<- | N]; [| discriminate Hp].
  exists Py.KeyError. split; [reflexivity | now right].
Qed.

(** X28: the coordinates of Layer 0 are outside the grid's own format.
    For every string that starts with "L0", [from_string] raises: a
    ValueError when the pattern does not match, a KeyError (there is no
    layer L0) when it does. *)
Theorem from_string_rejects_layer0 (s : string) :
  prefix "L0" s = true ->
  (Grid.match_coordinate s = None /\
   Grid.from_string s = Py.Raise Py.ValueError) \/
  (Grid.match_coordinate s <> None /\
   Grid.from_string s = Py.Raise Py.KeyError).
Proof.
  intros Hp. unfold Grid.from_string.
  destruct (Grid.match_coordinate s) as [m|] eqn:E.
  - right. split; [discriminate |].
    destruct (match_coordinate_sound s m E) as ([rest ->] & _).
    unfold coordinate_text in Hp. cbn [prefix] in Hp.
    destruct (ascii_dec "L" "L") as [_ | N]; [| discriminate Hp].
    destruct (ascii_dec "0" (Grid.g_layer m)) as [<- | N]; [| discriminate Hp].
    reflexivity.
  - left. now split.
Qed.

Lemma from_string_rejects_layer0_witness :
  Grid.from_string "L0.Q2.KJV.GENESIS.1_1[C3]" = Py.Raise Py.ValueError /\
  Grid.from_string "L0.Q2.KJV.AB[C1].1_1[C3]" = Py.Raise Py.KeyError.
Proof.
  split.
  - destruct (from_string_rejects_layer0 "L0.Q2.KJV.GENESIS.1_1[C3]" eq_refl)
      as [[_ H] | [H _]]; [exact H | exfalso; apply H; reflexivity].
  - destruct (from_string_rejects_layer0 "L0.Q2.KJV.AB[C1].1_1[C3]" eq_refl)
      as [[H _] | [_ H]]; [discriminate H | exact H].
Defined.

(* ====================================================================== *)
(** * Properties of loading and searching Scripture *)
(* ====================================================================== *)

Lemma verse_coordinate_layer0 (current_book : string) (current_chapter verse_num : Z) :
  prefix "L0" (verse_coordinate current_book current_chapter verse_num) = true.
Proof. reflexivity. Qed.

Lemma caught_state (e : Py.exn) (st : LoadState) : step_state (caught e st) = st.
Proof. now destruct e. Qed.

Lemma load_verse_keeps (st : LoadState) (line current_book : string)
    (current_chapter : Z) :
  keeps st (load_verse st line current_book current_chapter).
Proof.
  unfold keeps, load_verse.
  destruct (unpack_pair (split_once ":" line)) as [[verse_num verse_text]|e];
    [| now rewrite caught_state].
  destruct (py_int (Str.strip verse_num)) as [n|e]; [| now rewrite caught_state].
  cbv zeta.
  destruct (from_string_layer0_raises _
              (verse_coordinate_layer0 current_book current_chapter n))
    as (e & -> & _).
  rewrite caught_state. split; reflexivity.
Qed.

Lemma load_line_keeps (st : LoadState) (line : string) :
  keeps st (load_line st line).
Proof.
  unfold load_line. cbv zeta.
  destruct (negb (Str.nonempty (Str.strip line))); [now split |].
  destruct (isupper (Str.strip line) && _); [now split |].
  destruct (isdigit (Str.strip line)).
  - destruct (py_int (Str.strip line)); now split.
  - destruct (ls_cursor st) as [ch | current_book current_chapter]; [now split |].
    destruct (Str.contains ":" (Str.strip line) && Str.nonempty current_book);
      [apply load_verse_keeps | now split].
Qed.

Lemma load_lines_keeps (lines : list string) (st : LoadState) :
  keeps st (load_lines st lines).
Proof.
  revert st. induction lines as [|line rest IH]; intros st; cbn [load_lines];
    [now split |].
  pose proof (load_line_keeps st line) as [Hc Hs].
  destruct (load_line st line) as [st' | st' e]; cbn [step_state] in Hc, Hs.
  - destruct (IH st') as [Hc' Hs']. split; congruence.
  - split; assumption.
Qed.

Lemma read_first_raises (fs : FileSystem) (paths : list (option string))
    (e : Py.exn) :
  read_first fs paths = Py.Raise e ->
  exists path, In (Some path) paths /\ fs path = ReadFails e.
Proof.
  induction paths as [|[path|] rest IH]; cbn [read_first In].
  - discriminate.
  - destruct (fs path) as [content | | e'] eqn:E.
    + discriminate.
    + intros H. destruct (IH H) as (p & Hin & Hp). eauto.
    + intros [= <-]. eauto.
  - intros H. destruct (IH H) as (p & Hin & Hp). eauto.
Qed.

Lemma read_first_returns (fs : FileSystem) (paths : list (option string)) :
  (forall path e, fs path <> ReadFails e) ->
  exists content, read_first fs paths = Py.Return content.
Proof.
  intros N. destruct (read_first fs paths) as [content | e] eqn:E; [eauto |].
  destruct (read_first_raises fs paths e E) as (path & _ & H).
  exfalso. exact (N path e H).
Qed.

(** X29: the loader counts nothing.  Whatever the files hold, [load_kjv]
    never returns a count other than 0 and leaves the coordinate space as
    it was: each verse is written to the store first, and the parse of
    its "L0" coordinate, which comes before the count is raised, always
    fails.  It returns 0 unless reading a candidate path fails with an
    exception that is not an IOError (a file that is not UTF-8); that
    exception leaves the function, and the object is untouched. *)
Theorem load_kjv_counts_nothing (self : Layer0) (fs : FileSystem)
    (bible_path : option string) :
  let out := load_kjv self fs bible_path in
  l0_coordinates (fst out) = l0_coordinates self /\
  (forall n, snd out = Py.Return n -> n = 0) /\
  (forall e, snd out = Py.Raise e ->
             fst out = self /\
             exists path, In (Some path) (possible_paths bible_path) /\
                          fs path = ReadFails e) /\
  ((forall path e, fs path <> ReadFails e) -> snd out = Py.Return 0).
Proof.
  cbv zeta. unfold load_kjv.
  destruct (read_first fs (possible_paths bible_path)) as [[content|] | e] eqn:R.
  - pose proof (load_lines_keeps (Str.split "010" content)
                  (mkLoadState self (NoBook None) 0)) as [Hc Hs].
    destruct (load_lines _ _) as [st | st e];
      cbn [step_state ls_verse_count ls_self] in Hc, Hs;
      cbn [fst snd l0_coordinates].
    + split; [exact Hs |]. split; [intros n [= <-]; exact Hc |].
      split; [discriminate | intros _; now rewrite Hc].
    + split; [exact Hs |]. split; [now intros n [= <-] |].
      split; [discriminate | reflexivity].
  - cbn [fst snd]. split; [reflexivity |]. split; [now intros n [= <-] |].
    split; [discriminate | reflexivity].
  - cbn [fst snd]. split; [reflexivity |]. split; [discriminate |].
    split.
    + intros e' [= <-]. split; [reflexivity |].
      now apply read_first_raises.
    + intros N. destruct (read_first_returns fs (possible_paths bible_path) N)
        as [content H]. congruence.
Qed.

(** The verses themselves are stored all the same. *)
Example load_kjv_stores_verses :
  let fs path :=
    if String.eqb path "pg10.txt"
    then ReadText "GENESIS
1: In the beginning God created
2: And the earth was without form"
    else ReadMissing in
  let out := load_kjv (mkLayer0 [] [] false) fs None in
  snd out = Py.Return 0 /\
  map fst (l0_verses (fst out)) =
    ["L0.Q2.KJV.GENESIS.1_1[C3]"; "L0.Q3.KJV.GENESIS.1_2[C3]"] /\
  option_map v_text (get_verse (l0_verses (fst out)) "Genesis" 1 2) =
    Some "And the earth was without form".
Proof. vm_compute. repeat split. Qed.

(** A file that is not UTF-8 makes the loader raise. *)
Example load_kjv_undecodable :
  let fs path :=
    if String.eqb path "pg10.txt" then ReadFails Py.ValueError else ReadMissing in
  snd (load_kjv (mkLayer0 [] [] false) fs None) = Py.Raise Py.ValueError.
Proof. reflexivity. Qed.

Lemma search_loop_firstn (query : string) (limit : Z) (values results : list Verse) :
  Z.of_nat (length results) < Z.max 1 limit ->
  search_loop (Str.lower query) limit values results =
    (results ++
     firstn (Z.to_nat (Z.max 1 limit) - length results)
            (filter (text_matches query) values))%list.
Proof.
  revert results.
  induction values as [|verse_data rest IH]; intros results Hlen;
    cbn [search_loop filter].
  - now rewrite firstn_nil, app_nil_r.
  - unfold text_matches at 1.
    destruct (Str.contains (Str.lower query) (Str.lower (v_text verse_data))).
    + assert (Hs : (Z.to_nat (Z.max 1 limit) - length results =
                    S (Z.to_nat (Z.max 1 limit) - length (results ++ [verse_data])))%nat).
      { rewrite length_app. cbn [length]. lia. }
      rewrite Hs. cbn [firstn].
      unfold Py.len.
      destruct (Z.geb_spec (Z.of_nat (length (results ++ [verse_data]))) limit)
        as [Hge | Hlt].
      * assert (Hz : (Z.to_nat (Z.max 1 limit) - length (results ++ [verse_data]) = 0)%nat).
        { rewrite length_app in *. cbn [length] in *. lia. }
        rewrite Hz. reflexivity.
      * rewrite IH.
        -- now rewrite <- app_assoc.
        -- lia.
    + now apply IH.
Qed.

(** X30: a text search returns the first [max(limit, 1)] verses, in the
    order of the store, whose text contains the query without regard to
    letter case; with a limit of 0 or less it still returns the first
    match. *)
Theorem search_text_first_matches (verses : VerseStore) (query : string)
    (limit : Z) :
  search_text verses query limit =
    firstn (Z.to_nat (Z.max 1 limit))
           (filter (text_matches query) (map snd verses)).
Proof.
  unfold search_text.
  rewrite (search_loop_firstn query limit (map snd verses) []).
  - cbn [length app]. now rewrite Nat.sub_0_r.
  - cbn [length]. lia.
Qed.
